(** * floweMobile: the ledger, referral and settlement core

    A shallow embedding of the handlers that move points and cash between
    user balances: point transfers (store/vip-store.ts, vip-admin.tsx), the
    multi-level referral walk (processReferralBonuses, approveUser), dice
    round settlement (dice-admin.tsx), the investment life cycle, the ultra
    manual game and the administrator's balance editor.

    Conventions of the embedding.
    - A Firestore collection is the list of its documents, [(id, data)], in
      document order; [docs[0]] of a query is the head of the filtered list.
    - Balances and wagered amounts are integers ([Z]); for an integer [n]
      the source's [n || 0] is [n].  The interest rate of an investment is
      a genuine IEEE-754 double, as [parseFloat] returns it.
    - [new Date()] is the [now] argument of a handler; [confirm] and
      [prompt] dialogs are arguments holding the administrator's answer;
      ids that Firestore generates for [addDoc] are arguments as well.
    - A template literal is the list of its fragments, interpolated values
      left unrendered. *)

From Stdlib Require Import ZArith Lia SpecFloat.
From stdpp Require Import base option list strings gmap pretty.

Open Scope Z_scope.

(** ** JavaScript values *)

Module Js.

(** A JavaScript [number]: a binary64 value. *)
Definition number : Type := spec_float.

Definition prec : Z := 53.
Definition emax : Z := 1024.

(** The double nearest to an integer. *)
Definition ofZ (z : Z) : number := binary_normalize prec emax z 0 false.

Definition add (x y : number) : number := SFadd prec emax x y.
Definition mul (x y : number) : number := SFmul prec emax x y.
Definition div (x y : number) : number := SFdiv prec emax x y.
Definition leb (x y : number) : bool := SFleb x y.

Definition isNaN (x : number) : bool :=
  match x with S754_nan => true | _ => false end.

(** [x > 0]: false for NaN, as every comparison with NaN is. *)
Definition positive (x : number) : bool :=
  match x with
  | S754_finite false _ _ | S754_infinity false => true
  | _ => false
  end.

(** [Math.floor] of a finite double, as an integer; [None] for NaN and
    the infinities, which [Math.floor] returns unchanged. *)
Definition Math_floor (x : number) : option Z :=
  match x with
  | S754_zero _ => Some 0
  | S754_finite s m e =>
      let v := if s then Z.neg m else Z.pos m in
      Some (if 0 <=? e then v * 2 ^ e else v / 2 ^ (- e))
  | S754_infinity _ | S754_nan => None
  end.

(** [String.prototype.toLowerCase], on the ASCII letters. *)
Definition lower_ascii (c : Ascii.ascii) : Ascii.ascii :=
  let n := Ascii.N_of_ascii c in
  if ((65 <=? n) && (n <=? 90))%N then Ascii.ascii_of_N (n + 32) else c.

Fixpoint toLowerCase (s : string) : string :=
  match s with
  | EmptyString => EmptyString
  | String c r => String (lower_ascii c) (toLowerCase r)
  end.

Definition startsWith (s p : string) : bool := String.prefix p s.

(** Truthiness of a string: [!s] holds of the empty string only. *)
Definition nonempty (s : string) : bool := negb (String.eqb s "").

(** Not below zero: a zero of either sign, a positive finite number,
    plus infinity; NaN counts, as [Math.floor] gives no integer for it. *)
Definition notNegative (x : number) : Prop :=
  match x with
  | S754_finite s _ _ | S754_infinity s => s = false
  | S754_zero _ | S754_nan => True
  end.

(** [String.prototype.trim], on the ASCII white space. *)
Definition isSpace (c : Ascii.ascii) : bool :=
  let n := Ascii.N_of_ascii c in ((n =? 32) || ((9 <=? n) && (n <=? 13)))%N.

Fixpoint trimStart (s : string) : string :=
  match s with
  | String c r => if isSpace c then trimStart r else s
  | EmptyString => EmptyString
  end.

Definition trim (s : string) : string :=
  String.rev (trimStart (String.rev (trimStart s))).

End Js.

(** ** Firestore collections *)

Definition DocId : Type := string.

Section Collection.
Context {A : Type}.

Definition docIds (c : list (DocId * A)) : list DocId := map fst c.

(** [getDoc(doc(db, c, id))]: [None] when [exists()] is false. *)
Fixpoint getDoc (c : list (DocId * A)) (id : DocId) : option A :=
  match c with
  | [] => None
  | (i, a) :: r => if decide (i = id) then Some a else getDoc r id
  end.

Definition mergeDoc (id : DocId) (f : A -> A) (c : list (DocId * A))
  : list (DocId * A) :=
  map (fun d => if decide (fst d = id) then (fst d, f (snd d)) else d) c.

(** [updateDoc] merges fields into an existing document and is rejected
    when there is none. *)
Definition updateDoc (c : list (DocId * A)) (id : DocId) (f : A -> A)
  : option (list (DocId * A)) :=
  match getDoc c id with
  | Some _ => Some (mergeDoc id f c)
  | None => None
  end.

(** [addDoc], with the generated id supplied. *)
Definition addDoc (c : list (DocId * A)) (id : DocId) (a : A)
  : list (DocId * A) := c ++ [(id, a)].

Definition deleteDoc (c : list (DocId * A)) (id : DocId)
  : list (DocId * A) :=
  List.filter (fun d => negb (bool_decide (fst d = id))) c.

(** [getDocs(query(c, where(...)))]. *)
Definition getDocs (c : list (DocId * A)) (p : A -> bool)
  : list (DocId * A) :=
  List.filter (fun d => p (snd d)) c.

End Collection.

(** ** Documents *)

Module Field.
(** The two balance fields of a user document. *)
Inductive t := points | cash.

Global Instance eq_dec : EqDecision t.
Proof. solve_decision. Defined.

Definition name (f : t) : string :=
  match f with points => "points" | cash => "cash" end.
End Field.

Module User.
Record t := mk {
  username : string;
  points : Z;
  cash : Z;
  referralCode : string;
  referralCodeFriend : string;
  referrals : list DocId;
  approved : bool;
  disabled : bool
}.

Definition set_points (v : Z) (u : t) : t :=
  mk (username u) v (cash u) (referralCode u) (referralCodeFriend u)
     (referrals u) (approved u) (disabled u).
Definition set_cash (v : Z) (u : t) : t :=
  mk (username u) (points u) v (referralCode u) (referralCodeFriend u)
     (referrals u) (approved u) (disabled u).
Definition set_referrals (v : list DocId) (u : t) : t :=
  mk (username u) (points u) (cash u) (referralCode u)
     (referralCodeFriend u) v (approved u) (disabled u).
Definition set_approved (v : bool) (u : t) : t :=
  mk (username u) (points u) (cash u) (referralCode u)
     (referralCodeFriend u) (referrals u) v (disabled u).

Definition balance (f : Field.t) (u : t) : Z :=
  match f with Field.points => points u | Field.cash => cash u end.
Definition set_balance (f : Field.t) (v : Z) (u : t) : t :=
  match f with
  | Field.points => set_points v u
  | Field.cash => set_cash v u
  end.

(** [{ [field]: increment(n) }] *)
Definition increment (f : Field.t) (n : Z) (u : t) : t :=
  set_balance f (balance f u + n) u.
End User.

(** A fragment of a template literal. *)
Inductive Fragment :=
| Txt (s : string)
| Int (z : Z)
| Num (x : Js.number).

Module Transaction.
Record t := mk {
  userId : DocId;
  username : string;
  amount : option Z;
  type : string;
  description : list Fragment;
  timestamp : Z;
  (** [balanceAfter: { points, cash }] *)
  balanceAfter : option (Z * Z);
  fee : option Js.number
}.
End Transaction.

Module Request.
Inductive type := vip_upgrade | point_transfer | withdrawal | loan.
Inductive status := pending | approved | declined.

Global Instance type_eq_dec : EqDecision type.
Proof. solve_decision. Defined.
Global Instance status_eq_dec : EqDecision status.
Proof. solve_decision. Defined.

(** One record for the documents of [requests]; a field that a request
    type does not carry keeps its default. *)
Record t := mk {
  userId : DocId;
  username : string;
  rtype : type;
  recipientId : DocId;
  recipientUsername : string;
  amount : Z;
  currentLevel : Z;
  targetLevel : Z;
  rstatus : status;
  timestamp : Z;
  processedAt : option Z;
  declineReason : option string;
  fee : option Js.number;
  directTransfer : bool
}.

(** [{ status, processedAt, declineReason?, fee? }] merged into a request. *)
Definition process (st : status) (now : Z) (reason : option string)
    (fe : option Js.number) (r : t) : t :=
  mk (userId r) (username r) (rtype r) (recipientId r) (recipientUsername r)
     (amount r) (currentLevel r) (targetLevel r) st (timestamp r) (Some now)
     (match reason with Some _ => reason | None => declineReason r end)
     (match fe with Some _ => fe | None => fee r end)
     (directTransfer r).
End Request.

Module Investment.
Inductive status := pending | approved | completed | declined.

Global Instance status_eq_dec : EqDecision status.
Proof. solve_decision. Defined.

Record t := mk {
  userId : DocId;
  username : string;
  amount : Z;
  istatus : status;
  interestRate : Js.number;
  releaseDate : option Z;
  createdAt : Z;
  approvedAt : option Z;
  completedAt : option Z;
  declinedAt : option Z;
  adminNotes : option string
}.

Definition decline (now : Z) (i : t) : t :=
  mk (userId i) (username i) (amount i) declined (interestRate i)
     (releaseDate i) (createdAt i) (approvedAt i) (completedAt i) (Some now)
     (adminNotes i).
Definition complete (now : Z) (i : t) : t :=
  mk (userId i) (username i) (amount i) completed (interestRate i)
     (releaseDate i) (createdAt i) (approvedAt i) (Some now) (declinedAt i)
     (adminNotes i).
Definition approve (rate : Js.number) (release : Z) (notes : option string)
    (now : Z) (i : t) : t :=
  mk (userId i) (username i) (amount i) approved rate (Some release)
     (createdAt i) (Some now) (completedAt i) (declinedAt i) notes.
End Investment.

(** components/games/dice-types.ts *)
Module DiceColor.
Inductive t := none | white | red | green.

Global Instance eq_dec : EqDecision t.
Proof. solve_decision. Defined.
End DiceColor.

Module DiceRound.
Inductive status := open | closed.

Global Instance status_eq_dec : EqDecision status.
Proof. solve_decision. Defined.

Record t := mk {
  rstatus : status;
  (** [{ [num: number]: DiceColor }], a JavaScript object used as a map *)
  numberColors : gmap Z DiceColor.t;
  createdAt : Z;
  closedAt : option Z
}.

Definition close (colors : gmap Z DiceColor.t) (now : Z) (r : t) : t :=
  mk closed colors (createdAt r) (Some now).
End DiceRound.

Module DiceBet.
Inductive status := pending | won | lost.
Inductive payoutKind := cash | fbt.

Global Instance status_eq_dec : EqDecision status.
Proof. solve_decision. Defined.
Global Instance payoutKind_eq_dec : EqDecision payoutKind.
Proof. solve_decision. Defined.

Record t := mk {
  userId : DocId;
  username : string;
  roundId : DocId;
  chosenNumber : Z;
  amount : Z;
  bstatus : status;
  createdAt : Z;
  resolvedAt : option Z;
  payout : option Z;
  payoutType : option payoutKind;
  resultColor : option DiceColor.t
}.

(** [{ status, resultColor, resolvedAt, payout, payoutType }] merged into
    a bet. *)
Definition resolve (st : status) (color : DiceColor.t) (now : Z)
    (pay : Z) (kind : option payoutKind) (b : t) : t :=
  mk (userId b) (username b) (roundId b) (chosenNumber b) (amount b) st
     (createdAt b) (Some now) (Some pay) kind (Some color).
End DiceBet.

Module UltraManualBet.
Inductive status := pending | won | lost | cancelled.

Global Instance status_eq_dec : EqDecision status.
Proof. solve_decision. Defined.

Record t := mk {
  userId : DocId;
  username : string;
  amount : Z;
  note : string;
  bstatus : status;
  createdAt : Z;
  processedAt : option Z;
  winAmount : option Z
}.

Definition process (st : status) (now : Z) (win : option Z) (b : t) : t :=
  mk (userId b) (username b) (amount b) (note b) st (createdAt b)
     (Some now)
     (match win with Some _ => win | None => winAmount b end).
End UltraManualBet.

Module Winner.
Record t := mk {
  username : string;
  amount : Z;
  game : string;
  timestamp : Z
}.
End Winner.

(** ** The database *)

Module Db.
Record t := mk {
  users : list (DocId * User.t);
  requests : list (DocId * Request.t);
  investments : list (DocId * Investment.t);
  diceRounds : list (DocId * DiceRound.t);
  diceBets : list (DocId * DiceBet.t);
  ultraManualBets : list (DocId * UltraManualBet.t);
  (** append-only; a transaction's id is never read *)
  transactions : list Transaction.t;
  winners : list Winner.t
}.

Definition set_users v (d : t) : t :=
  mk v (requests d) (investments d) (diceRounds d) (diceBets d)
     (ultraManualBets d) (transactions d) (winners d).
Definition set_requests v (d : t) : t :=
  mk (users d) v (investments d) (diceRounds d) (diceBets d)
     (ultraManualBets d) (transactions d) (winners d).
Definition set_investments v (d : t) : t :=
  mk (users d) (requests d) v (diceRounds d) (diceBets d)
     (ultraManualBets d) (transactions d) (winners d).
Definition set_diceRounds v (d : t) : t :=
  mk (users d) (requests d) (investments d) v (diceBets d)
     (ultraManualBets d) (transactions d) (winners d).
Definition set_diceBets v (d : t) : t :=
  mk (users d) (requests d) (investments d) (diceRounds d) v
     (ultraManualBets d) (transactions d) (winners d).
Definition set_ultraManualBets v (d : t) : t :=
  mk (users d) (requests d) (investments d) (diceRounds d) (diceBets d)
     v (transactions d) (winners d).
Definition log (tx : Transaction.t) (d : t) : t :=
  mk (users d) (requests d) (investments d) (diceRounds d) (diceBets d)
     (ultraManualBets d) (transactions d ++ [tx]) (winners d).
Definition add_winner (w : Winner.t) (d : t) : t :=
  mk (users d) (requests d) (investments d) (diceRounds d) (diceBets d)
     (ultraManualBets d) (transactions d) (winners d ++ [w]).

(** Single awaited writes. *)
Definition updateUser (id : DocId) (f : User.t -> User.t) (d : t)
  : option t := (fun c => set_users c d) <$> updateDoc (users d) id f.
Definition updateRequest (id : DocId) (f : Request.t -> Request.t) (d : t)
  : option t := (fun c => set_requests c d) <$> updateDoc (requests d) id f.
Definition updateInvestment (id : DocId) (f : Investment.t -> Investment.t)
    (d : t) : option t :=
  (fun c => set_investments c d) <$> updateDoc (investments d) id f.
Definition updateDiceRound (id : DocId) (f : DiceRound.t -> DiceRound.t)
    (d : t) : option t :=
  (fun c => set_diceRounds c d) <$> updateDoc (diceRounds d) id f.
Definition updateDiceBet (id : DocId) (f : DiceBet.t -> DiceBet.t) (d : t)
  : option t := (fun c => set_diceBets c d) <$> updateDoc (diceBets d) id f.
Definition updateUltraManualBet (id : DocId)
    (f : UltraManualBet.t -> UltraManualBet.t) (d : t) : option t :=
  (fun c => set_ultraManualBets c d) <$> updateDoc (ultraManualBets d) id f.
End Db.

(** ** Batched writes *)

(** [writeBatch(db)]: the operations queue up and [commit] applies them in
    order, all or none; an [update] of a missing document rejects the
    whole batch. *)
Inductive Write :=
| UpdateUser (id : DocId) (f : User.t -> User.t)
| UpdateRequest (id : DocId) (f : Request.t -> Request.t)
| UpdateDiceBet (id : DocId) (f : DiceBet.t -> DiceBet.t)
| UpdateUltraManualBet (id : DocId) (f : UltraManualBet.t -> UltraManualBet.t)
| SetTransaction (tx : Transaction.t)
| SetWinner (w : Winner.t).

Definition applyWrite (d : Db.t) (w : Write) : option Db.t :=
  match w with
  | UpdateUser id f => Db.updateUser id f d
  | UpdateRequest id f => Db.updateRequest id f d
  | UpdateDiceBet id f => Db.updateDiceBet id f d
  | UpdateUltraManualBet id f => Db.updateUltraManualBet id f d
  | SetTransaction tx => Some (Db.log tx d)
  | SetWinner w => Some (Db.add_winner w d)
  end.

Fixpoint commit (d : Db.t) (batch : list Write) : option Db.t :=
  match batch with
  | [] => Some d
  | w :: rest =>
      match applyWrite d w with
      | Some d' => commit d' rest
      | None => None
      end
  end.

(** What a handler reports: [setMessage], [setError] (or the error it
    throws), or nothing. *)
Inductive Outcome :=
| Message (m : list Fragment)
| Error (m : list Fragment)
| Quiet.

(** ** Dice rounds (components/admin/games/dice-admin.tsx) *)

Module Dice.
Import DiceColor.

(** [numberColors[bet.chosenNumber] || 'none'] *)
Definition colorOf (numberColors : gmap Z DiceColor.t) (n : Z) : DiceColor.t :=
  default none (numberColors !! n).

(** [Object.values(numberColors).some(c => c !== 'none')] *)
Definition hasWinner (numberColors : gmap Z DiceColor.t) : bool :=
  existsb (fun kc => bool_decide (snd kc <> none)) (map_to_list numberColors).

(** [payout] and [payoutType] as the loop body assigns them. *)
Definition payoutOf (color : DiceColor.t) (amount : Z)
  : Z * option DiceBet.payoutKind :=
  match color with
  | white => (amount / 10 * 5, Some DiceBet.cash)
  | red | green => (amount / 10 * 20, Some DiceBet.fbt)
  | none => (0, None)
  end.

(** The fields the loop body merges into a bet document, computed from
    the bet as the query returned it. *)
Definition betUpdate (numberColors : gmap Z DiceColor.t) (now : Z)
    (bet : DiceBet.t) : DiceBet.t -> DiceBet.t :=
  let color := colorOf numberColors (DiceBet.chosenNumber bet) in
  DiceBet.resolve
    (if decide (color = none) then DiceBet.lost else DiceBet.won)
    color now (fst (payoutOf color (DiceBet.amount bet)))
    (snd (payoutOf color (DiceBet.amount bet))).

(** The body of [snap.docs.forEach]: the writes one bet adds to the
    batch.  A cash payout queues no user write. *)
Definition resolveBet (numberColors : gmap Z DiceColor.t) (now : Z)
    (docSnap : DocId * DiceBet.t) : list Write :=
  let bet := snd docSnap in
  let color := colorOf numberColors (DiceBet.chosenNumber bet) in
  let payout := fst (payoutOf color (DiceBet.amount bet)) in
  let payoutType := snd (payoutOf color (DiceBet.amount bet)) in
  UpdateDiceBet (fst docSnap) (betUpdate numberColors now bet)
  :: (if bool_decide (color <> none) && (0 <? payout)
      then if decide (payoutType = Some DiceBet.fbt)
           then [UpdateUser (DiceBet.userId bet)
                   (User.set_points (DiceBet.amount bet + payout))]
           else []
      else []).

(** The bet earns a points write: red or green, and a payout above 0. *)
Definition creditsPoints (numberColors : gmap Z DiceColor.t)
    (bet : DiceBet.t) : Prop :=
  let color := colorOf numberColors (DiceBet.chosenNumber bet) in
  (color = red \/ color = green) /\ 0 < DiceBet.amount bet / 10 * 20.

Definition betsOfRound (d : Db.t) (rid : DocId) : list (DocId * DiceBet.t) :=
  getDocs (Db.diceBets d) (fun b => bool_decide (DiceBet.roundId b = rid)).

(** The database states that [closeRoundAndResolve] commits, in order:
    the awaited [updateDoc] of the round, then the batch. *)
Definition closeRoundAndResolve_steps
    (round : option (DocId * DiceRound.t))
    (numberColors : gmap Z DiceColor.t) (now : Z) (d : Db.t)
  : list Db.t * Outcome :=
  match round with
  | None => ([], Error [Txt "No open round."])
  | Some (rid, _) =>
      if negb (hasWinner numberColors)
      then ([], Error [Txt "Set at least one color for a number."])
      else
        match Db.updateDiceRound rid (DiceRound.close numberColors now) d with
        | None => ([], Error [Txt "Failed to resolve round."])
        | Some d1 =>
            let batch :=
              flat_map (resolveBet numberColors now) (betsOfRound d1 rid) in
            match commit d1 batch with
            | None => ([d1], Error [Txt "Failed to resolve round."])
            | Some d2 => ([d1; d2], Message [Txt "Round closed and bets resolved!"])
            end
        end
  end.

Definition closeRoundAndResolve (round : option (DocId * DiceRound.t))
    (numberColors : gmap Z DiceColor.t) (now : Z) (d : Db.t)
  : Db.t * Outcome :=
  let r := closeRoundAndResolve_steps round numberColors now d in
  (List.last (fst r) d, snd r).

(** What a reader may see while the handler runs. *)
Definition observable (round : option (DocId * DiceRound.t))
    (numberColors : gmap Z DiceColor.t) (now : Z) (d : Db.t) : list Db.t :=
  d :: fst (closeRoundAndResolve_steps round numberColors now d).

(** components/games/dice-game.tsx, [handleBet]: [user] is the signed-in
    user as the client holds it, [amount] is [Number(amount)], [None]
    when that is NaN or the field is empty. *)
Definition handleBet (user : option (DocId * User.t))
    (round : option (DocId * DiceRound.t)) (num : Z) (amount : option Z)
    (newId : DocId) (now : Z) (d : Db.t) : Db.t * Outcome :=
  match user, round with
  | Some (uid, u), Some (rid, _) =>
      match amount with
      | None => (d, Error [Txt "Enter a valid amount."])
      | Some a =>
          if a <=? 0 then (d, Error [Txt "Enter a valid amount."])
          else if User.points u <? a then (d, Error [Txt "Insufficient points."])
          else
            let d1 :=
              Db.set_diceBets
                (addDoc (Db.diceBets d) newId
                   (DiceBet.mk uid (User.username u) rid num a
                      DiceBet.pending now None None None None)) d in
            match Db.updateUser uid (User.set_points (User.points u - a)) d1 with
            | Some d2 => (d2, Message [Txt "Bet placed on "; Int num; Txt "!"])
            | None => (d1, Error [Txt "Failed to place bet."])
            end
      end
  | _, _ => (d, Error [Txt "No active round or not logged in."])
  end.

End Dice.

(** ** Point transfers (store/vip-store.ts, components/admin/vip-admin.tsx,
       components/user/vip-panel.tsx) *)

(** The message of the error Firestore raises for an [update] of a missing
    document. *)
Definition notFound : list Fragment := [Txt "No document to update"].

Module Vip.

(** [query(usersRef, where(startsWith('FBT') ? 'referralCode' : 'username',
    '==', startsWith('FBT') ? id : id.toLowerCase()))] *)
Definition findRecipient (users : list (DocId * User.t))
    (recipientIdentifier : string) : list (DocId * User.t) :=
  if Js.startsWith recipientIdentifier "FBT"
  then getDocs users
         (fun u => bool_decide (User.referralCode u = recipientIdentifier))
  else getDocs users
         (fun u => bool_decide
                     (User.username u = Js.toLowerCase recipientIdentifier)).

Definition transferOut (userId : DocId) (username recipientUsername : string)
    (amount newSenderPoints senderCash now : Z) : Transaction.t :=
  Transaction.mk userId username (Some (- amount)) "point_transfer_out"
    [Txt "Transferred "; Int amount; Txt " points to "; Txt recipientUsername]
    now (Some (newSenderPoints, senderCash)) None.

Definition transferIn (recipientId : DocId) (recipientUsername username : string)
    (amount newRecipientPoints recipientCash now : Z) : Transaction.t :=
  Transaction.mk recipientId recipientUsername (Some amount) "point_transfer_in"
    [Txt "Received "; Int amount; Txt " points from "; Txt username]
    now (Some (newRecipientPoints, recipientCash)) None.

(** [transferPoints(userId, recipientIdentifier, amount, directTransfer)];
    the error it rethrows is its outcome. *)
Definition transferPoints (userId : DocId) (recipientIdentifier : string)
    (amount : Z) (directTransfer : bool) (newId : DocId) (now : Z) (d : Db.t)
  : Db.t * Outcome :=
  if negb (Js.nonempty userId) then (d, Error [Txt "User ID is required"])
  else if negb (Js.nonempty recipientIdentifier)
  then (d, Error [Txt "Recipient username or referral code is required"])
  else if amount <=? 0
  then (d, Error [Txt "Transfer amount must be greater than 0"])
  else
    match getDoc (Db.users d) userId with
    | None => (d, Error [Txt "User not found"])
    | Some userData =>
        if User.points userData <? amount
        then (d, Error [Txt "Insufficient points for transfer"])
        else
          match findRecipient (Db.users d) recipientIdentifier with
          | [] => (d, Error [Txt "Recipient not found"])
          | (recipientId, recipientData) :: _ =>
              if decide (recipientId = userId)
              then (d, Error [Txt "Cannot transfer points to yourself"])
              else if directTransfer then
                let newSenderPoints := User.points userData - amount in
                match Db.updateUser userId (User.set_points newSenderPoints) d with
                | None => (d, Error notFound)
                | Some d1 =>
                    let newRecipientPoints := User.points recipientData + amount in
                    match Db.updateUser recipientId
                            (User.set_points newRecipientPoints) d1 with
                    | None => (d1, Error notFound)
                    | Some d2 =>
                        (Db.log (transferIn recipientId (User.username recipientData)
                                   (User.username userData) amount
                                   newRecipientPoints (User.cash recipientData) now)
                           (Db.log (transferOut userId (User.username userData)
                                      (User.username recipientData) amount
                                      newSenderPoints (User.cash userData) now)
                              d2),
                         Quiet)
                    end
                end
              else
                (Db.set_requests
                   (addDoc (Db.requests d) newId
                      (Request.mk userId (User.username userData)
                         Request.point_transfer recipientId
                         (User.username recipientData) amount 0 0
                         Request.pending now None None None directTransfer))
                   d,
                 Quiet)
          end
    end.

(** The accounts once [amount] points moved from [a], who held [pa], to
    [b], who held [pb]. *)
Definition afterTransfer (users : list (DocId * User.t)) (a b : DocId)
    (pa pb amount : Z) : list (DocId * User.t) :=
  mergeDoc b (User.set_points (pb + amount))
    (mergeDoc a (User.set_points (pa - amount)) users).

(** vip-panel.tsx, [handleTransferPoints]: [transferAmount] is
    [parseInt(transferAmount)], [None] for NaN; the call leaves
    [directTransfer] at its default. *)
Definition handleTransferPoints (isProcessing : bool)
    (user : option (DocId * User.t)) (recipientIdentifier : string)
    (transferAmount : option Z) (confirmed : bool) (newId : DocId) (now : Z)
    (d : Db.t) : Db.t * Outcome :=
  match user with
  | None => (d, Quiet)
  | Some (uid, u) =>
      if isProcessing then (d, Quiet)
      else if negb (Js.nonempty recipientIdentifier)
      then (d, Error [Txt "Please enter a username or referral code"])
      else
        match transferAmount with
        | None => (d, Error [Txt "Please enter a valid amount"])
        | Some amount =>
            if amount <=? 0 then (d, Error [Txt "Please enter a valid amount"])
            else if User.points u <? amount
            then (d, Error [Txt "Insufficient points for transfer"])
            else if negb confirmed then (d, Quiet)
            else
              match transferPoints uid recipientIdentifier amount false newId now d with
              | (d', Quiet) =>
                  (d', Message [Txt "Transfer request submitted! Please wait for admin approval."])
              | r => r
              end
        end
  end.

(** vip-admin.tsx, [handleTransferRequest(request, approve)].  The writes
    are awaited one by one; an error leaves the earlier ones in place. *)
Definition handleTransferRequest (isProcessingTransfer : bool)
    (request : DocId * Request.t) (approve : bool) (now : Z) (d : Db.t)
  : Db.t * Outcome :=
  let rq := snd request in
  let failed (m : list Fragment) :=
    Error ([Txt "Failed to "; Txt (if approve then "approve" else "decline");
            Txt " transfer request: "] ++ m) in
  if isProcessingTransfer then (d, Quiet)
  else
    match getDoc (Db.users d) (Request.userId rq) with
    | None => (d, failed [Txt "Sender not found"])
    | Some senderData =>
        let currentPoints := User.points senderData in
        if currentPoints <? Request.amount rq then
          match Db.updateRequest (fst request)
                  (Request.process Request.declined now
                     (Some "Insufficient points") None) d with
          | None => (d, failed notFound)
          | Some d1 =>
              (d1, Message [Txt "Transfer request declined: Insufficient points"])
          end
        else if approve then
          match getDoc (Db.users d) (Request.recipientId rq) with
          | None => (d, failed [Txt "Recipient not found"])
          | Some recipientData =>
              let recipientPoints := User.points recipientData in
              let newSenderPoints := currentPoints - Request.amount rq in
              match Db.updateUser (Request.userId rq)
                      (User.set_points newSenderPoints) d with
              | None => (d, failed notFound)
              | Some d1 =>
                  let newRecipientPoints := recipientPoints + Request.amount rq in
                  match Db.updateUser (Request.recipientId rq)
                          (User.set_points newRecipientPoints) d1 with
                  | None => (d1, failed notFound)
                  | Some d2 =>
                      match Db.updateRequest (fst request)
                              (Request.process Request.approved now None None) d2 with
                      | None => (d2, failed notFound)
                      | Some d3 =>
                          (Db.log (transferIn (Request.recipientId rq)
                                     (Request.recipientUsername rq)
                                     (Request.username rq) (Request.amount rq)
                                     newRecipientPoints (User.cash recipientData) now)
                             (Db.log (transferOut (Request.userId rq)
                                        (Request.username rq)
                                        (Request.recipientUsername rq)
                                        (Request.amount rq) newSenderPoints
                                        (User.cash senderData) now)
                                d3),
                           Message [Txt "Transfer of "; Int (Request.amount rq);
                                    Txt " points to ";
                                    Txt (Request.recipientUsername rq);
                                    Txt " approved"])
                      end
                  end
              end
          end
        else
          match Db.updateRequest (fst request)
                  (Request.process Request.declined now None None) d with
          | None => (d, failed notFound)
          | Some d1 => (d1, Message [Txt "Transfer request declined"])
          end
    end.

End Vip.

(** ** Referral bonuses (processReferralBonuses; the same loop is inlined
       in users-admin's approveUser) *)

Module Referral.

Definition bonusLevels : list Z := [100; 5; 5; 10; 30].
Definition bonusGive : list Field.t :=
  [Field.points; Field.cash; Field.cash; Field.cash; Field.cash].

(** [!currentReferralCode || currentReferralCode === 'Not set'] *)
Definition notSet (code : string) : bool :=
  negb (Js.nonempty code) || bool_decide (code = "Not set").

(** [arrayUnion(userId)] on [referrals] *)
Definition arrayUnion (userId : DocId) (u : User.t) : User.t :=
  if bool_decide (userId ∈ User.referrals u) then u
  else User.set_referrals (User.referrals u ++ [userId]) u.

(** [{ referrals: arrayUnion(userId), [bonusGive[level]]:
    increment(bonusLevels[level]) }] *)
Definition credit (userId : DocId) (level : nat) (u : User.t) : User.t :=
  User.increment (nth level bonusGive Field.points) (nth level bonusLevels 0)
    (arrayUnion userId u).

Definition bonusTransaction (now : Z) (level : nat)
    (referrerDoc : DocId * User.t) : Transaction.t :=
  let referrerData := snd referrerDoc in
  let bonus := nth level bonusLevels 0 in
  let give := nth level bonusGive Field.points in
  Transaction.mk (fst referrerDoc) (User.username referrerData) (Some bonus)
    ("referral_bonus_level_" +:+ pretty (S level))
    [Txt "Referral bonus for level "; Int (Z.of_nat (S level));
     Txt " awarded: "; Int bonus; Txt " "; Txt (Field.name give)]
    now
    (Some (User.points referrerData
             + (if decide (give = Field.points) then bonus else 0),
           User.cash referrerData
             + (if decide (give = Field.cash) then bonus else 0)))
    None.

(** What one iteration adds to the batch. *)
Definition levelWrites (userId : DocId) (now : Z) (level : nat)
    (referrerDoc : DocId * User.t) : list Write :=
  [UpdateUser (fst referrerDoc) (credit userId level);
   SetTransaction (bonusTransaction now level referrerDoc)].

(** The [for] loop, [steps] iterations from [level] on; the reads go to
    the database as it is, the writes wait in the batch. *)
Fixpoint referralLoop (users : list (DocId * User.t)) (userId : DocId)
    (now : Z) (steps level : nat) (currentReferralCode : string)
    (processedReferrers : gset DocId) : list Write :=
  match steps with
  | O => []
  | S steps' =>
      if notSet currentReferralCode then []
      else
        match getDocs users
                (fun u => bool_decide (User.referralCode u = currentReferralCode)) with
        | [] => []
        | referrerDoc :: _ =>
            if bool_decide (fst referrerDoc ∈ processedReferrers) then []
            else
              levelWrites userId now level referrerDoc ++
              referralLoop users userId now steps' (S level)
                (User.referralCodeFriend (snd referrerDoc))
                ({[fst referrerDoc]} ∪ processedReferrers)
        end
  end.

Definition referralBatch (users : list (DocId * User.t)) (userId : DocId)
    (now : Z) (referralCodeFriend : string) : list Write :=
  referralLoop users userId now (length bonusLevels) 0 referralCodeFriend ∅.

Definition processReferralBonuses (userId : DocId) (referralCodeFriend : string)
    (now : Z) (d : Db.t) : Db.t * Outcome :=
  if notSet referralCodeFriend then (d, Quiet)
  else
    match commit d (referralBatch (Db.users d) userId now referralCodeFriend) with
    | Some d' => (d', Quiet)
    | None => (d, Error notFound)
    end.

(** users-admin, [approveUser(userId)] *)
Definition approveUser (userId : DocId) (now : Z) (d : Db.t) : Db.t * Outcome :=
  match getDoc (Db.users d) userId with
  | None => (d, Error [Txt "Failed to approve user"])
  | Some userData =>
      match commit d
              (UpdateUser userId (User.set_approved true)
               :: referralBatch (Db.users d) userId now
                    (User.referralCodeFriend userData)) with
      | Some d' => (d', Message [Txt "User approved successfully"])
      | None => (d, Error [Txt "Failed to approve user"])
      end
  end.

(** The referral chain above a code: the account the code names, the
    account that one's referrer code names, and so on, [n] links at most. *)
Fixpoint referralChain (users : list (DocId * User.t)) (n : nat)
    (code : string) : list (DocId * User.t) :=
  match n with
  | O => []
  | S n' =>
      if notSet code then []
      else
        match getDocs users (fun u => bool_decide (User.referralCode u = code)) with
        | [] => []
        | doc :: _ =>
            doc :: referralChain users n' (User.referralCodeFriend (snd doc))
        end
  end.

(** The chain up to its first repeated account. *)
Fixpoint untilRepeat (seen : gset DocId) (chain : list (DocId * User.t))
  : list (DocId * User.t) :=
  match chain with
  | [] => []
  | doc :: rest =>
      if bool_decide (fst doc ∈ seen) then []
      else doc :: untilRepeat ({[fst doc]} ∪ seen) rest
  end.

(** The writes for a list of referrers, one level each from [level] on. *)
Fixpoint chainWrites (userId : DocId) (now : Z) (level : nat)
    (chain : list (DocId * User.t)) : list Write :=
  match chain with
  | [] => []
  | doc :: rest =>
      levelWrites userId now level doc ++ chainWrites userId now (S level) rest
  end.

End Referral.

(** ** Investments (components/games/game-panel.tsx, investments-admin) *)

Module Investments.

(** game-panel.tsx, [handleSubmit]: [user] is the signed-in user as the
    client holds it, [amount] is [parseInt(amount)], [None] for NaN. *)
Definition handleSubmit (user : option (DocId * User.t)) (amount : option Z)
    (newId : DocId) (now : Z) (d : Db.t) : Db.t * Outcome :=
  match user with
  | None => (d, Error [Txt "You must be logged in to invest"])
  | Some (uid, u) =>
      match amount with
      | None => (d, Error [Txt "Please enter a valid amount"])
      | Some investmentAmount =>
          if investmentAmount <=? 0
          then (d, Error [Txt "Please enter a valid amount"])
          else if User.points u <? investmentAmount
          then (d, Error [Txt "Insufficient points for this investment"])
          else
            let d1 :=
              Db.set_investments
                (addDoc (Db.investments d) newId
                   (Investment.mk uid (User.username u) investmentAmount
                      Investment.pending (Js.ofZ 0) None now None None None None))
                d in
            match Db.updateUser uid
                    (User.set_points (User.points u - investmentAmount)) d1 with
            | None =>
                (d1, Error [Txt "Failed to create investment. Please try again."])
            | Some d2 =>
                (Db.log
                   (Transaction.mk uid (User.username u) (Some (- investmentAmount))
                      "investment_created"
                      [Txt "Investment of "; Int investmentAmount;
                       Txt " points created"]
                      now
                      (Some (User.points u - investmentAmount, User.cash u))
                      None)
                   d2,
                 Message [Txt "Investment request submitted successfully"])
            end
      end
  end.

(** investments-admin, [handleDecline(investment)] *)
Definition handleDecline (investment : DocId * Investment.t) (confirmed : bool)
    (now : Z) (d : Db.t) : Db.t * Outcome :=
  let inv := snd investment in
  if negb confirmed then (d, Quiet)
  else
    match getDoc (Db.users d) (Investment.userId inv) with
    | None => (d, Error [Txt "Failed to decline investment"])
    | Some userData =>
        let currentPoints := User.points userData in
        match Db.updateInvestment (fst investment) (Investment.decline now) d with
        | None => (d, Error [Txt "Failed to decline investment"])
        | Some d1 =>
            match Db.updateUser (Investment.userId inv)
                    (User.set_points (currentPoints + Investment.amount inv)) d1 with
            | None => (d1, Error [Txt "Failed to decline investment"])
            | Some d2 =>
                (Db.log
                   (Transaction.mk (Investment.userId inv) (Investment.username inv)
                      (Some (Investment.amount inv)) "investment_declined"
                      [Txt "Investment of "; Int (Investment.amount inv);
                       Txt " points declined and refunded"]
                      now
                      (Some (currentPoints + Investment.amount inv,
                             User.cash userData))
                      None)
                   d2,
                 Message [Txt "Investment declined and ";
                          Int (Investment.amount inv);
                          Txt " points returned to ";
                          Txt (Investment.username inv)])
            end
        end
    end.

(** [Math.floor(investment.amount * (1 + investment.interestRate / 100))],
    in double precision; [None] when the product is not a finite number. *)
Definition payoutAmount (inv : Investment.t) : option Z :=
  Js.Math_floor
    (Js.mul (Js.ofZ (Investment.amount inv))
       (Js.add (Js.ofZ 1) (Js.div (Investment.interestRate inv) (Js.ofZ 100)))).

(** investments-admin, [handleComplete(investment)].  Balances are
    integers here: a payout that is not a finite number has no balance to
    write, and the handler is [None] there. *)
Definition handleComplete (investment : DocId * Investment.t) (confirmed : bool)
    (now : Z) (d : Db.t) : option (Db.t * Outcome) :=
  let inv := snd investment in
  if negb confirmed then Some (d, Quiet)
  else
    match getDoc (Db.users d) (Investment.userId inv) with
    | None => Some (d, Error [Txt "Failed to complete investment"])
    | Some userData =>
        let currentPoints := User.points userData in
        match payoutAmount inv with
        | None => None
        | Some payout =>
            match Db.updateInvestment (fst investment) (Investment.complete now) d with
            | None => Some (d, Error [Txt "Failed to complete investment"])
            | Some d1 =>
                match Db.updateUser (Investment.userId inv)
                        (User.set_points (currentPoints + payout)) d1 with
                | None => Some (d1, Error [Txt "Failed to complete investment"])
                | Some d2 =>
                    Some
                      (Db.log
                         (Transaction.mk (Investment.userId inv)
                            (Investment.username inv) (Some payout)
                            "investment_completed"
                            [Txt "Investment of "; Int (Investment.amount inv);
                             Txt " points completed with ";
                             Num (Investment.interestRate inv);
                             Txt "% interest (";
                             Int (payout - Investment.amount inv);
                             Txt " points profit)"]
                            now
                            (Some (currentPoints + payout, User.cash userData))
                            None)
                         d2,
                       Message [Txt "Investment completed and "; Int payout;
                                Txt " points paid to ";
                                Txt (Investment.username inv)])
                end
            end
        end
    end.

(** investments-admin, [submitApproval]: [rate] is
    [parseFloat(interestRate)], [releaseDateTime] the parsed date, [None]
    when it is invalid. *)
Definition submitApproval (selectedInvestment : option (DocId * Investment.t))
    (rate : Js.number) (releaseDateTime : option Z) (adminNotes : string)
    (now : Z) (d : Db.t) : Db.t * Outcome :=
  match selectedInvestment with
  | None => (d, Quiet)
  | Some (id, inv) =>
      if Js.isNaN rate || Js.leb rate (Js.ofZ 0)
      then (d, Error [Txt "Please enter a valid interest rate"])
      else
        match releaseDateTime with
        | None => (d, Error [Txt "Please enter a valid future release date"])
        | Some release =>
            if release <=? now
            then (d, Error [Txt "Please enter a valid future release date"])
            else
              match Db.updateInvestment id
                      (Investment.approve rate release
                         (if Js.nonempty (Js.trim adminNotes)
                          then Some (Js.trim adminNotes) else None)
                         now) d with
              | None => (d, Error [Txt "Failed to approve investment"])
              | Some d1 =>
                  (Db.log
                     (Transaction.mk (Investment.userId inv)
                        (Investment.username inv) None "investment_approved"
                        [Txt "Investment of "; Int (Investment.amount inv);
                         Txt " points approved with "; Num rate;
                         Txt "% interest rate"]
                        now None None)
                     d1,
                   Message [Txt "Investment approved with "; Num rate;
                            Txt "% interest rate"])
              end
        end
  end.

End Investments.

(** ** The ultra manual game (ultra-manual-game, ultra-manual-admin) *)

Module UltraManual.

(** the player's [handleSubmit]: [amount] is [parseInt(amount)] *)
Definition handleSubmit (user : option (DocId * User.t)) (amount : option Z)
    (note : string) (newId : DocId) (now : Z) (d : Db.t) : Db.t * Outcome :=
  match user with
  | None => (d, Error [Txt "You must be logged in to place a bet"])
  | Some (uid, u) =>
      match amount with
      | None => (d, Error [Txt "Please enter a valid amount"])
      | Some betAmount =>
          if betAmount <=? 0 then (d, Error [Txt "Please enter a valid amount"])
          else if User.points u <? betAmount
          then (d, Error [Txt "Insufficient points for this bet"])
          else if negb (Js.nonempty (Js.trim note))
          then (d, Error [Txt "Please add a note for your bet"])
          else if (100 <? String.length note)%nat
          then (d, Error [Txt "Note must be 100 characters or less"])
          else
            let d1 :=
              Db.set_ultraManualBets
                (addDoc (Db.ultraManualBets d) newId
                   (UltraManualBet.mk uid (User.username u) betAmount
                      (Js.trim note) UltraManualBet.pending now None None))
                d in
            match Db.updateUser uid (User.set_points (User.points u - betAmount)) d1 with
            | None => (d1, Error [Txt "Failed to place bet. Please try again."])
            | Some d2 =>
                (Db.log
                   (Transaction.mk uid (User.username u) (Some (- betAmount))
                      "ultra_manual_bet"
                      [Txt "Ultra Manual Bet: "; Int betAmount; Txt " points"]
                      now (Some (User.points u - betAmount, User.cash u)) None)
                   d2,
                 Message [Txt "Bet placed successfully! Admin will review your bet."])
            end
      end
  end.

(** [cancelBet(bet)] *)
Definition cancelBet (bet : DocId * UltraManualBet.t) (now : Z) (d : Db.t)
  : Db.t * Outcome :=
  let b := snd bet in
  let batch :=
    [UpdateUltraManualBet (fst bet)
       (UltraManualBet.process UltraManualBet.cancelled now None);
     UpdateUser (UltraManualBet.userId b)
       (User.increment Field.points (UltraManualBet.amount b));
     SetTransaction
       (Transaction.mk (UltraManualBet.userId b) (UltraManualBet.username b)
          (Some (UltraManualBet.amount b)) "ultra_manual_cancelled"
          [Txt "Ultra Manual Game bet cancelled: ";
           Int (UltraManualBet.amount b); Txt " points returned"]
          now None None)] in
  match commit d batch with
  | Some d' =>
      (d', Message [Txt "Bet cancelled and "; Int (UltraManualBet.amount b);
                    Txt " points returned to "; Txt (UltraManualBet.username b)])
  | None => (d, Error notFound)
  end.

(** [processBet(bet, isWin, winAmount)]; [isWin && winAmount] holds of a
    win amount other than 0. *)
Definition processBet (bet : DocId * UltraManualBet.t) (isWin : bool)
    (winAmount : option Z) (now : Z) (d : Db.t) : Db.t * Outcome :=
  let b := snd bet in
  let win :=
    match winAmount with
    | Some w => if isWin && negb (w =? 0) then Some w else None
    | None => None
    end in
  let batch :=
    UpdateUltraManualBet (fst bet)
      (UltraManualBet.process
         (if isWin then UltraManualBet.won else UltraManualBet.lost) now win)
    :: match win with
       | Some w =>
           [UpdateUser (UltraManualBet.userId b) (User.increment Field.points w);
            SetTransaction
              (Transaction.mk (UltraManualBet.userId b) (UltraManualBet.username b)
                 (Some w) "ultra_manual_win"
                 [Txt "Ultra Manual Game win: "; Int w; Txt " points"]
                 now None None);
            SetWinner (Winner.mk (UltraManualBet.username b) w "Ultra Manual" now)]
       | None => []
       end in
  match commit d batch with
  | Some d' =>
      (d', Message [Txt "Bet "; Txt (if isWin then "approved" else "declined");
                    Txt " successfully"])
  | None => (d, Error notFound)
  end.

(** [handleWinSubmit]: [winAmount] is [parseInt(winAmount)] *)
Definition handleWinSubmit (selectedBet : option (DocId * UltraManualBet.t))
    (winAmount : option Z) (now : Z) (d : Db.t) : Db.t * Outcome :=
  match selectedBet with
  | None => (d, Quiet)
  | Some bet =>
      match winAmount with
      | None => (d, Error [Txt "Please enter a valid win amount"])
      | Some w =>
          if w <=? 0 then (d, Error [Txt "Please enter a valid win amount"])
          else processBet bet true (Some w) now d
      end
  end.

End UltraManual.

(** ** Users administration (users-admin) *)

Module UsersAdmin.

(** [updateUserBalance(userId, type)]: [newAmount] is the answer to the
    prompt, [None] when it was dismissed, [Some None] when [parseInt]
    gives NaN. *)
Definition updateUserBalance (userId : DocId) (type : Field.t)
    (newAmount : option (option Z)) (now : Z) (d : Db.t) : Db.t * Outcome :=
  match newAmount with
  | None => (d, Quiet)
  | Some None => (d, Error [Txt "Please enter a valid number"])
  | Some (Some amount) =>
      let failed := Error [Txt "Failed to update user "; Txt (Field.name type)] in
      match getDoc (Db.users d) userId with
      | None => (d, failed)
      | Some userData =>
          let currentAmount := User.balance type userData in
          let difference := amount - currentAmount in
          match Db.updateUser userId (User.increment type difference) d with
          | None => (d, failed)
          | Some d1 =>
              (Db.log
                 (Transaction.mk userId (User.username userData) (Some difference)
                    ("admin_" +:+ Field.name type +:+ "_update")
                    [Txt "Admin adjusted "; Txt (Field.name type); Txt " by ";
                     Txt (if 0 <=? difference then "+" else ""); Int difference]
                    now None None)
                 d1,
               Message [Txt "User "; Txt (Field.name type);
                        Txt " updated successfully"])
          end
      end
  end.

(** [deleteUser(userId, username)] *)
Definition deleteUser (userId : DocId) (username : string) (confirmed : bool)
    (now : Z) (d : Db.t) : Db.t * Outcome :=
  if negb confirmed then (d, Quiet)
  else
    (Db.log
       (Transaction.mk userId username None "user_deleted"
          [Txt "User account deleted by admin"] now None None)
       (Db.set_users (deleteDoc (Db.users d) userId) d),
     Message [Txt "User deleted successfully"]).

(** [processRequest(request, approve, fee)], for withdrawal and loan
    requests *)
Definition processRequest (request : DocId * Request.t) (approve : bool)
    (fee : Js.number) (now : Z) (d : Db.t) : Db.t * Outcome :=
  let rq := snd request in
  match getDoc (Db.users d) (Request.userId rq) with
  | None => (d, Error [Txt "User not found"])
  | Some userData =>
      let batch :=
        if approve then
          match Request.rtype rq with
          | Request.withdrawal =>
              [UpdateRequest (fst request)
                 (Request.process Request.approved now None (Some fee));
               SetTransaction
                 (Transaction.mk (Request.userId rq) (Request.username rq)
                    (Some (- Request.amount rq)) "withdrawal_approved"
                    (if Js.positive fee
                     then [Txt "Cash withdrawal approved (Fee: "; Num fee; Txt ")"]
                     else [Txt "Cash withdrawal approved"])
                    now (Some (User.points userData, User.cash userData))
                    (Some fee))]
          | Request.loan =>
              [UpdateUser (Request.userId rq)
                 (User.increment Field.points (Request.amount rq));
               UpdateRequest (fst request)
                 (Request.process Request.approved now None None);
               SetTransaction
                 (Transaction.mk (Request.userId rq) (Request.username rq)
                    (Some (Request.amount rq)) "loan_approved"
                    [Txt "FBT loan approved"] now
                    (Some (User.points userData + Request.amount rq,
                           User.cash userData))
                    None)]
          | _ => []
          end
        else
          match Request.rtype rq with
          | Request.withdrawal =>
              [UpdateUser (Request.userId rq)
                 (User.increment Field.cash (Request.amount rq));
               SetTransaction
                 (Transaction.mk (Request.userId rq) (Request.username rq)
                    (Some (Request.amount rq)) "withdrawal_declined"
                    [Txt "Cash withdrawal declined - amount returned"] now
                    (Some (User.points userData,
                           User.cash userData + Request.amount rq))
                    None)]
          | _ => []
          end
          ++ [UpdateRequest (fst request)
                (Request.process Request.declined now None None)] in
      match commit d batch with
      | Some d' =>
          (d', Message [Txt "Request ";
                        Txt (if approve then "approved" else "declined");
                        Txt " successfully"])
      | None => (d, Error notFound)
      end
  end.

(** Modelled from the spec: [processUpgradeRequest] of services/vipService
    is not among the sources.  Section 4.6 gives the workflow the status
    field and the processing time only, and section 5 gives the decline of
    an upgrade request no compensating action. *)
Definition processUpgradeRequest (request : DocId * Request.t) (approve : bool)
    (now : Z) (d : Db.t) : Db.t * Outcome :=
  match Db.updateRequest (fst request)
          (Request.process
             (if approve then Request.approved else Request.declined)
             now None None) d with
  | Some d' =>
      (d', Message [Txt "VIP upgrade request ";
                    Txt (if approve then "approved" else "declined")])
  | None =>
      (d, Error [Txt "Failed to ";
                 Txt (if approve then "approve" else "decline");
                 Txt " upgrade request"])
  end.

End UsersAdmin.

(** ** Settlement, as the specification words it *)

Module DiceSpec.
Import Dice.

(** The sum of the formula's payouts of kind [k] over the bets of one
    user. *)
Definition owed (numberColors : gmap Z DiceColor.t) (k : DiceBet.payoutKind)
    (uid : DocId) (bets : list (DocId * DiceBet.t)) : Z :=
  foldr Z.add 0
    (map (fun doc =>
            let p := payoutOf (colorOf numberColors (DiceBet.chosenNumber (snd doc)))
                              (DiceBet.amount (snd doc)) in
            if bool_decide (DiceBet.userId (snd doc) = uid /\ snd p = Some k)
            then fst p else 0)
         bets).

(** Every bettor's cash grew by the white payouts and the points by the
    red and green payouts of the round. *)
Definition creditedByFormula (numberColors : gmap Z DiceColor.t)
    (rid : DocId) (d d' : Db.t) : Prop :=
  forall uid u,
    getDoc (Db.users d) uid = Some u ->
    exists u',
      getDoc (Db.users d') uid = Some u' /\
      User.cash u' = User.cash u + owed numberColors DiceBet.cash uid (betsOfRound d rid) /\
      User.points u' = User.points u + owed numberColors DiceBet.fbt uid (betsOfRound d rid).

Definition roundClosed (rid : DocId) (d : Db.t) : Prop :=
  exists r, getDoc (Db.diceRounds d) rid = Some r /\
            DiceRound.rstatus r = DiceRound.closed.

Definition hasPendingBet (rid : DocId) (d : Db.t) : Prop :=
  exists id bet, getDoc (Db.diceBets d) id = Some bet /\
                 DiceBet.roundId bet = rid /\
                 DiceBet.bstatus bet = DiceBet.pending.

Definition hasResolvedBet (rid : DocId) (d : Db.t) : Prop :=
  exists id bet, getDoc (Db.diceBets d) id = Some bet /\
                 DiceBet.roundId bet = rid /\
                 DiceBet.bstatus bet <> DiceBet.pending.

(** The round shows closed while a bet of it is still pending. *)
Definition closedWithPendingBet (rid : DocId) (d : Db.t) : Prop :=
  roundClosed rid d /\ hasPendingBet rid d.

(** Some bets of the round are resolved while others are not. *)
Definition partlyResolved (rid : DocId) (d : Db.t) : Prop :=
  hasResolvedBet rid d /\ hasPendingBet rid d.

(** No state a reader may see while the round is resolved is half
    resolved. *)
Definition neverHalfResolved (round : option (DocId * DiceRound.t))
    (numberColors : gmap Z DiceColor.t) (now : Z) (d : Db.t) : Prop :=
  forall rid r st,
    round = Some (rid, r) ->
    In st (observable round numberColors now d) ->
    ~ closedWithPendingBet rid st /\ ~ partlyResolved rid st.

Definition allPending (rid : DocId) (d : Db.t) : Prop :=
  forall id bet, getDoc (Db.diceBets d) id = Some bet ->
                 DiceBet.roundId bet = rid ->
                 DiceBet.bstatus bet = DiceBet.pending.
End DiceSpec.

(** ** The ledger as a whole *)

Module Ledger.

Definition solvent (u : User.t) : Prop :=
  0 <= User.points u /\ 0 <= User.cash u.

(** Every account holds at least 0 points and 0 cash. *)
Definition nonNegative (d : Db.t) : Prop :=
  forall id u, getDoc (Db.users d) id = Some u -> solvent u.

Definition soundInvestment (i : Investment.t) : Prop :=
  0 <= Investment.amount i /\ Js.notNegative (Investment.interestRate i).

(** What the documents besides the accounts keep: one account per id,
    no negative amount on a request, an investment or an ultra manual bet,
    and no negative interest rate. *)
Definition wellFormed (d : Db.t) : Prop :=
  NoDup (docIds (Db.users d)) /\
  (forall id r, In (id, r) (Db.requests d) -> 0 <= Request.amount r) /\
  (forall id i, In (id, i) (Db.investments d) -> soundInvestment i) /\
  (forall id b, In (id, b) (Db.ultraManualBets d) -> 0 <= UltraManualBet.amount b).

Definition invariant (d : Db.t) : Prop := nonNegative d /\ wellFormed d.

(** A batched write that keeps the invariant whatever it meets. *)
Definition safe (w : Write) : Prop :=
  match w with
  | UpdateUser _ f => forall u, solvent u -> solvent (f u)
  | UpdateRequest _ f =>
      forall r, 0 <= Request.amount r -> 0 <= Request.amount (f r)
  | UpdateUltraManualBet _ f =>
      forall b, 0 <= UltraManualBet.amount b -> 0 <= UltraManualBet.amount (f b)
  | UpdateDiceBet _ _ | SetTransaction _ | SetWinner _ => True
  end.

(** One operation of a user or of the administrator.  A handler that
    takes a document works on one the database holds, as the lists in the
    panels show them; the administrator's balance editor is given an
    amount of at least 0. *)
Inductive step (d : Db.t) : Db.t -> Prop :=
| step_transferPoints userId ident amount direct newId now :
    step d (fst (Vip.transferPoints userId ident amount direct newId now d))
| step_handleTransferPoints p user ident amount confirmed newId now :
    step d (fst (Vip.handleTransferPoints p user ident amount confirmed newId now d))
| step_handleTransferRequest p request approve now :
    In request (Db.requests d) ->
    step d (fst (Vip.handleTransferRequest p request approve now d))
| step_dice_handleBet user round num amount newId now :
    step d (fst (Dice.handleBet user round num amount newId now d))
| step_closeRoundAndResolve round numberColors now d' :
    In d' (Dice.observable round numberColors now d) ->
    step d d'
| step_invest user amount newId now :
    step d (fst (Investments.handleSubmit user amount newId now d))
| step_investment_decline investment confirmed now :
    In investment (Db.investments d) ->
    step d (fst (Investments.handleDecline investment confirmed now d))
| step_investment_approve investment rate release notes now :
    In investment (Db.investments d) ->
    step d (fst (Investments.submitApproval (Some investment) rate release notes now d))
| step_investment_complete investment confirmed now d' out :
    In investment (Db.investments d) ->
    Investments.handleComplete investment confirmed now d = Some (d', out) ->
    step d d'
| step_ultra_handleSubmit user amount note newId now :
    step d (fst (UltraManual.handleSubmit user amount note newId now d))
| step_cancelBet bet now :
    In bet (Db.ultraManualBets d) ->
    step d (fst (UltraManual.cancelBet bet now d))
| step_lose bet now :
    In bet (Db.ultraManualBets d) ->
    step d (fst (UltraManual.processBet bet false None now d))
| step_handleWinSubmit bet winAmount now :
    In bet (Db.ultraManualBets d) ->
    step d (fst (UltraManual.handleWinSubmit (Some bet) winAmount now d))
| step_processReferralBonuses userId code now :
    step d (fst (Referral.processReferralBonuses userId code now d))
| step_approveUser userId now :
    step d (fst (Referral.approveUser userId now d))
| step_processRequest request approve fee now :
    In request (Db.requests d) ->
    step d (fst (UsersAdmin.processRequest request approve fee now d))
| step_deleteUser userId username confirmed now :
    step d (fst (UsersAdmin.deleteUser userId username confirmed now d))
| step_updateUserBalance userId type amount now :
    match amount with Some (Some a) => 0 <= a | _ => True end ->
    step d (fst (UsersAdmin.updateUserBalance userId type amount now d)).

Inductive steps (d : Db.t) : Db.t -> Prop :=
| steps_refl : steps d d
| steps_step d1 d2 : steps d d1 -> step d1 d2 -> steps d d2.

End Ledger.

(** ** Sample data *)

Module Sample.
Definition alice : User.t :=
  User.mk "alice" 500 0 "FBT100" "Not set" [] true false.
Definition bob : User.t :=
  User.mk "bob" 200 0 "FBT200" "FBT100" [] false false.

Definition round1 : DiceRound.t :=
  DiceRound.mk DiceRound.open ∅ 1000 None.

Definition bet (uid : DocId) (name : string) (num amount : Z) : DiceBet.t :=
  DiceBet.mk uid name "r1" num amount DiceBet.pending 1001 None None None None.

Definition db (bets : list (DocId * DiceBet.t)) : Db.t :=
  Db.mk [("a", alice); ("b", bob)] [] [] [("r1", round1)] bets [] [] [].

Definition start : Db.t :=
  db [("b1", bet "a" "alice" 3 100); ("b2", bet "b" "bob" 5 40)].
Definition round : option (DocId * DiceRound.t) := Some ("r1", round1).

(** A transfer request between alice ("a") and bob ("b"). *)
Definition transferRq (from : DocId) (fromName : string) (to : DocId)
    (toName : string) (amount : Z) : Request.t :=
  Request.mk from fromName Request.point_transfer to toName amount 0 0
    Request.pending 1500 None None None false.

Definition withRequests (rqs : list (DocId * Request.t)) : Db.t :=
  Db.set_requests rqs (db []).

Definition twoRequests : Db.t :=
  withRequests [("q1", transferRq "a" "alice" "b" "bob" 50);
                ("q2", transferRq "b" "bob" "a" "alice" 50)].

(** carol was referred by bob, bob by alice. *)
Definition carol : User.t :=
  User.mk "carol" 0 0 "FBT300" "FBT200" [] false false.

Definition family : Db.t :=
  Db.set_users [("a", alice); ("b", bob); ("c", carol)] (db []).

(** A corrupted graph: alice and bob name each other as referrer. *)
Definition loop : Db.t :=
  Db.set_users
    [("a", User.mk "alice" 500 0 "FBT100" "FBT200" [] true false);
     ("b", bob); ("c", carol)]
    (db []).

(** alice's investment of 1000 points, approved at 5 percent. *)
Definition invested : Investment.t :=
  Investment.mk "a" "alice" 1000 Investment.approved (Js.ofZ 5) (Some 9000)
    1000 (Some 2000) None None None.

Definition withInvestment : Db.t :=
  Db.set_investments [("i1", invested)] (db []).

Definition whiteOn3 : gmap Z DiceColor.t := {[ 3 := DiceColor.white ]}.
Definition redOn3 : gmap Z DiceColor.t := {[ 3 := DiceColor.red ]}.
End Sample.

(** ** What the panels list *)

Module Panels.

(** [list.sort((a, b) => key(b) - key(a))]: a stable sort, largest key
    first.  Firestore's [orderBy(key, 'desc')] is taken to be the same
    sort; documents with equal keys stay in document order here. *)
Fixpoint insertDesc {A} (key : A -> Z) (x : A) (l : list A) : list A :=
  match l with
  | [] => [x]
  | y :: r => if key y <=? key x then x :: l else y :: insertDesc key x r
  end.

Definition sortDesc {A} (key : A -> Z) (l : list A) : list A :=
  foldr (insertDesc key) [] l.

(** vip-admin's listener: the pending point transfers, newest first. *)
Definition transferRequests (d : Db.t) : list (DocId * Request.t) :=
  sortDesc (fun r => Request.timestamp (snd r))
    (getDocs (Db.requests d)
       (fun r => bool_decide (Request.rtype r = Request.point_transfer)
                 && bool_decide (Request.rstatus r = Request.pending))).

(** users-admin's listener: the pending loans and withdrawals. *)
Definition requests (d : Db.t) : list (DocId * Request.t) :=
  sortDesc (fun r => Request.timestamp (snd r))
    (getDocs (Db.requests d)
       (fun r => bool_decide (Request.rstatus r = Request.pending)
                 && (bool_decide (Request.rtype r = Request.loan)
                     || bool_decide (Request.rtype r = Request.withdrawal)))).

(** dice-admin's and dice-game's listener: [rounds[0]] of the open rounds,
    newest first, or [null]. *)
Definition round (d : Db.t) : option (DocId * DiceRound.t) :=
  head (sortDesc (fun r => DiceRound.createdAt (snd r))
          (getDocs (Db.diceRounds d)
             (fun r => bool_decide (DiceRound.rstatus r = DiceRound.open)))).

(** ultra-manual-admin's listener: the pending bets, newest first. *)
Definition bets (d : Db.t) : list (DocId * UltraManualBet.t) :=
  sortDesc (fun b => UltraManualBet.createdAt (snd b))
    (getDocs (Db.ultraManualBets d)
       (fun b => bool_decide (UltraManualBet.bstatus b = UltraManualBet.pending))).

(** dice-game: [alreadyBetNumbers] and [canBet(num)], over the user's bets
    in the current round. *)
Definition activeBets (d : Db.t) (uid rid : DocId) : list (DocId * DiceBet.t) :=
  getDocs (Db.diceBets d)
    (fun b => bool_decide (DiceBet.userId b = uid)
              && bool_decide (DiceBet.roundId b = rid)).

Definition canBet (activeBets : list (DocId * DiceBet.t))
    (bettingDisabled : bool) (num : Z) : bool :=
  negb (bool_decide (num ∈ map (fun b => DiceBet.chosenNumber (snd b)) activeBets))
  && negb bettingDisabled.

(** dice-admin, [createRound] *)
Definition createRound (newId : DocId) (now : Z) (d : Db.t) : Db.t * Outcome :=
  (Db.set_diceRounds
     (addDoc (Db.diceRounds d) newId
        (DiceRound.mk DiceRound.open
           (list_to_map
              [(1, DiceColor.none); (2, DiceColor.none); (3, DiceColor.none);
               (4, DiceColor.none); (5, DiceColor.none); (6, DiceColor.none)])
           now None))
     d,
   Message [Txt "New round created!"]).

End Panels.

(** ** Totals over the accounts *)

Module Totals.

Definition total (f : Field.t) (users : list (DocId * User.t)) : Z :=
  foldr Z.add 0 (map (fun doc => User.balance f (snd doc)) users).

End Totals.

(** ** Kinds of batched writes *)

(** The writes a dice settlement queues: bet updates and user updates. *)
Definition betWrite (w : Write) : Prop :=
  match w with
  | UpdateDiceBet _ _ | UpdateUser _ _ => True
  | _ => False
  end.

(** ** What a referral walk pays *)

Module Bonus.

(** The amount level [level] (from 0) adds to balance [f]. *)
Definition gain (f : Field.t) (level : nat) : Z :=
  if decide (nth level Referral.bonusGive Field.points = f)
  then nth level Referral.bonusLevels 0 else 0.

(** The sum over [n] levels from [level] on. *)
Fixpoint paid (f : Field.t) (level n : nat) : Z :=
  match n with
  | O => 0
  | S n' => gain f level + paid f (S level) n'
  end.

End Bonus.

(** ** The ultra manual list (ultra-manual-admin) *)

Module UltraManualAdmin.

(** [bets.find(b => b.id === betId)] *)
Definition findBet (bets : list (DocId * UltraManualBet.t)) (betId : DocId)
  : option (DocId * UltraManualBet.t) :=
  List.find (fun b => bool_decide (fst b = betId)) bets.

(** [handleBet(betId, isWin)]: a win opens the dialog on the bet, which
    becomes [selectedBet] (the third component); a loss is processed at
    once. *)
Definition handleBet (bets : list (DocId * UltraManualBet.t)) (betId : DocId)
    (isWin : bool) (now : Z) (d : Db.t)
  : Db.t * Outcome * option (DocId * UltraManualBet.t) :=
  match findBet bets betId with
  | None => (d, Error [Txt "Bet not found"], None)
  | Some bet =>
      if isWin then (d, Quiet, Some bet)
      else (UltraManual.processBet bet false None now d, None)
  end.

End UltraManualAdmin.

(** ** More sample data *)

Module Sample2.

(** alice asks for a loan of 70 points. *)
Definition loanRq : Request.t :=
  Request.mk "a" "alice" Request.loan "" "" 70 0 0 Request.pending 1500
    None None None false.

Definition withLoan : Db.t := Sample.withRequests [("l1", loanRq)].

(** bob's pending ultra manual bet of 30 points. *)
Definition ultraBet : UltraManualBet.t :=
  UltraManualBet.mk "b" "bob" 30 "red car" UltraManualBet.pending 1600 None None.

Definition withUltraBet : Db.t :=
  Db.set_ultraManualBets [("u1", ultraBet)] (Sample.db []).

End Sample2.

(** ** The investment list of the administrator (investments-admin) *)

Module InvestmentsAdmin.

(** [!investment.interestRate]: 0, -0 and NaN are falsy. *)
Definition falsy (x : Js.number) : bool :=
  match x with
  | S754_zero _ | S754_nan => true
  | _ => false
  end.

(** [calculateReturn(investment)], the return shown for an investment;
    [None] when the product is not a finite number. *)
Definition calculateReturn (investment : Investment.t) : option Z :=
  if negb (bool_decide (Investment.istatus investment = Investment.approved))
     || falsy (Investment.interestRate investment)
  then Some 0
  else
    Js.Math_floor
      (Js.mul (Js.ofZ (Investment.amount investment))
         (Js.add (Js.ofZ 1)
            (Js.div (Investment.interestRate investment) (Js.ofZ 100)))).

End InvestmentsAdmin.

(** The investor's own list (components/games/game-panel.tsx) shows the
    product without rounding it down. *)
Module InvestmentsGame.

(** [calculateReturn(investment)] *)
Definition calculateReturn (investment : Investment.t) : Js.number :=
  if negb (bool_decide (Investment.istatus investment = Investment.approved))
  then Js.ofZ 0
  else
    Js.mul (Js.ofZ (Investment.amount investment))
      (Js.add (Js.ofZ 1)
         (Js.div (Investment.interestRate investment) (Js.ofZ 100))).

End InvestmentsGame.

(** ** The countdown of the investment panel (components/games/game-panel.tsx) *)

Module Countdown.

(** What [updateCountdowns] shows for one investment: 'Ready for payout!'
    or the time left, the days present when above 0. *)
Inductive t :=
| Ready
| Left (days : option Z) (hours minutes seconds : Z).

(** The body of the loop; the times are in milliseconds. *)
Definition countdown (releaseTime currentTime : Z) : t :=
  let timeRemaining := releaseTime - currentTime in
  if timeRemaining <=? 0 then Ready
  else
    let days := timeRemaining / (1000 * 60 * 60 * 24) in
    let hours := (timeRemaining mod (1000 * 60 * 60 * 24)) / (1000 * 60 * 60) in
    let minutes := (timeRemaining mod (1000 * 60 * 60)) / (1000 * 60) in
    let seconds := (timeRemaining mod (1000 * 60)) / 1000 in
    if 0 <? days then Left (Some days) hours minutes seconds
    else Left None hours minutes seconds.

(** [updateCountdowns]: [newCountdowns], keyed by investment id. *)
Definition updateCountdowns (investments : list (DocId * Investment.t))
    (now : Z) : gmap DocId t :=
  foldl
    (fun newCountdowns investment =>
       match Investment.istatus (snd investment),
             Investment.releaseDate (snd investment) with
       | Investment.approved, Some releaseTime =>
           <[fst investment := countdown releaseTime now]> newCountdowns
       | _, _ => newCountdowns
       end)
    ∅ investments.

(** The milliseconds a shown countdown stands for. *)
Definition shown (c : t) : Z :=
  match c with
  | Ready => 0
  | Left days hours minutes seconds =>
      default 0 days * (1000 * 60 * 60 * 24) + hours * (1000 * 60 * 60)
      + minutes * (1000 * 60) + seconds * 1000
  end.

End Countdown.

(** ** VIP slots (components/admin/vip-admin.tsx) *)

(** The VIP part of a user document.  The maps are the JavaScript objects
    keyed vip1 to vip5, here by the level number; a key may be missing. *)
Module VipData.
Record t := mk {
  username : string;
  vipLevel : Z;
  referrals : gmap Z (list string);
  maxReferrals : gmap Z Z;
  rewards : gmap Z Z
}.

Definition set_slots (level : Z) (slots : list string) (u : t) : t :=
  mk (username u) (vipLevel u) (<[level := slots]> (referrals u))
     (maxReferrals u) (rewards u).
End VipData.

Module VipAdmin.

(** [DEFAULT_VIP_DATA] of store/vip-store.ts *)
Definition defaultReferrals : gmap Z (list string) :=
  list_to_map [(1, []); (2, []); (3, []); (4, []); (5, [])].
Definition defaultMaxReferrals : gmap Z Z :=
  list_to_map [(1, 10); (2, 10); (3, 10); (4, 10); (5, 10)].
Definition defaultRewards : gmap Z Z :=
  list_to_map [(1, 100); (2, 300); (3, 600); (4, 1200); (5, 2400)].

(** The listener's view of a VIP user: the stored maps spread over the
    defaults. *)
Definition view (data : VipData.t) : VipData.t :=
  VipData.mk (VipData.username data)
    (if VipData.vipLevel data =? 0 then 1 else VipData.vipLevel data)
    (VipData.referrals data ∪ defaultReferrals)
    (VipData.maxReferrals data ∪ defaultMaxReferrals)
    (VipData.rewards data ∪ defaultRewards).

(** [vipUsers]: the users with [vipLevel > 0], highest level first. *)
Definition vipUsers (c : list (DocId * VipData.t)) : list (DocId * VipData.t) :=
  Panels.sortDesc (fun u => VipData.vipLevel (snd u))
    (map (fun doc => (fst doc, view (snd doc)))
       (getDocs c (fun u => 0 <? VipData.vipLevel u))).

(** [selectedUser.maxReferrals[vipKey] || DEFAULT_VIP_DATA.maxReferrals[vipKey]];
    [None] is [undefined]. *)
Definition maxOf (u : VipData.t) (level : Z) : option Z :=
  match VipData.maxReferrals u !! level with
  | Some n => if n =? 0 then defaultMaxReferrals !! level else Some n
  | None => defaultMaxReferrals !! level
  end.

(** [handleAddSlot]; [currentReferrals.length >= undefined] is false. *)
Definition handleAddSlot (selectedUser : option (DocId * VipData.t))
    (selectedVipLevel : option Z) (newSlotName : string)
    (c : list (DocId * VipData.t)) : list (DocId * VipData.t) * Outcome :=
  match selectedUser, selectedVipLevel with
  | Some (id, u), Some level =>
      if negb (Js.nonempty (Js.trim newSlotName)) then (c, Quiet)
      else
        let currentReferrals := default [] (VipData.referrals u !! level) in
        let full :=
          match maxOf u level with
          | Some maxReferrals =>
              maxReferrals <=? Z.of_nat (length currentReferrals)
          | None => false
          end in
        if full
        then (c, Error [Txt "Maximum slots ("; Int (default 0 (maxOf u level));
                        Txt ") reached for VIP"; Int level])
        else
          match updateDoc c id
                  (VipData.set_slots level
                     (currentReferrals ++ [Js.trim newSlotName])) with
          | Some c' => (c', Message [Txt "Slot added successfully"])
          | None => (c, Error notFound)
          end
  | _, _ => (c, Quiet)
  end.

(** [Array.prototype.splice(start, 1)]: a negative start counts from the
    end, a start beyond the end removes nothing. *)
Definition splice1 {A} (start : Z) (l : list A) : list A :=
  let len := Z.of_nat (length l) in
  let s := if start <? 0 then Z.max (len + start) 0 else Z.min start len in
  take (Z.to_nat s) l ++ drop (S (Z.to_nat s)) l.

(** [vipUsers.find(u => u.id === userId)] *)
Definition findUser (vipUsers : list (DocId * VipData.t)) (userId : DocId)
  : option (DocId * VipData.t) :=
  List.find (fun u => bool_decide (fst u = userId)) vipUsers.

(** [handleDeleteSlot(userId, vipLevel, slotIndex)] *)
Definition handleDeleteSlot (vipUsers : list (DocId * VipData.t))
    (userId : DocId) (vipLevel : Z) (slotIndex : Z) (confirmed : bool)
    (c : list (DocId * VipData.t)) : list (DocId * VipData.t) * Outcome :=
  if negb confirmed then (c, Quiet)
  else
    match findUser vipUsers userId with
    | None => (c, Quiet)
    | Some user =>
        let currentReferrals :=
          splice1 slotIndex (default [] (VipData.referrals (snd user) !! vipLevel)) in
        match updateDoc c userId (VipData.set_slots vipLevel currentReferrals) with
        | Some c' => (c', Message [Txt "Slot deleted successfully"])
        | None => (c, Error [Txt "Failed to delete slot"])
        end
    end.

(** [handleResetVIP(userId)] *)
Definition handleResetVIP (userId : DocId) (confirmed : bool)
    (c : list (DocId * VipData.t)) : list (DocId * VipData.t) * Outcome :=
  if negb confirmed then (c, Quiet)
  else
    match updateDoc c userId
            (fun u => VipData.mk (VipData.username u) 0 defaultReferrals
                        defaultMaxReferrals defaultRewards) with
    | Some c' => (c', Message [Txt "VIP data reset successfully"])
    | None => (c, Error [Txt "Failed to reset VIP data"])
    end.

(** [toggleUserExpanded(userId)] *)
Definition toggleUserExpanded (userId : DocId) (prev : list DocId) : list DocId :=
  if bool_decide (userId ∈ prev)
  then List.filter (fun id => negb (bool_decide (id = userId))) prev
  else prev ++ [userId].

(** A VIP user of level 2 with two slots taken at level 1. *)
Definition sampleVip : VipData.t :=
  VipData.mk "alice" 2 {[ 1 := ["x"; "y"] ]} ∅ ∅.

End VipAdmin.

(** ** The service worker (public/sw.js) *)

Module ServiceWorker.

(** [String.prototype.includes] *)
Fixpoint includes (s sub : string) : bool :=
  String.prefix sub s
  || match s with
     | EmptyString => false
     | String _ r => includes r sub
     end.

(** [request.mode] *)
Inductive Mode := navigate | cors | no_cors | same_origin.

Global Instance Mode_eq_dec : EqDecision Mode.
Proof. solve_decision. Defined.

Record Request := mkRequest {
  pathname : string;
  mode : Mode
}.

Record Response := mkResponse {
  status : Z;
  body : string
}.

(** [response.ok] *)
Definition ok (r : Response) : bool := (200 <=? status r) && (status r <=? 299).

(** Where the response handed to [respondWith] comes from. *)
Inductive Source := Made | Network | Cache.

Definition pong : Response := mkResponse 200 "pong".
Definition offlinePage : Response :=
  mkResponse 200 "<html><body><script>window.isOffline = true;</script></body></html>".
Definition offline : Response := mkResponse 503 "Offline".

Definition shouldNotCache (request : Request) : bool :=
  includes (pathname request) ".js"
  || includes (pathname request) ".css"
  || includes (pathname request) ".html"
  || includes (pathname request) "/api/"
  || String.eqb (pathname request) "/"
  || bool_decide (mode request = navigate).

(** The fetch listener: [network] is [fetch], [None] when it rejects;
    [cache] is [caches.match], [None] for [undefined]. *)
Definition onFetch (network cache : Request -> option Response)
    (request : Request) : Source * Response :=
  if String.eqb (pathname request) "/api/ping" then (Made, pong)
  else if shouldNotCache request then
    match network request with
    | Some response => (Network, response)
    | None =>
        if bool_decide (mode request = navigate) then (Made, offlinePage)
        else (Made, offline)
    end
  else
    match network request with
    | Some response => (Network, response)
    | None =>
        match cache request with
        | Some cachedResponse => (Cache, cachedResponse)
        | None =>
            if bool_decide (mode request = navigate) then (Made, offlinePage)
            else (Made, offline)
        end
    end.

(** [fetch] as a page sees it: through the worker when one controls the
    page, straight to the network otherwise. *)
Definition fetch (controlled : bool) (network cache : Request -> option Response)
    (request : Request) : option Response :=
  if controlled then Some (snd (onFetch network cache request))
  else network request.

(** The request of the connectivity checks, [fetch('/api/ping?t=...')]. *)
Definition ping : Request := mkRequest "/api/ping" cors.

End ServiceWorker.

(** ** The application shell (App.tsx, components/offline-screen) *)

Module App.

Inductive ActivePanel := user | home | game | admin.

Global Instance ActivePanel_eq_dec : EqDecision ActivePanel.
Proof. solve_decision. Defined.

(** [window.location.hash.slice(1)] *)
Definition slice1 (s : string) : string :=
  match s with
  | EmptyString => EmptyString
  | String _ r => r
  end.

(** [handleHash]: [isAdmin] is [user?.isAdmin]. *)
Definition handleHash (locationHash : string) (isAdmin : bool) : ActivePanel :=
  let hash := slice1 locationHash in
  if String.eqb hash "home" then home
  else if String.eqb hash "user" then user
  else if String.eqb hash "game" then game
  else if String.eqb hash "admin" && isAdmin then admin
  else home.

Inductive Component :=
| DiceGameLink | AuthPanel | UserPanel | HomePanel | GamePanel | AdminPanel.

(** What [App] renders in its main area: [signedIn] is [user], carrying
    [user.isAdmin]; [activePanel] is [None] for [null]. *)
Definition render (locationPathname : string) (signedIn : option bool)
    (activePanel : option ActivePanel) : list Component :=
  if String.eqb locationPathname "/dice-link" then [DiceGameLink]
  else
    match signedIn with
    | None => [AuthPanel]
    | Some isAdmin =>
        (if bool_decide (activePanel = Some home) then [UserPanel] else [])
        ++ (if bool_decide (activePanel = Some user) then [HomePanel] else [])
        ++ (if bool_decide (activePanel = Some game) then [GamePanel] else [])
        ++ (if bool_decide (activePanel = Some admin) && isAdmin
            then [AdminPanel] else [])
    end.

(** [checkServerConnection]: the new value of [isOffline]. *)
Definition checkServerConnection (response : option ServiceWorker.Response)
    (isOffline : bool) : bool :=
  match response with
  | Some r => if negb (ServiceWorker.ok r) then true else isOffline
  | None => true
  end.

End App.

Module OfflineScreen.

Record t := mk {
  isOffline : bool;
  retryCount : Z;
  lastRetryTime : Z
}.

(** [checkConnection], which runs only while the screen is up *)
Definition checkConnection (response : option ServiceWorker.Response) (s : t) : t :=
  if negb (isOffline s) then s
  else
    match response with
    | Some r =>
        if ServiceWorker.ok r then mk false 0 (lastRetryTime s) else s
    | None => mk true (retryCount s) (lastRetryTime s)
    end.

(** [handleManualRetry]: the new state and whether the page reloads;
    [response] is the answer to the ping it sends when it is not
    throttled. *)
Definition handleManualRetry (response : option ServiceWorker.Response)
    (now : Z) (s : t) : t * bool :=
  if now - lastRetryTime s <? 2000 then (s, false)
  else
    match response with
    | Some r =>
        if ServiceWorker.ok r then (mk false 0 now, true)
        else (mk (isOffline s) (retryCount s + 1) now, false)
    | None => (mk (isOffline s) (retryCount s + 1) now, false)
    end.

End OfflineScreen.

(** * Properties *)

(** Decidable side conditions on sample data. *)
Ltac decide_by_compute :=
  match goal with
  | |- ?P => apply (bool_decide_unpack P); vm_compute; exact I
  end.

(** ** Collections *)

Section CollectionFacts.
Context {A : Type}.
Implicit Types (c : list (DocId * A)) (id : DocId) (f : A -> A).

Lemma getDoc_mergeDoc c id f id' :
  getDoc (mergeDoc id f c) id' =
  if decide (id' = id) then f <$> getDoc c id' else getDoc c id'.
Proof.
  induction c as [|[i a] c IH]; simpl.
  - by destruct (decide (id' = id)).
  - destruct (decide (i = id)) as [->|Hi]; simpl.
    + destruct (decide (id = id')) as [->|Hne].
      * by rewrite decide_True.
      * rewrite IH. by rewrite decide_False.
    + destruct (decide (i = id')) as [->|Hne].
      * by rewrite decide_False.
      * apply IH.
Qed.

Lemma docIds_mergeDoc c id f : docIds (mergeDoc id f c) = docIds c.
Proof.
  unfold docIds, mergeDoc. rewrite map_map. apply map_ext.
  intros [i a]; simpl. by destruct (decide (i = id)).
Qed.

Lemma updateDoc_Some c id f c' :
  updateDoc c id f = Some c' ->
  is_Some (getDoc c id) /\ c' = mergeDoc id f c.
Proof.
  unfold updateDoc. destruct (getDoc c id) eqn:E; [|done].
  intros [= <-]. eauto.
Qed.

Lemma getDoc_In c id a : getDoc c id = Some a -> In (id, a) c.
Proof.
  induction c as [|[i b] c IH]; simpl; [done|].
  destruct (decide (i = id)) as [->|]; [intros [= ->]; by left|].
  intros H. right. by apply IH.
Qed.

Lemma In_getDoc c id a :
  NoDup (docIds c) -> In (id, a) c -> getDoc c id = Some a.
Proof.
  induction c as [|[i b] c IH]; simpl; [done|].
  intros Hnd [[= -> ->]|Hin].
  - by rewrite decide_True.
  - apply NoDup_cons in Hnd as [Hni Hnd].
    destruct (decide (i = id)) as [->|].
    + exfalso. apply Hni. apply list_elem_of_In.
      change id with (fst (id, a)). by apply in_map.
    + by apply IH.
Qed.

Lemma getDoc_getDocs c (p : A -> bool) id :
  NoDup (docIds c) ->
  getDoc (getDocs c p) id =
  match getDoc c id with
  | Some a => if p a then Some a else None
  | None => None
  end.
Proof.
  induction c as [|[i b] c IH]; simpl; [done|].
  intros Hnd. apply NoDup_cons in Hnd as [Hni Hnd].
  destruct (p b) eqn:Hp; simpl.
  - destruct (decide (i = id)) as [->|]; [by rewrite Hp|]. by apply IH.
  - destruct (decide (i = id)) as [->|]; [|by apply IH].
    rewrite Hp. rewrite IH by done.
    destruct (getDoc c id) eqn:E; [|done].
    exfalso. apply Hni. apply list_elem_of_In.
    apply getDoc_In in E. change id with (fst (id, a)). by apply in_map.
Qed.

Lemma NoDup_docIds_getDocs c (p : A -> bool) :
  NoDup (docIds c) -> NoDup (docIds (getDocs c p)).
Proof.
  induction c as [|[i b] c IH]; simpl; [done|].
  intros Hnd. apply NoDup_cons in Hnd as [Hni Hnd].
  destruct (p b); simpl; [|by apply IH].
  apply NoDup_cons. split; [|by apply IH].
  intros Hin. apply Hni. apply list_elem_of_In in Hin. apply list_elem_of_In.
  unfold docIds, getDocs in *. apply in_map_iff in Hin as [[i' a'] [<- Hin]].
  apply filter_In in Hin as [Hin _]. simpl.
  change i' with (fst (i', a')). by apply in_map.
Qed.

End CollectionFacts.

(** ** Batches *)

Lemma commit_app d b1 b2 :
  commit d (b1 ++ b2) = commit d b1 ≫= fun d1 => commit d1 b2.
Proof.
  revert d. induction b1 as [|w b1 IH]; intros d; simpl; [done|].
  destruct (applyWrite d w); simpl; [apply IH|done].
Qed.

Lemma Db_updateUser_Some id f d d' :
  Db.updateUser id f d = Some d' ->
  is_Some (getDoc (Db.users d) id) /\ d' = Db.set_users (mergeDoc id f (Db.users d)) d.
Proof.
  unfold Db.updateUser. destruct (updateDoc (Db.users d) id f) eqn:E; [|done].
  intros [= <-]. apply updateDoc_Some in E as [? ->]. done.
Qed.

Lemma Db_updateDiceBet_Some id f d d' :
  Db.updateDiceBet id f d = Some d' ->
  is_Some (getDoc (Db.diceBets d) id) /\
  d' = Db.set_diceBets (mergeDoc id f (Db.diceBets d)) d.
Proof.
  unfold Db.updateDiceBet. destruct (updateDoc (Db.diceBets d) id f) eqn:E; [|done].
  intros [= <-]. apply updateDoc_Some in E as [? ->]. done.
Qed.

Lemma Db_updateDiceRound_Some id f d d' :
  Db.updateDiceRound id f d = Some d' ->
  is_Some (getDoc (Db.diceRounds d) id) /\
  d' = Db.set_diceRounds (mergeDoc id f (Db.diceRounds d)) d.
Proof.
  unfold Db.updateDiceRound.
  destruct (updateDoc (Db.diceRounds d) id f) eqn:E; [|done].
  intros [= <-]. apply updateDoc_Some in E as [? ->]. done.
Qed.

(** ** Dice settlement *)

Section DiceFacts.
Import Dice.
Variables (numberColors : gmap Z DiceColor.t) (now : Z).

Lemma commit_resolveBet doc d d' :
  commit d (resolveBet numberColors now doc) = Some d' ->
  Db.diceBets d' =
    mergeDoc (fst doc) (betUpdate numberColors now (snd doc)) (Db.diceBets d) /\
  (forall uid, User.cash <$> getDoc (Db.users d') uid =
               User.cash <$> getDoc (Db.users d) uid) /\
  (forall uid,
      (DiceBet.userId (snd doc) = uid -> ~ creditsPoints numberColors (snd doc)) ->
      getDoc (Db.users d') uid = getDoc (Db.users d) uid) /\
  Db.transactions d' = Db.transactions d /\
  Db.diceRounds d' = Db.diceRounds d.
Proof.
  destruct doc as [id bet]. unfold resolveBet, creditsPoints. simpl.
  set (color := colorOf numberColors (DiceBet.chosenNumber bet)).
  destruct (Db.updateDiceBet id _ d) as [d1|] eqn:E1; [|done].
  apply Db_updateDiceBet_Some in E1 as [_ ->].
  destruct (bool_decide (color <> DiceColor.none) &&
            (0 <? fst (payoutOf color (DiceBet.amount bet)))) eqn:Hw;
    [destruct (decide (snd (payoutOf color (DiceBet.amount bet)) = Some DiceBet.fbt)) as [Hk|Hk]|];
    simpl.
  - destruct (Db.updateUser _ _ _) as [d2|] eqn:E2; [|done].
    apply Db_updateUser_Some in E2 as [_ ->]. intros [= <-]. simpl.
    split_and!; try done.
    + intros uid. rewrite getDoc_mergeDoc.
      destruct (decide (uid = DiceBet.userId bet)); [|done].
      by destruct (getDoc (Db.users d) uid).
    + intros uid Hno. rewrite getDoc_mergeDoc.
      destruct (decide (uid = DiceBet.userId bet)) as [->|]; [|done].
      exfalso. apply Hno; [done|].
      apply andb_true_iff in Hw as [_ Hp]. apply Z.ltb_lt in Hp.
      destruct color; simpl in *; try done; split; auto.
  - intros [= <-]. simpl. done.
  - intros [= <-]. simpl. done.
Qed.

Lemma commit_resolveBets snap d d' :
  commit d (flat_map (resolveBet numberColors now) snap) = Some d' ->
  Db.diceBets d' =
    foldl (fun c doc => mergeDoc (fst doc) (betUpdate numberColors now (snd doc)) c)
          (Db.diceBets d) snap /\
  (forall uid, User.cash <$> getDoc (Db.users d') uid =
               User.cash <$> getDoc (Db.users d) uid) /\
  (forall uid,
      (forall doc, In doc snap -> DiceBet.userId (snd doc) = uid ->
                   ~ creditsPoints numberColors (snd doc)) ->
      getDoc (Db.users d') uid = getDoc (Db.users d) uid) /\
  Db.transactions d' = Db.transactions d /\
  Db.diceRounds d' = Db.diceRounds d.
Proof.
  revert d. induction snap as [|doc snap IH]; intros d.
  - intros [= <-]. done.
  - cbn [flat_map]. rewrite commit_app.
    destruct (commit d (resolveBet numberColors now doc)) as [d1|] eqn:E1; [|done].
    simpl. intros E2. apply commit_resolveBet in E1 as (Hb & Hc & Hu & Ht & Hr).
    apply IH in E2 as (Hb' & Hc' & Hu' & Ht' & Hr').
    split_and!.
    + by rewrite Hb', Hb.
    + intros uid. by rewrite Hc', Hc.
    + intros uid Hno. rewrite Hu', Hu; [done|..].
      * intros Hid. apply (Hno doc); [by left|done].
      * intros doc' Hin. apply Hno. by right.
    + by rewrite Ht', Ht.
    + by rewrite Hr', Hr.
Qed.

Lemma getDoc_foldl_merge {A} (g : A -> A -> A) (snap c : list (DocId * A)) id :
  NoDup (docIds snap) ->
  getDoc (foldl (fun c doc => mergeDoc (fst doc) (g (snd doc)) c) c snap) id =
  match getDoc snap id with
  | Some a => g a <$> getDoc c id
  | None => getDoc c id
  end.
Proof.
  revert c. induction snap as [|[i a] snap IH]; intros c Hnd; simpl; [done|].
  unfold docIds in Hnd. simpl in Hnd.
  apply NoDup_cons in Hnd as [Hni Hnd]. rewrite IH by done.
  rewrite getDoc_mergeDoc. simpl.
  destruct (decide (i = id)) as [->|Hne].
  - rewrite decide_True by done.
    destruct (getDoc snap id) eqn:E; [|done].
    exfalso. apply Hni. apply list_elem_of_In. apply getDoc_In in E.
    change id with (fst (id, a0)). by apply in_map.
  - rewrite decide_False by done. done.
Qed.

End DiceFacts.

Section DiceSettlement.
Import Dice.
Variables (numberColors : gmap Z DiceColor.t) (now : Z).

(** A successful settlement went through both commits. *)
Lemma closeRoundAndResolve_Message round d d' msg :
  closeRoundAndResolve round numberColors now d = (d', Message msg) ->
  exists rid r d1,
    round = Some (rid, r) /\
    hasWinner numberColors = true /\
    Db.updateDiceRound rid (DiceRound.close numberColors now) d = Some d1 /\
    commit d1 (flat_map (resolveBet numberColors now) (betsOfRound d1 rid)) = Some d' /\
    closeRoundAndResolve_steps round numberColors now d =
      ([d1; d'], Message [Txt "Round closed and bets resolved!"]).
Proof.
  unfold closeRoundAndResolve, closeRoundAndResolve_steps.
  destruct round as [[rid r]|]; [|done].
  destruct (hasWinner numberColors); simpl; [|done].
  destruct (Db.updateDiceRound _ _ _) as [d1|] eqn:E1; [|done].
  destruct (commit d1 _) as [d2|] eqn:E2; simpl; [|done].
  intros [= <- <-]. by exists rid, r, d1.
Qed.

Lemma settled_bets_lookup rid d1 d' id :
  NoDup (docIds (Db.diceBets d1)) ->
  commit d1 (flat_map (resolveBet numberColors now) (betsOfRound d1 rid)) = Some d' ->
  getDoc (Db.diceBets d') id =
  match getDoc (Db.diceBets d1) id with
  | Some bet =>
      if bool_decide (DiceBet.roundId bet = rid)
      then Some (betUpdate numberColors now bet bet) else Some bet
  | None => None
  end.
Proof.
  intros Hnd Hc. apply commit_resolveBets in Hc as (-> & _).
  unfold betsOfRound.
  rewrite getDoc_foldl_merge by by apply NoDup_docIds_getDocs.
  rewrite getDoc_getDocs by done.
  destruct (getDoc (Db.diceBets d1) id) as [bet|] eqn:Hg; [|done].
  cbn beta. destruct (bool_decide (DiceBet.roundId bet = rid)); by rewrite ?Hg.
Qed.

Lemma settled_bet_lookup rid d1 d' id bet :
  NoDup (docIds (Db.diceBets d1)) ->
  commit d1 (flat_map (resolveBet numberColors now) (betsOfRound d1 rid)) = Some d' ->
  getDoc (Db.diceBets d1) id = Some bet ->
  DiceBet.roundId bet = rid ->
  getDoc (Db.diceBets d') id = Some (betUpdate numberColors now bet bet).
Proof.
  intros Hnd Hc Hg Hr. rewrite (settled_bets_lookup rid d1 d' id Hnd Hc), Hg.
  by rewrite bool_decide_true.
Qed.

End DiceSettlement.

Section DiceClaims.
Import Dice DiceSpec.
Variables (numberColors : gmap Z DiceColor.t) (now : Z).

Lemma closeRoundAndResolve_effects rid r d d' msg :
  NoDup (docIds (Db.diceBets d)) ->
  closeRoundAndResolve (Some (rid, r)) numberColors now d = (d', Message msg) ->
  (forall id bet,
      getDoc (Db.diceBets d) id = Some bet ->
      DiceBet.roundId bet = rid ->
      getDoc (Db.diceBets d') id = Some (betUpdate numberColors now bet bet)) /\
  (forall uid, User.cash <$> getDoc (Db.users d') uid =
               User.cash <$> getDoc (Db.users d) uid) /\
  (forall uid,
      (forall id bet, getDoc (Db.diceBets d) id = Some bet ->
                      DiceBet.roundId bet = rid ->
                      DiceBet.userId bet = uid ->
                      ~ creditsPoints numberColors bet) ->
      getDoc (Db.users d') uid = getDoc (Db.users d) uid).
Proof.
  intros Hnd Hrun.
  apply closeRoundAndResolve_Message in Hrun
    as (rid' & r' & d1 & [= <- <-] & _ & E1 & E2 & _).
  apply Db_updateDiceRound_Some in E1 as [_ Hd1].
  assert (Hb : Db.diceBets d1 = Db.diceBets d) by by subst.
  assert (Hu1 : Db.users d1 = Db.users d) by by subst.
  clear Hd1. rewrite <- Hb in Hnd. rewrite <- Hb, <- Hu1. clear Hb Hu1.
  split_and!.
  - intros id bet Hg Hr.
    apply (settled_bet_lookup numberColors now rid d1 d' id bet Hnd E2 Hg Hr).
  - intros uid. by apply commit_resolveBets in E2 as (_ & -> & _).
  - intros uid Hno. apply commit_resolveBets in E2 as (_ & _ & Hu & _).
    rewrite Hu; [done|]. intros [id bet] Hin Hid. simpl in *.
    unfold betsOfRound, getDocs in Hin. apply filter_In in Hin as [Hin Hp].
    simpl in *. apply bool_decide_eq_true in Hp.
    apply (Hno id); [|done..]. by apply In_getDoc.
Qed.



(** Every state a reader may see has the bets and the accounts as they
    were, or every bet of the round settled. *)
Lemma observable_all_or_nothing rid r d st :
  NoDup (docIds (Db.diceBets d)) ->
  In st (observable (Some (rid, r)) numberColors now d) ->
  (Db.diceBets st = Db.diceBets d /\ Db.users st = Db.users d /\
   (st <> d -> roundClosed rid st)) \/
  (roundClosed rid st /\
   forall id, getDoc (Db.diceBets st) id =
     match getDoc (Db.diceBets d) id with
     | Some bet =>
         if bool_decide (DiceBet.roundId bet = rid)
         then Some (betUpdate numberColors now bet bet) else Some bet
     | None => None
     end).
Proof.
  intros Hnd. unfold observable, closeRoundAndResolve_steps.
  destruct (hasWinner numberColors); simpl;
    [|intros [<-|[]]; left; done].
  destruct (Db.updateDiceRound _ _ _) as [d1|] eqn:E1; simpl;
    [|intros [<-|[]]; left; done].
  apply Db_updateDiceRound_Some in E1 as [[r0 Hr0] Hd1].
  assert (Hcl : roundClosed rid d1).
  { subst d1. unfold roundClosed. simpl. rewrite getDoc_mergeDoc.
    rewrite decide_True by done. rewrite Hr0. by eexists. }
  assert (Hb : Db.diceBets d1 = Db.diceBets d) by by subst.
  assert (Hu : Db.users d1 = Db.users d) by by subst.
  destruct (commit d1 _) as [d2|] eqn:E2; simpl.
  - intros [<-|[<-|[<-|[]]]]; [left; done|left; done|right].
    split.
    + apply commit_resolveBets in E2 as (_ & _ & _ & _ & Hrd).
      destruct Hcl as (r1 & Hg1 & Hs1). exists r1. by rewrite Hrd.
    + intros id. rewrite <- Hb in Hnd |- *.
      by apply settled_bets_lookup.
  - intros [<-|[<-|[]]]; left; done.
Qed.

(** C4, as amended.  The round is closed by a write of its own, before
    its bets are resolved; the status updates of all bets of the round
    and all winner writes then commit as one batch.  A reader sees the
    bets and accounts untouched or every bet of the round settled, never
    some bets of the round resolved while others are pending. *)
Theorem bets_resolve_atomically rid r d st :
  NoDup (docIds (Db.diceBets d)) ->
  allPending rid d ->
  In st (observable (Some (rid, r)) numberColors now d) ->
  ((Db.diceBets st = Db.diceBets d /\ Db.users st = Db.users d) \/
   (roundClosed rid st /\
    forall id bet, getDoc (Db.diceBets d) id = Some bet ->
                   DiceBet.roundId bet = rid ->
                   getDoc (Db.diceBets st) id =
                     Some (betUpdate numberColors now bet bet))) /\
  ~ partlyResolved rid st.
Proof.
  intros Hnd Hall Hin.
  destruct (observable_all_or_nothing rid r d st Hnd Hin)
    as [(Hb & Hu & _)|(Hcl & Hlk)].
  - split; [by left|].
    intros [(id & bet & Hg & Hr & Hs) _]. rewrite Hb in Hg.
    by apply Hs, (Hall id).
  - split.
    + right. split; [done|]. intros id bet Hg Hr.
      by rewrite Hlk, Hg, bool_decide_true.
    + intros [_ (id & bet & Hg & Hr & Hs)]. rewrite Hlk in Hg.
      destruct (getDoc (Db.diceBets d) id) as [bet0|]; [|done].
      destruct (bool_decide (DiceBet.roundId bet0 = rid)) eqn:Hd.
      * injection Hg as <-. unfold betUpdate in Hs. simpl in Hs.
        by destruct (decide _).
      * injection Hg as <-. by apply bool_decide_eq_false in Hd.
Qed.

End DiceClaims.


Section DiceExamples.
Import Dice DiceSpec Sample.


(** The points write of a red or green win replaces the balance with
    [bet.amount + payout]: alice holds 500 points, wins 200 on a bet of
    100, and is left with 300. *)
Example settlement_overwrites_points :
  User.points <$>
    getDoc (Db.users (fst (closeRoundAndResolve round redOn3 2000 start))) "a"
  = Some 300.
Proof. reflexivity. Qed.


(** C4, as the specification words it, fails: after the first write the
    round is closed and both of its bets are pending. *)
Lemma round_closed_before_bets_resolve :
  ~ neverHalfResolved round whiteOn3 2000 start.
Proof.
  intros H.
  destruct (H "r1" round1
              (List.nth 1 (observable round whiteOn3 2000 start) start)
              eq_refl) as [Hc _].
  - vm_compute. right. left. reflexivity.
  - apply Hc. split.
    + eexists. split; [reflexivity|reflexivity].
    + exists "b1", (bet "a" "alice" 3 100). by vm_compute.
Qed.

Lemma bets_resolve_atomically_witness :
  ~ partlyResolved "r1" (fst (closeRoundAndResolve round whiteOn3 2000 start)).
Proof.
  apply (bets_resolve_atomically whiteOn3 2000 "r1" round1 start).
  - decide_by_compute.
  - intros id b Hg _. simpl in Hg.
    repeat case_decide; by simplify_eq.
  - vm_compute. right. right. left. reflexivity.
Defined.

End DiceExamples.

(** ** Point transfers *)

Lemma Db_updateRequest_Some id f d d' :
  Db.updateRequest id f d = Some d' ->
  is_Some (getDoc (Db.requests d) id) /\
  d' = Db.set_requests (mergeDoc id f (Db.requests d)) d.
Proof.
  unfold Db.updateRequest. destruct (updateDoc (Db.requests d) id f) eqn:E; [|done].
  intros [= <-]. apply updateDoc_Some in E as [? ->]. done.
Qed.

Lemma Db_updateUser_exists id f d u :
  getDoc (Db.users d) id = Some u ->
  Db.updateUser id f d = Some (Db.set_users (mergeDoc id f (Db.users d)) d).
Proof. intros E. unfold Db.updateUser, updateDoc. by rewrite E. Qed.

Lemma Db_updateRequest_exists id f d r :
  getDoc (Db.requests d) id = Some r ->
  Db.updateRequest id f d = Some (Db.set_requests (mergeDoc id f (Db.requests d)) d).
Proof. intros E. unfold Db.updateRequest, updateDoc. by rewrite E. Qed.

Lemma fmap_Some {A B} (f : A -> B) (x : A) : f <$> Some x = Some (f x).
Proof. reflexivity. Qed.

Lemma set_points_twice u p q :
  User.set_points p (User.set_points q u) = User.set_points p u.
Proof. by destruct u. Qed.

Lemma set_points_same u : User.set_points (User.points u) u = u.
Proof. by destruct u. Qed.

Section TransferClaims.
Import Vip.

(** C5.  Processing a transfer request whose sender holds fewer points
    than the requested amount marks the request declined, records the
    reason "Insufficient points" and the processing time, and changes no
    account and no transaction, whether the administrator chose to
    approve or to decline. *)
Theorem insufficient_points_auto_decline id rq stored approve now d sender :
  getDoc (Db.users d) (Request.userId rq) = Some sender ->
  getDoc (Db.requests d) id = Some stored ->
  User.points sender < Request.amount rq ->
  exists d',
    handleTransferRequest false (id, rq) approve now d =
      (d', Message [Txt "Transfer request declined: Insufficient points"]) /\
    Db.users d' = Db.users d /\
    Db.transactions d' = Db.transactions d /\
    exists rq',
      getDoc (Db.requests d') id = Some rq' /\
      Request.rstatus rq' = Request.declined /\
      Request.declineReason rq' = Some "Insufficient points" /\
      Request.processedAt rq' = Some now /\
      Request.amount rq' = Request.amount stored.
Proof.
  intros Hs Hr Hlt. unfold handleTransferRequest. cbn [fst snd]. rewrite Hs.
  rewrite (proj2 (Z.ltb_lt _ _) Hlt).
  rewrite (Db_updateRequest_exists _ _ _ _ Hr).
  eexists. split; [reflexivity|]. split_and!; [done..|].
  simpl. rewrite getDoc_mergeDoc, decide_True, Hr by done.
  eexists. split; [reflexivity|]. done.
Qed.

(** C8.  A transfer that is not direct, from a sender with enough points
    to a recipient that resolves to another account, adds one pending
    point_transfer request and leaves every account and the transaction
    log as they were. *)
Theorem transfer_request_moves_nothing userId ident amount newId now d
    sender recipientId recipient rest :
  Js.nonempty userId = true ->
  Js.nonempty ident = true ->
  0 < amount ->
  getDoc (Db.users d) userId = Some sender ->
  amount <= User.points sender ->
  findRecipient (Db.users d) ident = (recipientId, recipient) :: rest ->
  recipientId <> userId ->
  exists d',
    transferPoints userId ident amount false newId now d = (d', Quiet) /\
    Db.users d' = Db.users d /\
    Db.transactions d' = Db.transactions d /\
    Db.requests d' =
      Db.requests d ++
      [(newId,
        Request.mk userId (User.username sender) Request.point_transfer
          recipientId (User.username recipient) amount 0 0 Request.pending
          now None None None false)].
Proof.
  intros Hu Hi Ha Hs Hle Hf Hne. unfold transferPoints.
  rewrite Hu, Hi. simpl. rewrite (proj2 (Z.leb_gt _ _) Ha). rewrite Hs.
  rewrite (proj2 (Z.ltb_ge _ _) Hle). rewrite Hf.
  rewrite decide_False by done. eexists. split; [reflexivity|]. done.
Qed.

End TransferClaims.

Lemma getDocs_mergeDoc {A} (c : list (DocId * A)) (p : A -> bool) id f :
  (forall a, p (f a) = p a) ->
  getDocs (mergeDoc id f c) p = mergeDoc id f (getDocs c p).
Proof.
  intros Hp. induction c as [|[i a] c IH]; simpl; [done|].
  destruct (decide (i = id)) as [->|Hne]; simpl.
  - rewrite Hp. destruct (p a); simpl; [|done].
    rewrite decide_True by done. by rewrite IH.
  - destruct (p a); simpl; [|done].
    rewrite decide_False by done. by rewrite IH.
Qed.

Lemma findRecipient_set_points users ident id v :
  Vip.findRecipient (mergeDoc id (User.set_points v) users) ident =
  mergeDoc id (User.set_points v) (Vip.findRecipient users ident).
Proof.
  unfold Vip.findRecipient.
  destruct (Js.startsWith ident "FBT"); apply getDocs_mergeDoc; by intros [].
Qed.

Section RoundTrip.
Import Vip.
Variables (d : Db.t) (a b : DocId) (ua ub : User.t) (amount : Z).
Hypothesis Ha : getDoc (Db.users d) a = Some ua.
Hypothesis Hb : getDoc (Db.users d) b = Some ub.
Hypothesis Hab : a <> b.
Hypothesis Hpos : 0 < amount.
Hypothesis Hle : amount <= User.points ua.
Hypothesis Hnonneg : 0 <= User.points ub.

Local Abbreviation moved :=
  (afterTransfer (Db.users d) a b (User.points ua) (User.points ub) amount).

Lemma afterTransfer_a :
  getDoc moved a = Some (User.set_points (User.points ua - amount) ua).
Proof.
  unfold afterTransfer. rewrite !getDoc_mergeDoc, Ha.
  rewrite decide_False by done. by rewrite decide_True.
Qed.

Lemma afterTransfer_b :
  getDoc moved b = Some (User.set_points (User.points ub + amount) ub).
Proof.
  unfold afterTransfer. rewrite !getDoc_mergeDoc, Hb.
  rewrite decide_True by done. by rewrite decide_False.
Qed.

(** Moving [amount] back from b to a restores every account. *)
Lemma transfer_back_restores id :
  getDoc
    (mergeDoc a (User.set_points (User.points ua - amount + amount))
       (mergeDoc b (User.set_points (User.points ub + amount - amount))
          moved)) id
  = getDoc (Db.users d) id.
Proof.
  unfold afterTransfer. rewrite !getDoc_mergeDoc.
  repeat case_decide; subst; try done.
  - rewrite Ha, !fmap_Some, !set_points_twice.
    replace (User.points ua - amount + amount) with (User.points ua) by lia.
    by rewrite set_points_same.
  - rewrite Hb, !fmap_Some, !set_points_twice.
    replace (User.points ub + amount - amount) with (User.points ub) by lia.
    by rewrite set_points_same.
Qed.

Lemma direct_round_trip identA identB restA restB n1 n2 t1 t2 :
  Js.nonempty a = true -> Js.nonempty b = true ->
  Js.nonempty identA = true -> Js.nonempty identB = true ->
  findRecipient (Db.users d) identA = (a, ua) :: restA ->
  findRecipient (Db.users d) identB = (b, ub) :: restB ->
  exists d1 d2,
    transferPoints a identB amount true n1 t1 d = (d1, Quiet) /\
    transferPoints b identA amount true n2 t2 d1 = (d2, Quiet) /\
    forall id, getDoc (Db.users d2) id = getDoc (Db.users d) id.
Proof.
  intros Hna Hnb HnA HnB HfA HfB.
  assert (E1 : exists d1,
             transferPoints a identB amount true n1 t1 d = (d1, Quiet) /\
             Db.users d1 = moved).
  { unfold transferPoints. rewrite Hna, HnB. simpl.
    rewrite (proj2 (Z.leb_gt _ _) Hpos), Ha, (proj2 (Z.ltb_ge _ _) Hle), HfB.
    rewrite decide_False by done.
    rewrite (Db_updateUser_exists _ _ _ _ Ha).
    erewrite Db_updateUser_exists; last first.
    { simpl. rewrite getDoc_mergeDoc, decide_False by done. exact Hb. }
    eexists. split; [reflexivity|]. done. }
  destruct E1 as (d1 & E1 & Hu1). exists d1.
  assert (Hfind : exists rest,
             findRecipient (Db.users d1) identA =
               (a, User.set_points (User.points ua - amount) ua) :: rest).
  { rewrite Hu1. unfold afterTransfer. rewrite !findRecipient_set_points, HfA.
    simpl. repeat (case_decide; simpl); try done. by eexists. }
  destruct Hfind as (rest & Hfind).
  pose proof afterTransfer_b as Hb1. rewrite <- Hu1 in Hb1.
  pose proof afterTransfer_a as Ha1. rewrite <- Hu1 in Ha1.
  assert (E2 : exists d2,
             transferPoints b identA amount true n2 t2 d1 = (d2, Quiet) /\
             Db.users d2 =
               mergeDoc a (User.set_points (User.points ua - amount + amount))
                 (mergeDoc b (User.set_points (User.points ub + amount - amount))
                    (Db.users d1))).
  { unfold transferPoints. rewrite Hnb, HnA. simpl.
    rewrite (proj2 (Z.leb_gt _ _) Hpos), Hb1. simpl.
    rewrite (proj2 (Z.ltb_ge (User.points ub + amount) amount) ltac:(lia)).
    rewrite Hfind. rewrite decide_False by done.
    rewrite (Db_updateUser_exists _ _ _ _ Hb1).
    erewrite Db_updateUser_exists; last first.
    { simpl. rewrite getDoc_mergeDoc, decide_False by done. exact Ha1. }
    eexists. split; [reflexivity|]. done. }
  destruct E2 as (d2 & E2 & Hu2). exists d2. split_and!; [done..|].
  intros id. rewrite Hu2, Hu1. apply transfer_back_restores.
Qed.

Lemma approved_round_trip id1 id2 r1 r2 t1 t2 :
  Request.userId r1 = a -> Request.recipientId r1 = b ->
  Request.amount r1 = amount ->
  Request.userId r2 = b -> Request.recipientId r2 = a ->
  Request.amount r2 = amount ->
  is_Some (getDoc (Db.requests d) id1) ->
  is_Some (getDoc (Db.requests d) id2) ->
  exists d1 d2 m1 m2,
    handleTransferRequest false (id1, r1) true t1 d = (d1, Message m1) /\
    handleTransferRequest false (id2, r2) true t2 d1 = (d2, Message m2) /\
    forall id, getDoc (Db.users d2) id = getDoc (Db.users d) id.
Proof.
  intros Hs1 Hr1 Ham1 Hs2 Hr2 Ham2 [q1 Hq1] [q2 Hq2].
  assert (E1 : exists d1 m1,
             handleTransferRequest false (id1, r1) true t1 d = (d1, Message m1) /\
             Db.users d1 = moved /\
             is_Some (getDoc (Db.requests d1) id2)).
  { unfold handleTransferRequest. cbn [fst snd]. rewrite Hs1, Hr1, Ham1, Ha.
    rewrite (proj2 (Z.ltb_ge _ _) Hle), Hb.
    rewrite (Db_updateUser_exists _ _ _ _ Ha).
    erewrite Db_updateUser_exists; last first.
    { simpl. rewrite getDoc_mergeDoc, decide_False by done. exact Hb. }
    erewrite Db_updateRequest_exists; last by exact Hq1.
    do 2 eexists. split; [reflexivity|]. split; [done|].
    simpl. rewrite getDoc_mergeDoc, Hq2. by case_decide. }
  destruct E1 as (d1 & m1 & E1 & Hu1 & [q2' Hq2']). exists d1.
  pose proof afterTransfer_b as Hb1. rewrite <- Hu1 in Hb1.
  pose proof afterTransfer_a as Ha1. rewrite <- Hu1 in Ha1.
  assert (E2 : exists d2 m2,
             handleTransferRequest false (id2, r2) true t2 d1 = (d2, Message m2) /\
             Db.users d2 =
               mergeDoc a (User.set_points (User.points ua - amount + amount))
                 (mergeDoc b (User.set_points (User.points ub + amount - amount))
                    (Db.users d1))).
  { unfold handleTransferRequest. cbn [fst snd]. rewrite Hs2, Hr2, Ham2, Hb1.
    simpl User.points.
    rewrite (proj2 (Z.ltb_ge (User.points ub + amount) amount) ltac:(lia)), Ha1.
    rewrite (Db_updateUser_exists _ _ _ _ Hb1).
    erewrite Db_updateUser_exists; last first.
    { simpl. rewrite getDoc_mergeDoc, decide_False by done. exact Ha1. }
    erewrite Db_updateRequest_exists; last by exact Hq2'.
    do 2 eexists. split; [reflexivity|]. done. }
  destruct E2 as (d2 & m2 & E2 & Hu2). exists d2, m1, m2. split_and!; [done..|].
  intros id. rewrite Hu2, Hu1. apply transfer_back_restores.
Qed.


End RoundTrip.

Section TransferExamples.
Import Vip Sample.

(** alice holds 500 points and asked to send 600. *)
Lemma insufficient_points_auto_decline_witness :
  exists d',
    handleTransferRequest false ("q1", transferRq "a" "alice" "b" "bob" 600)
      true 2000
      (withRequests [("q1", transferRq "a" "alice" "b" "bob" 600)]) =
      (d', Message [Txt "Transfer request declined: Insufficient points"]) /\
    Db.users d' = Db.users (db []) /\
    Db.transactions d' = [] /\
    exists rq',
      getDoc (Db.requests d') "q1" = Some rq' /\
      Request.rstatus rq' = Request.declined /\
      Request.declineReason rq' = Some "Insufficient points" /\
      Request.processedAt rq' = Some 2000 /\
      Request.amount rq' = 600.
Proof.
  apply (insufficient_points_auto_decline "q1"
           (transferRq "a" "alice" "b" "bob" 600)
           (transferRq "a" "alice" "b" "bob" 600) true 2000
           (withRequests [("q1", transferRq "a" "alice" "b" "bob" 600)]) alice).
  - reflexivity.
  - reflexivity.
  - simpl. lia.
Defined.

(** alice asks to send 50 points to "Bob". *)
Lemma transfer_request_moves_nothing_witness :
  exists d',
    transferPoints "a" "Bob" 50 false "q9" 3000 (db []) = (d', Quiet) /\
    Db.users d' = [("a", alice); ("b", bob)] /\
    Db.transactions d' = [] /\
    Db.requests d' =
      [] ++ [("q9", Request.mk "a" "alice" Request.point_transfer "b" "bob" 50
                      0 0 Request.pending 3000 None None None false)].
Proof.
  apply (transfer_request_moves_nothing "a" "Bob" 50 "q9" 3000 (db [])
           alice "b" bob []).
  - reflexivity.
  - reflexivity.
  - lia.
  - reflexivity.
  - simpl. lia.
  - reflexivity.
  - discriminate.
Defined.


End TransferExamples.

(** ** The referral walk *)

Section ReferralFacts.
Import Referral.
Variables (userId : DocId) (now : Z).

Lemma referralLoop_chain users n level code seen :
  referralLoop users userId now n level code seen =
  chainWrites userId now level (untilRepeat seen (referralChain users n code)).
Proof.
  revert level code seen. induction n as [|n IH]; intros level code seen; simpl.
  - done.
  - destruct (notSet code); [done|].
    destruct (getDocs users _) as [|doc rest]; [done|]. simpl.
    destruct (bool_decide (doc.1 ∈ seen)); [done|]. simpl.
    by rewrite IH.
Qed.

Lemma untilRepeat_fresh seen chain id :
  In id (docIds (untilRepeat seen chain)) -> id ∉ seen.
Proof.
  revert seen. induction chain as [|doc rest IH]; intros seen; simpl; [done|].
  destruct (bool_decide (doc.1 ∈ seen)) eqn:E; simpl; [done|].
  apply bool_decide_eq_false in E.
  intros [<-|Hin]; [done|]. apply IH in Hin. set_solver.
Qed.

Lemma untilRepeat_NoDup seen chain :
  NoDup (docIds (untilRepeat seen chain)).
Proof.
  revert seen. induction chain as [|doc rest IH]; intros seen; simpl.
  - constructor.
  - destruct (bool_decide (doc.1 ∈ seen)); simpl; [constructor|].
    apply NoDup_cons. split; [|apply IH].
    intros Hin. apply list_elem_of_In, untilRepeat_fresh in Hin. set_solver.
Qed.

Lemma untilRepeat_prefix seen chain :
  exists rest, chain = untilRepeat seen chain ++ rest.
Proof.
  revert seen. induction chain as [|doc tl IH]; intros seen; simpl.
  - by exists [].
  - destruct (bool_decide (doc.1 ∈ seen)); [by eexists|].
    destruct (IH ({[doc.1]} ∪ seen)) as [rest Hr]. exists rest. simpl.
    by rewrite <- Hr.
Qed.

Lemma untilRepeat_id seen chain :
  NoDup (docIds chain) ->
  (forall id, In id (docIds chain) -> id ∉ seen) ->
  untilRepeat seen chain = chain.
Proof.
  revert seen. induction chain as [|doc rest IH]; intros seen Hnd Hfresh; simpl.
  - done.
  - unfold docIds in Hnd. simpl in Hnd. apply NoDup_cons in Hnd as [Hni Hnd].
    rewrite bool_decide_false by (apply Hfresh; by left).
    f_equal. apply IH; [done|]. intros id Hin.
    assert (id <> doc.1).
    { intros ->. apply Hni. by apply list_elem_of_In. }
    assert (id ∉ seen) by (apply Hfresh; by right).
    by intros [?%elem_of_singleton|?]%elem_of_union.
Qed.

Lemma In_is_Some_getDoc {A} (c : list (DocId * A)) id a :
  In (id, a) c -> is_Some (getDoc c id).
Proof.
  induction c as [|[i b] c IH]; simpl; [done|].
  intros [[= -> ->]|Hin]; [rewrite decide_True by done; eauto|].
  destruct (decide (i = id)); [eauto|by apply IH].
Qed.

Lemma referralChain_exists users n code doc :
  In doc (referralChain users n code) -> is_Some (getDoc users doc.1).
Proof.
  revert code. induction n as [|n IH]; intros code; simpl; [done|].
  destruct (notSet code); [done|].
  destruct (getDocs users _) as [|doc0 rest] eqn:E; [done|].
  intros [<-|Hin]; [|by eapply IH].
  assert (Hin : In doc0 (getDocs users
                 (fun u => bool_decide (User.referralCode u = code))))
    by (rewrite E; by left).
  apply filter_In in Hin as [Hin _]. destruct doc0 as [i u].
  by eapply In_is_Some_getDoc.
Qed.

Lemma commit_chainWrites chain level d :
  NoDup (docIds chain) ->
  (forall doc, In doc chain -> is_Some (getDoc (Db.users d) doc.1)) ->
  exists d',
    commit d (chainWrites userId now level chain) = Some d' /\
    (forall k doc, chain !! k = Some doc ->
       getDoc (Db.users d') doc.1 =
         credit userId (level + k) <$> getDoc (Db.users d) doc.1) /\
    (forall id, ~ In id (docIds chain) ->
       getDoc (Db.users d') id = getDoc (Db.users d) id) /\
    Db.transactions d' =
      Db.transactions d ++
      imap (fun k doc => bonusTransaction now (level + k) doc) chain /\
    Db.requests d' = Db.requests d /\
    Db.investments d' = Db.investments d /\
    Db.diceBets d' = Db.diceBets d /\
    Db.ultraManualBets d' = Db.ultraManualBets d.
Proof.
  revert level d. induction chain as [|doc rest IH]; intros level d Hnd Hex.
  - exists d. simpl. split_and!; try done. by rewrite app_nil_r.
  - unfold docIds in Hnd. simpl in Hnd. apply NoDup_cons in Hnd as [Hni Hnd].
    destruct (Hex doc) as [u0 Hu0]; [by left|].
    cbn [chainWrites levelWrites app commit applyWrite].
    rewrite (Db_updateUser_exists _ _ _ _ Hu0).
    set (d1 := Db.log _ (Db.set_users _ d)).
    assert (Hlk1 : forall id, getDoc (Db.users d1) id =
              if decide (id = doc.1)
              then credit userId level <$> getDoc (Db.users d) id
              else getDoc (Db.users d) id).
    { intros id. subst d1. simpl. apply getDoc_mergeDoc. }
    destruct (IH (S level) d1 Hnd) as (d' & Hc & Hk & Ho & Ht & Hrest).
    { intros doc' Hin. rewrite Hlk1. destruct (Hex doc') as [u' Hu']; [by right|].
      rewrite Hu'. case_decide; by eexists. }
    exists d'. split; [done|]. split_and!.
    + intros [|k] doc' Hlook; simpl in Hlook.
      * injection Hlook as <-. rewrite Ho, Hlk1.
        -- rewrite decide_True by done. by rewrite Nat.add_0_r.
        -- intros Hin. apply Hni. by apply list_elem_of_In.
      * rewrite (Hk k doc' Hlook), Hlk1. rewrite decide_False.
        -- by rewrite Nat.add_succ_r.
        -- intros Heq. apply Hni. rewrite <- Heq. apply list_elem_of_In.
           apply list_elem_of_lookup_2 in Hlook. apply list_elem_of_In in Hlook.
           by apply in_map.
    + intros id Hnin. rewrite Ho, Hlk1.
      * rewrite decide_False; [done|]. intros ->. apply Hnin. by left.
      * intros Hin. apply Hnin. by right.
    + rewrite Ht. subst d1. simpl. rewrite <- app_assoc. simpl.
      rewrite Nat.add_0_r. do 2 f_equal.
      apply imap_ext. intros k doc' _. simpl. by rewrite Nat.add_succ_r.
    + by destruct Hrest as (-> & _).
    + by destruct Hrest as (_ & -> & _).
    + by destruct Hrest as (_ & _ & -> & _).
    + by destruct Hrest as (_ & _ & _ & ->).
Qed.

End ReferralFacts.

Section ReferralClaims.
Import Referral.
Variables (userId : DocId) (now : Z).

Lemma referralChain_length users n code :
  (length (referralChain users n code) <= n)%nat.
Proof.
  revert code. induction n as [|n IH]; intros code; simpl; [done|].
  destruct (notSet code); simpl; [lia|].
  destruct (getDocs users _) as [|doc rest]; simpl; [lia|].
  specialize (IH (User.referralCodeFriend doc.2)). lia.
Qed.

(** The credited referrers are the chain up to its first repeat, and the
    batch goes through. *)
Lemma processReferralBonuses_run code d :
  let credited := untilRepeat ∅ (referralChain (Db.users d) 5 code) in
  exists d',
    processReferralBonuses userId code now d = (d', Quiet) /\
    (forall k doc, credited !! k = Some doc ->
       getDoc (Db.users d') doc.1 = credit userId k <$> getDoc (Db.users d) doc.1) /\
    (forall id, ~ In id (docIds credited) ->
       getDoc (Db.users d') id = getDoc (Db.users d) id) /\
    Db.transactions d' =
      Db.transactions d ++ imap (bonusTransaction now) credited.
Proof.
  intros credited. unfold processReferralBonuses.
  destruct (notSet code) eqn:Hset.
  - exists d. subst credited. simpl. rewrite Hset. simpl.
    split_and!; try done. by rewrite app_nil_r.
  - unfold referralBatch. rewrite referralLoop_chain.
    change (length bonusLevels) with 5%nat. fold credited.
    destruct (commit_chainWrites userId now credited 0 d)
      as (d' & Hc & Hk & Ho & Ht & _).
    + apply untilRepeat_NoDup.
    + intros doc Hin. apply (referralChain_exists (Db.users d) 5 code).
      destruct (untilRepeat_prefix ∅ (referralChain (Db.users d) 5 code))
        as [rest Hr].
      rewrite Hr. apply in_or_app. by left.
    + exists d'. rewrite Hc. split_and!; done.
Qed.

(** [approveUser] sets the approved flag and runs the same walk, in one
    batch. *)
Lemma approveUser_run d u :
  getDoc (Db.users d) userId = Some u ->
  let credited :=
    untilRepeat ∅ (referralChain (Db.users d) 5 (User.referralCodeFriend u)) in
  let flagged := mergeDoc userId (User.set_approved true) (Db.users d) in
  exists d',
    approveUser userId now d = (d', Message [Txt "User approved successfully"]) /\
    (forall k doc, credited !! k = Some doc ->
       getDoc (Db.users d') doc.1 = credit userId k <$> getDoc flagged doc.1) /\
    (forall id, ~ In id (docIds credited) ->
       getDoc (Db.users d') id = getDoc flagged id) /\
    Db.transactions d' =
      Db.transactions d ++ imap (bonusTransaction now) credited.
Proof.
  intros Hu credited flagged. unfold approveUser. rewrite Hu.
  cbn [commit applyWrite]. rewrite (Db_updateUser_exists _ _ _ _ Hu).
  unfold referralBatch. rewrite referralLoop_chain.
  change (length bonusLevels) with 5%nat. fold credited. fold flagged.
  destruct (commit_chainWrites userId now credited 0 (Db.set_users flagged d))
    as (d' & Hc & Hk & Ho & Ht & _).
  - apply untilRepeat_NoDup.
  - intros doc Hin. simpl. unfold flagged. rewrite getDoc_mergeDoc.
    assert (Hex : is_Some (getDoc (Db.users d) doc.1)).
    { apply (referralChain_exists (Db.users d) 5 (User.referralCodeFriend u)).
      destruct (untilRepeat_prefix ∅
                  (referralChain (Db.users d) 5 (User.referralCodeFriend u)))
        as [rest Hr].
      rewrite Hr. apply in_or_app. by left. }
    destruct Hex as [u' ->]. case_decide; by eexists.
  - exists d'. rewrite Hc. split_and!; done.
Qed.

(** C3.  With [chain] the referral chain above the referrer code, five
    links at most: when no account occurs twice in it, the walk credits
    exactly its accounts, the one at level k+1 once with the k-th entry of
    100/5/5/10/30 (level 1 to points, levels 2 to 5 to cash), leaves every
    other account alone and appends one referral_bonus_level_(k+1)
    transaction per credited account, in order.  Whatever the chain, the
    walk ends without an error and each account is left alone or credited
    once. *)
Theorem referral_walk_credits_chain code d :
  let chain := referralChain (Db.users d) 5 code in
  let scheduled (k : nat) (u : User.t) :=
    User.increment
      (nth k [Field.points; Field.cash; Field.cash; Field.cash; Field.cash]
         Field.points)
      (nth k [100; 5; 5; 10; 30] 0)
      (arrayUnion userId u) in
  (NoDup (docIds chain) ->
   exists d',
     processReferralBonuses userId code now d = (d', Quiet) /\
     (forall k doc, chain !! k = Some doc ->
        getDoc (Db.users d') doc.1 = scheduled k <$> getDoc (Db.users d) doc.1) /\
     (forall id, ~ In id (docIds chain) ->
        getDoc (Db.users d') id = getDoc (Db.users d) id) /\
     Db.transactions d' = Db.transactions d ++ imap (bonusTransaction now) chain /\
     (forall k doc,
        Transaction.type (bonusTransaction now k doc)
          = "referral_bonus_level_" +:+ pretty (S k) /\
        Transaction.userId (bonusTransaction now k doc) = doc.1 /\
        Transaction.amount (bonusTransaction now k doc)
          = Some (nth k [100; 5; 5; 10; 30] 0))) /\
  (exists d',
     processReferralBonuses userId code now d = (d', Quiet) /\
     forall id,
       getDoc (Db.users d') id = getDoc (Db.users d) id \/
       exists k, (k < 5)%nat /\
         getDoc (Db.users d') id = scheduled k <$> getDoc (Db.users d) id) /\
  (forall u,
     getDoc (Db.users d) userId = Some u ->
     User.referralCodeFriend u = code ->
     NoDup (docIds chain) ->
     let flagged := mergeDoc userId (User.set_approved true) (Db.users d) in
     exists d',
       approveUser userId now d = (d', Message [Txt "User approved successfully"]) /\
       (forall k doc, chain !! k = Some doc ->
          getDoc (Db.users d') doc.1 = scheduled k <$> getDoc flagged doc.1) /\
       (forall id, ~ In id (docIds chain) ->
          getDoc (Db.users d') id = getDoc flagged id) /\
       Db.transactions d' = Db.transactions d ++ imap (bonusTransaction now) chain).
Proof.
  intros chain scheduled.
  destruct (processReferralBonuses_run code d) as (d' & Hrun & Hk & Ho & Ht).
  split_and!.
  - intros Hnd. exists d'.
    assert (E : untilRepeat ∅ chain = chain)
      by (apply untilRepeat_id; [done|intros; apply not_elem_of_empty]).
    unfold chain in E. rewrite E in Hk, Ho, Ht.
    split_and!; try done.
  - exists d'. split; [done|]. intros id.
    unfold chain in *.
    set (credited := untilRepeat ∅ (referralChain (Db.users d) 5 code)) in *.
    destruct (decide (id ∈ docIds credited)) as [Hin|Hnin].
    + right. apply list_elem_of_In in Hin.
      unfold docIds in Hin. apply in_map_iff in Hin as (doc & <- & Hin).
      apply list_elem_of_In, list_elem_of_lookup in Hin as [k Hlook].
      exists k. split; [|by apply Hk].
      apply lookup_lt_Some in Hlook.
      destruct (untilRepeat_prefix ∅ (referralChain (Db.users d) 5 code))
        as [rest Hr].
      pose proof (referralChain_length (Db.users d) 5 code) as Hlen.
      rewrite Hr, length_app in Hlen. fold credited in Hlen. lia.
    + left. apply Ho. intros Hin. apply Hnin. by apply list_elem_of_In.
  - intros u Hu Hcode Hnd flagged.
    destruct (approveUser_run d u Hu) as (d2 & Hrun2 & Hk2 & Ho2 & Ht2).
    rewrite Hcode in Hk2, Ho2, Ht2.
    assert (E : untilRepeat ∅ chain = chain)
      by (apply untilRepeat_id; [done|intros; apply not_elem_of_empty]).
    unfold chain in E. rewrite E in Hk2, Ho2, Ht2.
    exists d2. split_and!; done.
Qed.

End ReferralClaims.

Section ReferralExamples.
Import Referral Sample.

(** Approving carol's referral: bob, one level up, gains 100 points and
    alice, two levels up, 5 cash. *)
Lemma referral_walk_credits_chain_witness :
  exists d',
    processReferralBonuses "c" "FBT200" 4000 family = (d', Quiet) /\
    getDoc (Db.users d') "b" =
      Some (User.mk "bob" 300 0 "FBT200" "FBT100" ["c"] false false) /\
    getDoc (Db.users d') "a" =
      Some (User.mk "alice" 500 5 "FBT100" "Not set" ["c"] true false) /\
    getDoc (Db.users d') "c" = Some carol /\
    map Transaction.type (Db.transactions d') =
      ["referral_bonus_level_1"; "referral_bonus_level_2"].
Proof.
  destruct (referral_walk_credits_chain "c" 4000 "FBT200" family)
    as (H & _ & _).
  destruct H as (d' & Hrun & Hk & Ho & Ht & _); [decide_by_compute|].
  exists d'. split; [exact Hrun|]. split_and!.
  - exact (Hk 0%nat ("b", bob) eq_refl).
  - exact (Hk 1%nat ("a", alice) eq_refl).
  - apply (Ho "c"). vm_compute. intros [H|[H|[]]]; discriminate H.
  - rewrite Ht. reflexivity.
Defined.

(** The example of the specification: alice holds 500 points and the code
    FBT100, bob names FBT100; approving bob adds exactly 100 points to
    alice and logs a referral_bonus_level_1 transaction of 100 for her. *)
Example approving_bob_credits_alice :
  let d' := fst (approveUser "b" 4000 (db [])) in
  User.points <$> getDoc (Db.users d') "a" = Some 600 /\
  User.approved <$> getDoc (Db.users d') "b" = Some true /\
  map (fun tx => (Transaction.userId tx, Transaction.type tx, Transaction.amount tx))
      (Db.transactions d')
    = [("a", "referral_bonus_level_1", Some 100)].
Proof. vm_compute. done. Qed.

(** In the corrupted graph the walk for carol credits bob and alice once
    each and stops when it meets bob again. *)
Example walk_stops_at_cycle :
  let d' := fst (processReferralBonuses "c" "FBT200" 4000 loop) in
  User.points <$> getDoc (Db.users d') "b" = Some 300 /\
  User.cash <$> getDoc (Db.users d') "b" = Some 0 /\
  User.cash <$> getDoc (Db.users d') "a" = Some 5 /\
  length (Db.transactions d') = 2%nat.
Proof. vm_compute. done. Qed.

End ReferralExamples.

(** ** Investments *)

Lemma Db_updateInvestment_exists id f d i :
  getDoc (Db.investments d) id = Some i ->
  Db.updateInvestment id f d =
    Some (Db.set_investments (mergeDoc id f (Db.investments d)) d).
Proof. intros E. unfold Db.updateInvestment, updateDoc. by rewrite E. Qed.

Lemma Db_updateUltraManualBet_exists id f d b :
  getDoc (Db.ultraManualBets d) id = Some b ->
  Db.updateUltraManualBet id f d =
    Some (Db.set_ultraManualBets (mergeDoc id f (Db.ultraManualBets d)) d).
Proof. intros E. unfold Db.updateUltraManualBet, updateDoc. by rewrite E. Qed.

Lemma getDoc_addDoc_is_Some {A} (c : list (DocId * A)) id a :
  is_Some (getDoc (addDoc c id a) id).
Proof.
  unfold addDoc. induction c as [|[i b] c IH]; simpl.
  - rewrite decide_True by done. eauto.
  - destruct (decide (i = id)); eauto.
Qed.

Section InvestmentClaims.
Import Investments.


End InvestmentClaims.


(** Double precision shows: 100 points at 15 percent pay 114, the product
    100 * 1.15 being 114.99999999999999. *)
Example payout_rounds_in_double_precision :
  Investments.payoutAmount
    (Investment.mk "a" "alice" 100 Investment.approved (Js.ofZ 15) None 0
       None None None None) = Some 114.
Proof. vm_compute. reflexivity. Qed.

(** ** Declines and refunds *)

Lemma restore_points users uid u a id :
  getDoc users uid = Some u ->
  getDoc (mergeDoc uid (User.set_points (User.points u - a + a))
            (mergeDoc uid (User.set_points (User.points u - a)) users)) id
  = getDoc users id.
Proof.
  intros Hu. rewrite !getDoc_mergeDoc. case_decide; [subst|done].
  rewrite Hu, !fmap_Some, set_points_twice.
  replace (User.points u - a + a) with (User.points u) by lia.
  by rewrite set_points_same.
Qed.

Section DeclineFacts.

Lemma investment_decline_refunds id inv stored u now d :
  getDoc (Db.users d) (Investment.userId inv) = Some u ->
  getDoc (Db.investments d) id = Some stored ->
  exists d' msg,
    Investments.handleDecline (id, inv) true now d = (d', Message msg) /\
    Db.users d' =
      mergeDoc (Investment.userId inv)
        (User.set_points (User.points u + Investment.amount inv)) (Db.users d) /\
    getDoc (Db.investments d') id = Some (Investment.decline now stored).
Proof.
  intros Hu Hi. unfold Investments.handleDecline. cbn [fst snd negb].
  rewrite Hu, (Db_updateInvestment_exists _ _ _ _ Hi).
  erewrite Db_updateUser_exists by exact Hu.
  do 2 eexists. split; [reflexivity|]. simpl. split; [done|].
  by rewrite getDoc_mergeDoc, decide_True, Hi.
Qed.

Lemma investment_submit_debits uid u a newId now d :
  getDoc (Db.users d) uid = Some u ->
  0 < a <= User.points u ->
  exists d' msg,
    Investments.handleSubmit (Some (uid, u)) (Some a) newId now d
      = (d', Message msg) /\
    Db.users d' = mergeDoc uid (User.set_points (User.points u - a)) (Db.users d) /\
    Db.investments d' =
      addDoc (Db.investments d) newId
        (Investment.mk uid (User.username u) a Investment.pending (Js.ofZ 0)
           None now None None None None).
Proof.
  intros Hu [Hpos Hle]. unfold Investments.handleSubmit.
  rewrite (proj2 (Z.leb_gt _ _) Hpos), (proj2 (Z.ltb_ge _ _) Hle).
  erewrite Db_updateUser_exists by exact Hu.
  do 2 eexists. split; [reflexivity|]. done.
Qed.

Lemma cancel_refunds id bet stored u now d :
  getDoc (Db.users d) (UltraManualBet.userId bet) = Some u ->
  getDoc (Db.ultraManualBets d) id = Some stored ->
  exists d' msg,
    UltraManual.cancelBet (id, bet) now d = (d', Message msg) /\
    Db.users d' =
      mergeDoc (UltraManualBet.userId bet)
        (User.increment Field.points (UltraManualBet.amount bet)) (Db.users d) /\
    getDoc (Db.ultraManualBets d') id =
      Some (UltraManualBet.process UltraManualBet.cancelled now None stored).
Proof.
  intros Hu Hb. unfold UltraManual.cancelBet. cbn [fst snd commit applyWrite].
  rewrite (Db_updateUltraManualBet_exists _ _ _ _ Hb).
  erewrite Db_updateUser_exists by exact Hu.
  do 2 eexists. split; [reflexivity|]. simpl. split; [done|].
  by rewrite getDoc_mergeDoc, decide_True, Hb.
Qed.

Lemma bet_submit_debits uid u a note newId now d :
  getDoc (Db.users d) uid = Some u ->
  0 < a <= User.points u ->
  Js.nonempty (Js.trim note) = true ->
  (String.length note <= 100)%nat ->
  exists d' msg,
    UltraManual.handleSubmit (Some (uid, u)) (Some a) note newId now d
      = (d', Message msg) /\
    Db.users d' = mergeDoc uid (User.set_points (User.points u - a)) (Db.users d) /\
    Db.ultraManualBets d' =
      addDoc (Db.ultraManualBets d) newId
        (UltraManualBet.mk uid (User.username u) a (Js.trim note)
           UltraManualBet.pending now None None).
Proof.
  intros Hu [Hpos Hle] Hn Hl. unfold UltraManual.handleSubmit.
  rewrite (proj2 (Z.leb_gt _ _) Hpos), (proj2 (Z.ltb_ge _ _) Hle), Hn.
  cbn [negb]. rewrite (proj2 (Nat.ltb_ge _ _) Hl).
  erewrite Db_updateUser_exists by exact Hu.
  do 2 eexists. split; [reflexivity|]. done.
Qed.

Lemma transfer_decline_keeps_accounts p request now d :
  Db.users (fst (Vip.handleTransferRequest p request false now d)) = Db.users d.
Proof.
  unfold Vip.handleTransferRequest. destruct p; [done|].
  destruct (getDoc (Db.users d) _); [|done].
  destruct (_ <? _).
  - destruct (Db.updateRequest _ _ _) as [d1|] eqn:E; [|done].
    by apply Db_updateRequest_Some in E as [_ ->].
  - destruct (Db.updateRequest _ _ _) as [d1|] eqn:E; [|done].
    by apply Db_updateRequest_Some in E as [_ ->].
Qed.

Lemma upgrade_decline_keeps_accounts request approve now d :
  Db.users (fst (UsersAdmin.processUpgradeRequest request approve now d))
  = Db.users d.
Proof.
  unfold UsersAdmin.processUpgradeRequest.
  destruct (Db.updateRequest _ _ _) as [d1|] eqn:E; [|done].
  by apply Db_updateRequest_Some in E as [_ ->].
Qed.

End DeclineFacts.


(** alice invests 200 of her 500 points and the investment is declined. *)
Example invest_then_decline :
  let d1 := fst (Investments.handleSubmit (Some ("a", Sample.alice)) (Some 200)
                   "i9" 5000 (Sample.db [])) in
  let d2 := fst (Investments.handleDecline
                   ("i9", Investment.mk "a" "alice" 200 Investment.pending
                            (Js.ofZ 0) None 5000 None None None None)
                   true 5001 d1) in
  User.points <$> getDoc (Db.users d1) "a" = Some 300 /\
  User.points <$> getDoc (Db.users d2) "a" = Some 500 /\
  map Transaction.type (Db.transactions d2)
    = ["investment_created"; "investment_declined"].
Proof. vm_compute. done. Qed.

(** ** Double precision: signs *)

Section FloatSigns.
Import Js.

Lemma binary_round_aux_sign s m e l :
  match binary_round_aux prec emax s m e l with
  | S754_finite s' _ _ | S754_infinity s' | S754_zero s' => s' = s
  | S754_nan => True
  end.
Proof.
  unfold binary_round_aux.
  destruct (shr_fexp prec emax m e l) as [mrs' e'].
  destruct (shr_fexp prec emax _ e' loc_Exact) as [mrs'' e''].
  destruct (shr_m mrs''); [done| |done].
  by destruct (e'' <=? emax - prec).
Qed.

Lemma binary_round_aux_notNegative m e l :
  notNegative (binary_round_aux prec emax false m e l).
Proof.
  pose proof (binary_round_aux_sign false m e l) as H.
  by destruct (binary_round_aux prec emax false m e l).
Qed.

Lemma binary_round_notNegative m e : notNegative (binary_round prec emax false m e).
Proof.
  unfold binary_round. destruct (shl_align _ _ _) as [mz ez].
  apply binary_round_aux_notNegative.
Qed.

Lemma ofZ_notNegative z : 0 <= z -> notNegative (ofZ z).
Proof.
  intros Hz. unfold ofZ, binary_normalize. destruct z as [|p|p]; [done| |lia].
  apply binary_round_notNegative.
Qed.

Lemma div_notNegative x my ey :
  notNegative x -> notNegative (div x (S754_finite false my ey)).
Proof.
  unfold div, SFdiv. destruct x as [sx|sx| |sx mx ex]; simpl; try done.
  - intros ->. done.
  - intros ->. destruct (SFdiv_core_binary _ _ _ _ _ _) as [[mz ez] lz].
    apply binary_round_aux_notNegative.
Qed.

Lemma add_notNegative x y :
  notNegative x -> notNegative y -> notNegative (add x y).
Proof.
  unfold add, SFadd.
  destruct x as [sx|sx| |sx mx ex], y as [sy|sy| |sy my ey]; simpl;
    try done; try (intros -> ->; done); try (by destruct sx, sy).
  intros -> ->. simpl. apply binary_round_notNegative.
Qed.

Lemma mul_notNegative x y :
  notNegative x -> notNegative y -> notNegative (mul x y).
Proof.
  unfold mul, SFmul.
  destruct x as [sx|sx| |sx mx ex], y as [sy|sy| |sy my ey]; simpl;
    try done; try (intros -> ->; done); try (intros _ ->; by destruct sx);
    try (intros -> _; by destruct sy).
  intros -> ->. apply binary_round_aux_notNegative.
Qed.

Lemma Math_floor_notNegative x p :
  notNegative x -> Math_floor x = Some p -> 0 <= p.
Proof.
  destruct x as [s|s| |s m e]; simpl; try done.
  - intros _ [= <-]. lia.
  - intros -> [= <-]. destruct (0 <=? e) eqn:He.
    + apply Z.leb_le in He. apply Z.mul_nonneg_nonneg; [lia|].
      by apply Z.pow_nonneg.
    + apply Z.leb_gt in He. apply Z.div_pos; [lia|].
      apply Z.pow_pos_nonneg; lia.
Qed.

(** The payout of an investment with a non-negative amount and rate is
    not negative. *)
Lemma payoutAmount_nonneg inv p :
  0 <= Investment.amount inv ->
  notNegative (Investment.interestRate inv) ->
  Investments.payoutAmount inv = Some p ->
  0 <= p.
Proof.
  intros Ha Hr. unfold Investments.payoutAmount.
  apply Math_floor_notNegative.
  apply mul_notNegative; [by apply ofZ_notNegative|].
  apply add_notNegative; [by apply ofZ_notNegative|].
  change (ofZ 100) with (S754_finite false 7036874417766400 (-46)).
  by apply div_notNegative.
Qed.

(** A rate that passes [submitApproval] is not negative. *)
Lemma accepted_rate_notNegative rate :
  isNaN rate || leb rate (ofZ 0) = false -> notNegative rate.
Proof.
  destruct rate as [s|s| |s m e]; simpl; try done.
  - by destruct s.
  - by destruct s.
Qed.

End FloatSigns.

(** ** The balance invariant *)

Section InvariantFacts.
Import Ledger.

Lemma In_mergeDoc {A} (c : list (DocId * A)) i f id x :
  In (id, x) (mergeDoc i f c) ->
  In (id, x) c \/ exists x0, In (id, x0) c /\ x = f x0.
Proof.
  unfold mergeDoc. intros Hin. apply in_map_iff in Hin as ([j y] & Heq & Hin).
  simpl in Heq. destruct (decide (j = i)); injection Heq as <- <-; eauto.
Qed.

Lemma In_addDoc {A} (c : list (DocId * A)) n a id x :
  In (id, x) (addDoc c n a) -> In (id, x) c \/ x = a.
Proof.
  unfold addDoc. intros Hin. apply in_app_or in Hin as [?|[[= _ <-]|[]]]; auto.
Qed.

Lemma NoDup_docIds_deleteDoc {A} (c : list (DocId * A)) id :
  NoDup (docIds c) -> NoDup (docIds (deleteDoc c id)).
Proof.
  induction c as [|[i a] c IH]; simpl; [done|].
  intros Hnd. apply NoDup_cons in Hnd as [Hni Hnd].
  destruct (negb _); simpl; [|by apply IH].
  apply NoDup_cons. split; [|by apply IH].
  intros Hin. apply Hni. apply list_elem_of_In in Hin. apply list_elem_of_In.
  unfold docIds, deleteDoc in *. apply in_map_iff in Hin as ([j b] & <- & Hin).
  apply filter_In in Hin as [Hin _]. simpl.
  change j with (fst (j, b)). by apply in_map.
Qed.

Lemma getDoc_deleteDoc_solvent c id i u :
  NoDup (docIds c) ->
  (forall j v, getDoc c j = Some v -> solvent v) ->
  getDoc (deleteDoc c id) i = Some u -> solvent u.
Proof.
  intros Hnd Hall Hg. apply getDoc_In in Hg.
  unfold deleteDoc in Hg. apply filter_In in Hg as [Hin _].
  apply (Hall i). by apply In_getDoc.
Qed.

Lemma invariant_users f d :
  invariant d ->
  NoDup (docIds (f (Db.users d))) ->
  (forall id u, getDoc (f (Db.users d)) id = Some u -> solvent u) ->
  invariant (Db.set_users (f (Db.users d)) d).
Proof. intros [Hn (Hnd & Hw)] Hnd' Hs. split; [exact Hs|]. by split. Qed.

Lemma invariant_updateUser id f d d' :
  invariant d ->
  (forall u, getDoc (Db.users d) id = Some u -> solvent u -> solvent (f u)) ->
  Db.updateUser id f d = Some d' ->
  invariant d'.
Proof.
  intros Hinv Hf E. apply Db_updateUser_Some in E as [_ ->].
  apply (invariant_users (mergeDoc id f)); [done|..].
  - rewrite docIds_mergeDoc. apply Hinv.
  - intros i u. rewrite getDoc_mergeDoc. destruct Hinv as [Hn _].
    case_decide; [subst|by apply Hn].
    destruct (getDoc (Db.users d) id) as [u0|] eqn:E; [|done].
    intros [= <-]. apply Hf; [done|]. by apply (Hn id).
Qed.

Lemma invariant_set_points id v d d' :
  invariant d -> 0 <= v ->
  Db.updateUser id (User.set_points v) d = Some d' -> invariant d'.
Proof.
  intros Hinv Hv. apply invariant_updateUser; [done|].
  intros u _ [_ Hc]. by split.
Qed.

Lemma invariant_updateRequest id f d d' :
  invariant d ->
  (forall r, 0 <= Request.amount r -> 0 <= Request.amount (f r)) ->
  Db.updateRequest id f d = Some d' ->
  invariant d'.
Proof.
  intros (Hn & Hnd & Hr & Hi & Hb) Hf E.
  apply Db_updateRequest_Some in E as [_ ->].
  split; [exact Hn|]. unfold wellFormed. simpl. split_and!; [done| |done..].
  intros i r [Hin|(r0 & Hin & ->)]%In_mergeDoc; [by eapply Hr|].
  apply Hf. by eapply Hr.
Qed.

Lemma invariant_process_request id st now reason fee d d' :
  invariant d ->
  Db.updateRequest id (Request.process st now reason fee) d = Some d' ->
  invariant d'.
Proof. intros Hinv. by apply invariant_updateRequest. Qed.

Lemma invariant_updateInvestment id f d d' :
  invariant d ->
  (forall i, soundInvestment i -> soundInvestment (f i)) ->
  Db.updateInvestment id f d = Some d' ->
  invariant d'.
Proof.
  intros (Hn & Hnd & Hr & Hi & Hb) Hf E. unfold Db.updateInvestment in E.
  destruct (updateDoc _ _ _) as [c|] eqn:Ec; [|done]. injection E as <-.
  apply updateDoc_Some in Ec as [_ ->].
  split; [exact Hn|]. unfold wellFormed. simpl. split_and!; [done..| |done].
  intros i x [Hin|(x0 & Hin & ->)]%In_mergeDoc; [by eapply Hi|].
  apply Hf. by eapply Hi.
Qed.

Lemma invariant_updateUltraManualBet id f d d' :
  invariant d ->
  (forall b, 0 <= UltraManualBet.amount b -> 0 <= UltraManualBet.amount (f b)) ->
  Db.updateUltraManualBet id f d = Some d' ->
  invariant d'.
Proof.
  intros (Hn & Hnd & Hr & Hi & Hb) Hf E. unfold Db.updateUltraManualBet in E.
  destruct (updateDoc _ _ _) as [c|] eqn:Ec; [|done]. injection E as <-.
  apply updateDoc_Some in Ec as [_ ->].
  split; [exact Hn|]. unfold wellFormed. simpl. split_and!; [done..|].
  intros i x [Hin|(x0 & Hin & ->)]%In_mergeDoc; [by eapply Hb|].
  apply Hf. by eapply Hb.
Qed.

Lemma invariant_updateDiceBet id f d d' :
  invariant d -> Db.updateDiceBet id f d = Some d' -> invariant d'.
Proof. intros Hinv E. by apply Db_updateDiceBet_Some in E as [_ ->]. Qed.

Lemma invariant_updateDiceRound id f d d' :
  invariant d -> Db.updateDiceRound id f d = Some d' -> invariant d'.
Proof. intros Hinv E. by apply Db_updateDiceRound_Some in E as [_ ->]. Qed.

Lemma invariant_log tx d : invariant d -> invariant (Db.log tx d).
Proof. done. Qed.

Lemma invariant_add_winner w d : invariant d -> invariant (Db.add_winner w d).
Proof. done. Qed.

Lemma invariant_applyWrite w d d' :
  invariant d -> safe w -> applyWrite d w = Some d' -> invariant d'.
Proof.
  intros Hinv Hs. destruct w; simpl in *.
  - apply invariant_updateUser; [done|]. intros u _. apply Hs.
  - by apply invariant_updateRequest.
  - by apply invariant_updateDiceBet.
  - by apply invariant_updateUltraManualBet.
  - intros [= <-]. by apply invariant_log.
  - intros [= <-]. by apply invariant_add_winner.
Qed.

Lemma invariant_commit batch d d' :
  invariant d -> Forall safe batch -> commit d batch = Some d' -> invariant d'.
Proof.
  revert d. induction batch as [|w batch IH]; intros d Hinv Hs; simpl.
  - by intros [= <-].
  - apply Forall_cons in Hs as [Hw Hs].
    destruct (applyWrite d w) as [d1|] eqn:E; [|done].
    apply IH; [|done]. by eapply invariant_applyWrite.
Qed.

Lemma safe_increment id field n : 0 <= n -> safe (UpdateUser id (User.increment field n)).
Proof.
  intros Hn u [Hp Hc]. destruct field; split; simpl; lia.
Qed.

End InvariantFacts.

Section InvariantHandlers.
Import Ledger.

Lemma invariant_In_solvent d id u :
  invariant d -> In (id, u) (Db.users d) -> solvent u.
Proof.
  intros (Hn & Hnd & _) Hin. apply (Hn id). by apply In_getDoc.
Qed.

Lemma findRecipient_In users ident doc rest :
  Vip.findRecipient users ident = doc :: rest -> In doc users.
Proof.
  unfold Vip.findRecipient. intros E.
  assert (Hin : In doc (doc :: rest)) by by left. rewrite <- E in Hin.
  destruct (Js.startsWith _ _); by apply filter_In in Hin as [? _].
Qed.

Lemma invariant_add_request id r d :
  invariant d -> 0 <= Request.amount r ->
  invariant (Db.set_requests (addDoc (Db.requests d) id r) d).
Proof.
  intros (Hn & Hnd & Hr & Hi & Hb) Ha. split; [exact Hn|].
  unfold wellFormed. simpl. split_and!; [done| |done..].
  intros i x [Hin| ->]%In_addDoc; [by eapply Hr|done].
Qed.

Lemma invariant_transferPoints userId ident amount direct newId now d :
  invariant d ->
  invariant (fst (Vip.transferPoints userId ident amount direct newId now d)).
Proof.
  intros Hinv. unfold Vip.transferPoints.
  destruct (negb (Js.nonempty userId)); [done|].
  destruct (negb (Js.nonempty ident)); [done|].
  destruct (amount <=? 0) eqn:Hpos; [done|]. apply Z.leb_gt in Hpos.
  destruct (getDoc (Db.users d) userId) as [sender|] eqn:Hs; [|done].
  destruct (User.points sender <? amount) eqn:Hle; [done|].
  apply Z.ltb_ge in Hle.
  destruct (Vip.findRecipient _ _) as [|[rid rc] rest] eqn:Hf; [done|].
  apply findRecipient_In in Hf.
  apply (invariant_In_solvent _ _ _ Hinv) in Hf as [Hrp _].
  destruct (decide (rid = userId)); [done|]. destruct direct.
  - destruct (Db.updateUser userId _ d) as [d1|] eqn:E1; [|done].
    apply (invariant_set_points _ _ _ _ Hinv) in E1; [|lia].
    destruct (Db.updateUser rid _ d1) as [d2|] eqn:E2; [|done].
    apply (invariant_set_points _ _ _ _ E1) in E2; [|lia].
    by apply invariant_log, invariant_log.
  - apply invariant_add_request; [done|]. simpl. lia.
Qed.

Lemma invariant_handleTransferPoints p user ident amount confirmed newId now d :
  invariant d ->
  invariant (fst (Vip.handleTransferPoints p user ident amount confirmed newId now d)).
Proof.
  intros Hinv. unfold Vip.handleTransferPoints.
  destruct user as [[uid u]|]; [|done]. destruct p; [done|].
  destruct (negb _); [done|]. destruct amount as [a|]; [|done].
  destruct (a <=? 0); [done|]. destruct (_ <? _); [done|].
  destruct (negb confirmed); [done|].
  pose proof (invariant_transferPoints uid ident a false newId now d Hinv) as H.
  destruct (Vip.transferPoints _ _ _ _ _ _ _) as [d' []]; done.
Qed.

Lemma invariant_handleTransferRequest p request approve now d :
  invariant d -> In request (Db.requests d) ->
  invariant (fst (Vip.handleTransferRequest p request approve now d)).
Proof.
  intros Hinv Hin. destruct request as [id rq].
  assert (Ha : 0 <= Request.amount rq) by (eapply Hinv; exact Hin).
  unfold Vip.handleTransferRequest. cbn [fst snd].
  destruct p; [done|].
  destruct (getDoc (Db.users d) (Request.userId rq)) as [sender|] eqn:Hs; [|done].
  destruct (User.points sender <? Request.amount rq) eqn:Hlt.
  - destruct (Db.updateRequest _ _ _) as [d1|] eqn:E; [|done].
    by eapply invariant_process_request.
  - apply Z.ltb_ge in Hlt. destruct approve.
    + destruct (getDoc (Db.users d) (Request.recipientId rq)) as [rc|] eqn:Hr; [|done].
      assert (solvent rc) as [Hrp _] by (by apply Hinv in Hr).
      destruct (Db.updateUser _ _ d) as [d1|] eqn:E1; [|done].
      apply (invariant_set_points _ _ _ _ Hinv) in E1; [|lia].
      destruct (Db.updateUser _ _ d1) as [d2|] eqn:E2; [|done].
      apply (invariant_set_points _ _ _ _ E1) in E2; [|lia].
      destruct (Db.updateRequest _ _ d2) as [d3|] eqn:E3; [|done].
      apply invariant_log, invariant_log. by eapply invariant_process_request.
    + destruct (Db.updateRequest _ _ _) as [d1|] eqn:E; [|done].
      by eapply invariant_process_request.
Qed.

Lemma invariant_add_investment id i d :
  invariant d -> soundInvestment i ->
  invariant (Db.set_investments (addDoc (Db.investments d) id i) d).
Proof.
  intros (Hn & Hnd & Hr & Hi & Hb) Ha. split; [exact Hn|].
  unfold wellFormed. simpl. split_and!; [done..| |done].
  intros j x [Hin| ->]%In_addDoc; [by eapply Hi|done].
Qed.

Lemma invariant_add_ultraManualBet id b d :
  invariant d -> 0 <= UltraManualBet.amount b ->
  invariant (Db.set_ultraManualBets (addDoc (Db.ultraManualBets d) id b) d).
Proof.
  intros (Hn & Hnd & Hr & Hi & Hb) Ha. split; [exact Hn|].
  unfold wellFormed. simpl. split_and!; [done..|].
  intros j x [Hin| ->]%In_addDoc; [by eapply Hb|done].
Qed.

Lemma invariant_set_diceBets c d : invariant d -> invariant (Db.set_diceBets c d).
Proof. done. Qed.

Lemma invariant_dice_handleBet user round num amount newId now d :
  invariant d ->
  invariant (fst (Dice.handleBet user round num amount newId now d)).
Proof.
  intros Hinv. unfold Dice.handleBet.
  destruct user as [[uid u]|]; [|done]. destruct round as [[rid r]|]; [|done].
  destruct amount as [a|]; [|done].
  destruct (a <=? 0) eqn:Hpos; [done|].
  destruct (User.points u <? a) eqn:Hle; [done|]. apply Z.ltb_ge in Hle.
  destruct (Db.updateUser _ _ _) as [d2|] eqn:E; [|done].
  eapply invariant_set_points; [|shelve|exact E].
  - by apply invariant_set_diceBets.
  Unshelve. lia.
Qed.

Lemma safe_resolveBet numberColors now doc :
  Forall safe (Dice.resolveBet numberColors now doc).
Proof.
  unfold Dice.resolveBet. apply Forall_cons. split; [done|].
  destruct (bool_decide _ && (0 <? _)) eqn:Hw; [|constructor].
  destruct (decide _) as [Hk|]; [|constructor].
  apply andb_true_iff in Hw as [_ Hp]. apply Z.ltb_lt in Hp.
  apply Forall_cons. split; [|constructor].
  intros u [_ Hc]. split; [|done]. simpl.
  set (a := DiceBet.amount doc.2) in *.
  destruct (Dice.colorOf numberColors _); simpl in *; try done.
  - assert (0 <= a); [|lia].
    destruct (Z.lt_ge_cases a 0) as [Hneg|]; [|done].
    assert (a / 10 < 0) by (apply Z.div_lt_upper_bound; lia). lia.
  - assert (0 <= a); [|lia].
    destruct (Z.lt_ge_cases a 0) as [Hneg|]; [|done].
    assert (a / 10 < 0) by (apply Z.div_lt_upper_bound; lia). lia.
Qed.

Lemma invariant_observable round numberColors now d d' :
  invariant d ->
  In d' (Dice.observable round numberColors now d) ->
  invariant d'.
Proof.
  intros Hinv. unfold Dice.observable, Dice.closeRoundAndResolve_steps.
  destruct round as [[rid r]|]; [|by intros [<-|[]]].
  destruct (negb _); [by intros [<-|[]]|].
  destruct (Db.updateDiceRound _ _ _) as [d1|] eqn:E1; [|by intros [<-|[]]].
  apply (invariant_updateDiceRound _ _ _ _ Hinv) in E1.
  destruct (commit d1 _) as [d2|] eqn:E2; simpl.
  - intros [<-|[<-|[<-|[]]]]; try done.
    eapply invariant_commit; [exact E1| |exact E2].
    apply Forall_flat_map, Forall_forall. intros doc _. apply safe_resolveBet.
  - by intros [<-|[<-|[]]].
Qed.

Lemma invariant_invest user amount newId now d :
  invariant d ->
  invariant (fst (Investments.handleSubmit user amount newId now d)).
Proof.
  intros Hinv. unfold Investments.handleSubmit.
  destruct user as [[uid u]|]; [|done]. destruct amount as [a|]; [|done].
  destruct (a <=? 0) eqn:Hpos; [done|]. apply Z.leb_gt in Hpos.
  destruct (User.points u <? a) eqn:Hle; [done|]. apply Z.ltb_ge in Hle.
  assert (Hinv1 : invariant
            (Db.set_investments
               (addDoc (Db.investments d) newId
                  (Investment.mk uid (User.username u) a Investment.pending
                     (Js.ofZ 0) None now None None None None)) d)).
  { apply invariant_add_investment; [done|]. split; simpl; [lia|done]. }
  destruct (Db.updateUser _ _ _) as [d2|] eqn:E; [|done].
  apply invariant_log. eapply invariant_set_points; [exact Hinv1| |exact E]. lia.
Qed.

Lemma invariant_investment_decline investment confirmed now d :
  invariant d -> In investment (Db.investments d) ->
  invariant (fst (Investments.handleDecline investment confirmed now d)).
Proof.
  intros Hinv Hin. destruct investment as [id inv].
  assert (Ha : soundInvestment inv) by (eapply Hinv; exact Hin).
  destruct Ha as [Ha _].
  unfold Investments.handleDecline. cbn [fst snd].
  destruct (negb confirmed); [done|].
  destruct (getDoc (Db.users d) _) as [u|] eqn:Hu; [|done].
  assert (solvent u) as [Hp _] by (by apply Hinv in Hu).
  destruct (Db.updateInvestment _ _ _) as [d1|] eqn:E1; [|done].
  apply (invariant_updateInvestment _ _ _ _ Hinv) in E1; [|by intros i [? ?]].
  destruct (Db.updateUser _ _ _) as [d2|] eqn:E2; [|done].
  apply invariant_log. eapply invariant_set_points; [exact E1| |exact E2]. lia.
Qed.

Lemma invariant_investment_approve investment rate release notes now d :
  invariant d ->
  invariant (fst (Investments.submitApproval (Some investment) rate release
                    notes now d)).
Proof.
  intros Hinv. destruct investment as [id inv]. unfold Investments.submitApproval.
  destruct (Js.isNaN rate || Js.leb rate (Js.ofZ 0)) eqn:Hr; [done|].
  apply accepted_rate_notNegative in Hr.
  destruct release as [rel|]; [|done]. destruct (rel <=? now); [done|].
  destruct (Db.updateInvestment _ _ _) as [d1|] eqn:E1; [|done].
  apply invariant_log. eapply invariant_updateInvestment; [exact Hinv| |exact E1].
  intros i [Hi _]. by split.
Qed.

Lemma invariant_investment_complete investment confirmed now d d' out :
  invariant d -> In investment (Db.investments d) ->
  Investments.handleComplete investment confirmed now d = Some (d', out) ->
  invariant d'.
Proof.
  intros Hinv Hin. destruct investment as [id inv].
  assert (Ha : soundInvestment inv) by (eapply Hinv; exact Hin).
  destruct Ha as [Ha Hr].
  unfold Investments.handleComplete. cbn [fst snd].
  destruct (negb confirmed); [by intros [= <- _]|].
  destruct (getDoc (Db.users d) _) as [u|] eqn:Hu; [|by intros [= <- _]].
  assert (solvent u) as [Hp _] by (by apply Hinv in Hu).
  destruct (Investments.payoutAmount inv) as [pay|] eqn:Hpay; [|done].
  apply (payoutAmount_nonneg _ _ Ha Hr) in Hpay.
  destruct (Db.updateInvestment _ _ _) as [d1|] eqn:E1; [|by intros [= <- _]].
  apply (invariant_updateInvestment _ _ _ _ Hinv) in E1; [|by intros i [? ?]].
  destruct (Db.updateUser _ _ _) as [d2|] eqn:E2; [|by intros [= <- _]].
  intros [= <- _]. apply invariant_log.
  eapply invariant_set_points; [exact E1| |exact E2]. lia.
Qed.

Lemma invariant_ultra_handleSubmit user amount note newId now d :
  invariant d ->
  invariant (fst (UltraManual.handleSubmit user amount note newId now d)).
Proof.
  intros Hinv. unfold UltraManual.handleSubmit.
  destruct user as [[uid u]|]; [|done]. destruct amount as [a|]; [|done].
  destruct (a <=? 0) eqn:Hpos; [done|]. apply Z.leb_gt in Hpos.
  destruct (User.points u <? a) eqn:Hle; [done|]. apply Z.ltb_ge in Hle.
  destruct (negb _); [done|]. destruct (_ <? _)%nat; [done|].
  assert (Hinv1 : invariant
            (Db.set_ultraManualBets
               (addDoc (Db.ultraManualBets d) newId
                  (UltraManualBet.mk uid (User.username u) a (Js.trim note)
                     UltraManualBet.pending now None None)) d)).
  { apply invariant_add_ultraManualBet; [done|]. simpl. lia. }
  destruct (Db.updateUser _ _ _) as [d2|] eqn:E; [|done].
  apply invariant_log. eapply invariant_set_points; [exact Hinv1| |exact E]. lia.
Qed.

Lemma invariant_cancelBet bet now d :
  invariant d -> In bet (Db.ultraManualBets d) ->
  invariant (fst (UltraManual.cancelBet bet now d)).
Proof.
  intros Hinv Hin. destruct bet as [id b].
  assert (Ha : 0 <= UltraManualBet.amount b) by (eapply Hinv; exact Hin).
  unfold UltraManual.cancelBet. cbn [fst snd].
  destruct (commit d _) as [d'|] eqn:E; [|done].
  eapply invariant_commit; [exact Hinv| |exact E].
  apply Forall_cons; split; [simpl; auto|].
  apply Forall_cons; split; [by apply safe_increment|].
  apply Forall_cons; split; [done|constructor].
Qed.

Lemma invariant_processBet bet isWin winAmount now d :
  invariant d ->
  match winAmount with Some w => 0 <= w | None => True end ->
  invariant (fst (UltraManual.processBet bet isWin winAmount now d)).
Proof.
  intros Hinv Hw. unfold UltraManual.processBet.
  destruct (commit d _) as [d'|] eqn:E; [|done].
  eapply invariant_commit; [exact Hinv| |exact E].
  apply Forall_cons. split; [simpl; auto|].
  destruct winAmount as [w|]; [|constructor].
  destruct (isWin && negb (w =? 0)); [|constructor].
  apply Forall_cons; split; [by apply safe_increment|].
  apply Forall_cons; split; [done|].
  apply Forall_cons; split; [done|constructor].
Qed.

Lemma invariant_handleWinSubmit bet winAmount now d :
  invariant d ->
  invariant (fst (UltraManual.handleWinSubmit (Some bet) winAmount now d)).
Proof.
  intros Hinv. unfold UltraManual.handleWinSubmit.
  destruct winAmount as [w|]; [|done].
  destruct (w <=? 0) eqn:Hpos; [done|]. apply Z.leb_gt in Hpos.
  apply invariant_processBet; [done|]. lia.
Qed.

Lemma bonus_nonneg level : 0 <= nth level Referral.bonusLevels 0.
Proof. do 6 (destruct level as [|level]; simpl; [lia|]). by destruct level. Qed.

Lemma safe_credit id userId level : safe (UpdateUser id (Referral.credit userId level)).
Proof.
  intros u Hu. unfold Referral.credit.
  apply (safe_increment id); [apply bonus_nonneg|].
  unfold Referral.arrayUnion. by destruct (bool_decide _).
Qed.

Lemma safe_referralLoop users userId now steps level code seen :
  Forall safe (Referral.referralLoop users userId now steps level code seen).
Proof.
  revert level code seen. induction steps as [|n IH]; intros level code seen;
    simpl; [constructor|].
  destruct (Referral.notSet code); [constructor|].
  destruct (getDocs users _) as [|doc rest]; [constructor|].
  destruct (bool_decide _); [constructor|].
  apply Forall_cons; split; [apply safe_credit|].
  apply Forall_cons; split; [done|]. apply IH.
Qed.

Lemma invariant_processReferralBonuses userId code now d :
  invariant d ->
  invariant (fst (Referral.processReferralBonuses userId code now d)).
Proof.
  intros Hinv. unfold Referral.processReferralBonuses.
  destruct (Referral.notSet code); [done|].
  destruct (commit d _) as [d'|] eqn:E; [|done].
  eapply invariant_commit; [exact Hinv| |exact E]. apply safe_referralLoop.
Qed.

Lemma invariant_approveUser userId now d :
  invariant d -> invariant (fst (Referral.approveUser userId now d)).
Proof.
  intros Hinv. unfold Referral.approveUser.
  destruct (getDoc (Db.users d) userId) as [u|]; [|done].
  destruct (commit d _) as [d'|] eqn:E; [|done].
  eapply invariant_commit; [exact Hinv| |exact E].
  apply Forall_cons; split; [by intros [] ?|]. apply safe_referralLoop.
Qed.

Lemma invariant_processRequest request approve fee now d :
  invariant d -> In request (Db.requests d) ->
  invariant (fst (UsersAdmin.processRequest request approve fee now d)).
Proof.
  intros Hinv Hin. destruct request as [id rq].
  assert (Ha : 0 <= Request.amount rq) by (eapply Hinv; exact Hin).
  unfold UsersAdmin.processRequest. cbn [fst snd].
  destruct (getDoc (Db.users d) _) as [u|]; [|done].
  destruct (commit d _) as [d'|] eqn:E; [|done].
  eapply invariant_commit; [exact Hinv| |exact E].
  destruct approve, (Request.rtype rq); simpl;
    repeat (apply Forall_cons; split);
    try apply Forall_nil; try (by apply safe_increment); simpl; auto.
Qed.

Lemma invariant_deleteUser userId username confirmed now d :
  invariant d ->
  invariant (fst (UsersAdmin.deleteUser userId username confirmed now d)).
Proof.
  intros Hinv. unfold UsersAdmin.deleteUser. destruct (negb confirmed); [done|].
  apply invariant_log. destruct Hinv as (Hn & Hnd & Hw).
  apply (invariant_users (fun c => deleteDoc c userId)); [done|..].
  - by apply NoDup_docIds_deleteDoc.
  - intros i u. by apply getDoc_deleteDoc_solvent.
Qed.

Lemma invariant_updateUserBalance userId type amount now d :
  invariant d ->
  match amount with Some (Some a) => 0 <= a | _ => True end ->
  invariant (fst (UsersAdmin.updateUserBalance userId type amount now d)).
Proof.
  intros Hinv Ha. unfold UsersAdmin.updateUserBalance.
  destruct amount as [[a|]|]; [|done..].
  destruct (getDoc (Db.users d) userId) as [u|] eqn:Hu; [|done].
  destruct (Db.updateUser _ _ _) as [d1|] eqn:E; [|done].
  apply invariant_log. eapply invariant_updateUser; [exact Hinv| |exact E].
  intros u' Hu' [Hp Hc]. rewrite Hu in Hu'. injection Hu' as <-.
  destruct type; split; simpl; lia.
Qed.

Lemma step_invariant d d' : invariant d -> step d d' -> invariant d'.
Proof.
  intros Hinv Hstep. destruct Hstep.
  - by apply invariant_transferPoints.
  - by apply invariant_handleTransferPoints.
  - by apply invariant_handleTransferRequest.
  - by apply invariant_dice_handleBet.
  - by eapply invariant_observable.
  - by apply invariant_invest.
  - by apply invariant_investment_decline.
  - by apply invariant_investment_approve.
  - by eapply invariant_investment_complete.
  - by apply invariant_ultra_handleSubmit.
  - by apply invariant_cancelBet.
  - by apply invariant_processBet.
  - by apply invariant_handleWinSubmit.
  - by apply invariant_processReferralBonuses.
  - by apply invariant_approveUser.
  - by apply invariant_processRequest.
  - by apply invariant_deleteUser.
  - by apply invariant_updateUserBalance.
Qed.

End InvariantHandlers.

Section LedgerClaims.
Import Ledger.


End LedgerClaims.

Lemma sample_invariant : Ledger.invariant (Sample.db []).
Proof.
  split; [|split_and!].
  - intros id u. simpl. repeat case_decide; intros [= <-]; by split.
  - decide_by_compute.
  - intros id r [].
  - intros id i [].
  - intros id b [].
Qed.




(** * Further properties of the handlers *)

(** ** Transfers *)

Section TransferFacts.
Import Vip.

(** How [transferPoints] can end. *)
Lemma transferPoints_cases userId ident amount direct newId now d :
  (exists m, transferPoints userId ident amount direct newId now d = (d, Error m)) \/
  (exists sender rid rc,
      getDoc (Db.users d) userId = Some sender /\
      0 < amount <= User.points sender /\
      In (rid, rc) (Db.users d) /\
      (exists rest, findRecipient (Db.users d) ident = (rid, rc) :: rest) /\
      rid <> userId /\
      if direct then
        exists d',
          transferPoints userId ident amount true newId now d = (d', Quiet) /\
          Db.users d' =
            afterTransfer (Db.users d) userId rid (User.points sender)
              (User.points rc) amount /\
          Db.requests d' = Db.requests d /\
          Db.transactions d' =
            Db.transactions d ++
            [transferOut userId (User.username sender) (User.username rc) amount
               (User.points sender - amount) (User.cash sender) now;
             transferIn rid (User.username rc) (User.username sender) amount
               (User.points rc + amount) (User.cash rc) now]
      else
        transferPoints userId ident amount false newId now d =
          (Db.set_requests
             (addDoc (Db.requests d) newId
                (Request.mk userId (User.username sender) Request.point_transfer
                   rid (User.username rc) amount 0 0 Request.pending now None
                   None None false)) d,
           Quiet)).
Proof.
  unfold transferPoints.
  destruct (negb (Js.nonempty userId)); [left; eauto|].
  destruct (negb (Js.nonempty ident)); [left; eauto|].
  destruct (amount <=? 0) eqn:Hpos; [left; eauto|]. apply Z.leb_gt in Hpos.
  destruct (getDoc (Db.users d) userId) as [sender|] eqn:Hs; [|left; eauto].
  destruct (User.points sender <? amount) eqn:Hle; [left; eauto|].
  apply Z.ltb_ge in Hle.
  destruct (findRecipient _ _) as [|[rid rc] rest] eqn:Hf; [left; eauto|].
  pose proof (findRecipient_In _ _ _ _ Hf) as Hin.
  destruct (decide (rid = userId)) as [|Hne]; [left; eauto|].
  right. exists sender, rid, rc. split_and!; eauto; try lia.
  destruct direct; [|done].
  rewrite (Db_updateUser_exists _ _ _ _ Hs).
  destruct (In_is_Some_getDoc _ _ _ Hin) as [rc0 Hrc0].
  erewrite Db_updateUser_exists; last first.
  { simpl. rewrite getDoc_mergeDoc, decide_False by done. exact Hrc0. }
  eexists. split; [reflexivity|]. simpl. split_and!; [done..|].
  by rewrite <- app_assoc.
Qed.

End TransferFacts.

Lemma mergeDoc_absent {A} (c : list (DocId * A)) id f :
  ~ In id (docIds c) -> mergeDoc id f c = c.
Proof.
  induction c as [|[i a] c IH]; simpl; [done|].
  intros Hni. rewrite decide_False by (intros ->; apply Hni; by left).
  f_equal. apply IH. intros Hin. apply Hni. by right.
Qed.

Lemma total_mergeDoc f users id g u :
  NoDup (docIds users) ->
  getDoc users id = Some u ->
  Totals.total f (mergeDoc id g users) =
  Totals.total f users - User.balance f u + User.balance f (g u).
Proof.
  unfold Totals.total.
  induction users as [|[i a] users IH]; simpl; [done|].
  intros Hnd Hg. apply NoDup_cons in Hnd as [Hni Hnd].
  destruct (decide (i = id)) as [->|Hne]; simpl.
  - injection Hg as ->. rewrite mergeDoc_absent; [lia|].
    intros Hin. apply Hni. by apply list_elem_of_In.
  - rewrite IH by done. lia.
Qed.

Lemma total_afterTransfer f users a b ua ub amount :
  NoDup (docIds users) ->
  getDoc users a = Some ua -> getDoc users b = Some ub -> a <> b ->
  Totals.total f
    (Vip.afterTransfer users a b (User.points ua) (User.points ub) amount)
  = Totals.total f users.
Proof.
  intros Hnd Ha Hb Hab. unfold Vip.afterTransfer.
  rewrite (total_mergeDoc f _ b _ ub).
  - rewrite (total_mergeDoc f _ a _ ua) by done. destruct f; simpl; lia.
  - by rewrite docIds_mergeDoc.
  - by rewrite getDoc_mergeDoc, decide_False.
Qed.

Section TransferProperties.
Import Vip.

Lemma transferPoints_refusal_changes_nothing_aux
    userId ident amount direct newId now d d' out :
  transferPoints userId ident amount direct newId now d = (d', out) ->
  out <> Quiet ->
  d' = d /\ exists m, out = Error m.
Proof.
  intros Hrun Hout.
  destruct (transferPoints_cases userId ident amount direct newId now d)
    as [[m Hm]|(sender & rid & rc & _ & _ & _ & _ & _ & Hok)].
  - rewrite Hm in Hrun. injection Hrun as <- <-. eauto.
  - destruct direct.
    + destruct Hok as (d2 & Hm & _). rewrite Hm in Hrun.
      injection Hrun as _ <-. done.
    + rewrite Hok in Hrun. injection Hrun as _ <-. done.
Qed.

(** X1.  [transferPoints] never reports a message of success on its own
    and never leaves a transfer half done: whenever it ends in an error,
    the database is exactly as it was. *)
Theorem transferPoints_refusal_changes_nothing
    userId ident amount direct newId now d d' out :
  transferPoints userId ident amount direct newId now d = (d', out) ->
  out <> Quiet ->
  d' = d /\ exists m, out = Error m.
Proof.
  intros Hrun Hout.
  destruct (transferPoints_refusal_changes_nothing_aux _ _ _ _ _ _ _ _ _ Hrun Hout)
    as [Hd [m Hm]].
  split; [exact Hd|]. exists m. exact Hm.
Qed.


Lemma filed_request_is_sound_aux userId ident amount newId now d d' :
  transferPoints userId ident amount false newId now d = (d', Quiet) ->
  exists rq sender,
    Db.requests d' = Db.requests d ++ [(newId, rq)] /\
    Db.users d' = Db.users d /\
    Db.transactions d' = Db.transactions d /\
    getDoc (Db.users d) userId = Some sender /\
    Request.userId rq = userId /\
    Request.rtype rq = Request.point_transfer /\
    Request.rstatus rq = Request.pending /\
    Request.amount rq = amount /\
    0 < amount <= User.points sender /\
    Request.recipientId rq <> userId /\
    is_Some (getDoc (Db.users d) (Request.recipientId rq)).
Proof.
  intros Hrun.
  destruct (transferPoints_cases userId ident amount false newId now d)
    as [[m Hm]|(sender & rid & rc & Hs & Ha & Hin & _ & Hne & Hm)].
  - rewrite Hm in Hrun. discriminate Hrun.
  - rewrite Hm in Hrun. injection Hrun as <-.
    eexists _, sender. split; [reflexivity|]. simpl.
    split_and!; try done; try (by destruct Ha).
    by eapply In_is_Some_getDoc.
Qed.

(** X3.  Every request [transferPoints] files is pending, of type
    point_transfer, for an amount above 0 that the sender held at that
    moment, and addressed to an existing account other than the sender. *)
Theorem filed_request_is_sound userId ident amount newId now d d' :
  transferPoints userId ident amount false newId now d = (d', Quiet) ->
  exists rq sender,
    Db.requests d' = Db.requests d ++ [(newId, rq)] /\
    Db.users d' = Db.users d /\
    Db.transactions d' = Db.transactions d /\
    getDoc (Db.users d) userId = Some sender /\
    Request.userId rq = userId /\
    Request.rtype rq = Request.point_transfer /\
    Request.rstatus rq = Request.pending /\
    Request.amount rq = amount /\
    0 < amount <= User.points sender /\
    Request.recipientId rq <> userId /\
    is_Some (getDoc (Db.users d) (Request.recipientId rq)).
Proof.
  intros Hrun.
  destruct (filed_request_is_sound_aux _ _ _ _ _ _ _ Hrun) as (rq & sender & H).
  exists rq, sender. exact H.
Qed.

End TransferProperties.

Lemma transferPoints_refusal_changes_nothing_witness :
  fst (Vip.transferPoints "a" "alice" 50 true "n1" 7000 (Sample.db []))
    = Sample.db [] /\
  exists m, snd (Vip.transferPoints "a" "alice" 50 true "n1" 7000 (Sample.db []))
            = Error m.
Proof.
  apply (transferPoints_refusal_changes_nothing "a" "alice" 50 true "n1" 7000
           (Sample.db [])).
  - reflexivity.
  - discriminate.
Defined.


Lemma filed_request_is_sound_witness :
  exists rq sender,
    Db.requests (fst (Vip.transferPoints "a" "FBT200" 50 false "q9" 7000 (Sample.db [])))
      = Db.requests (Sample.db []) ++ [("q9", rq)] /\
    Db.users (fst (Vip.transferPoints "a" "FBT200" 50 false "q9" 7000 (Sample.db [])))
      = Db.users (Sample.db []) /\
    Db.transactions (fst (Vip.transferPoints "a" "FBT200" 50 false "q9" 7000 (Sample.db [])))
      = Db.transactions (Sample.db []) /\
    getDoc (Db.users (Sample.db [])) "a" = Some sender /\
    Request.userId rq = "a" /\
    Request.rtype rq = Request.point_transfer /\
    Request.rstatus rq = Request.pending /\
    Request.amount rq = 50 /\
    0 < 50 <= User.points sender /\
    Request.recipientId rq <> "a" /\
    is_Some (getDoc (Db.users (Sample.db [])) (Request.recipientId rq)).
Proof.
  apply (filed_request_is_sound "a" "FBT200" 50 "q9" 7000 (Sample.db [])).
  reflexivity.
Defined.

(** ** Handling a transfer request *)

Section SortFacts.
Context {A : Type} (key : A -> Z).

Lemma In_insertDesc x y l : In y (Panels.insertDesc key x l) <-> y = x \/ In y l.
Proof.
  induction l as [|z l IH]; simpl.
  - intuition congruence.
  - destruct (key z <=? key x); simpl; [intuition congruence|].
    rewrite IH. tauto.
Qed.

Lemma In_sortDesc y l : In y (Panels.sortDesc key l) <-> In y l.
Proof.
  unfold Panels.sortDesc. induction l as [|x l IH]; simpl; [done|].
  rewrite In_insertDesc, IH. intuition congruence.
Qed.

End SortFacts.

Section TransferRequestFacts.
Import Vip.

Lemma handleTransferRequest_accounts p request approve now d :
  let d' := fst (handleTransferRequest p request approve now d) in
  Db.users d' = Db.users d \/
  exists s rc,
    getDoc (Db.users d) (Request.userId (snd request)) = Some s /\
    getDoc (Db.users d) (Request.recipientId (snd request)) = Some rc /\
    Db.users d' =
      afterTransfer (Db.users d) (Request.userId (snd request))
        (Request.recipientId (snd request)) (User.points s) (User.points rc)
        (Request.amount (snd request)).
Proof.
  destruct request as [id rq]. unfold handleTransferRequest. cbn [fst snd].
  destruct p; [by left|].
  destruct (getDoc (Db.users d) (Request.userId rq)) as [s|] eqn:Hs; [|by left].
  destruct (User.points s <? Request.amount rq).
  { destruct (Db.updateRequest _ _ _) as [d1|] eqn:E; [|by left].
    apply Db_updateRequest_Some in E as [_ ->]. by left. }
  destruct approve.
  - destruct (getDoc (Db.users d) (Request.recipientId rq)) as [rc|] eqn:Hr;
      [|by left].
    right. exists s, rc. split_and!; [done..|].
    rewrite (Db_updateUser_exists _ _ _ _ Hs).
    assert (is_Some (getDoc (Db.users (Db.set_users
              (mergeDoc (Request.userId rq)
                 (User.set_points (User.points s - Request.amount rq))
                 (Db.users d)) d)) (Request.recipientId rq))) as [rc' Hr'].
    { simpl. rewrite getDoc_mergeDoc, Hr. by case_decide. }
    rewrite (Db_updateUser_exists _ _ _ _ Hr').
    destruct (Db.updateRequest _ _ _) as [d3|] eqn:E; [|done].
    apply Db_updateRequest_Some in E as [_ ->]. done.
  - destruct (Db.updateRequest _ _ _) as [d1|] eqn:E; [|by left].
    apply Db_updateRequest_Some in E as [_ ->]. by left.
Qed.

Lemma handleTransferRequest_Message p request approve now d d' m :
  handleTransferRequest p request approve now d = (d', Message m) ->
  is_Some (getDoc (Db.requests d) (fst request)) /\
  exists st reason,
    st <> Request.pending /\
    Db.requests d' =
      mergeDoc (fst request) (Request.process st now reason None) (Db.requests d).
Proof.
  destruct request as [id rq]. unfold handleTransferRequest. cbn [fst snd].
  destruct p; [done|].
  destruct (getDoc (Db.users d) (Request.userId rq)) as [s|] eqn:Hs; [|done].
  destruct (User.points s <? Request.amount rq).
  { destruct (Db.updateRequest _ _ _) as [d1|] eqn:E; [|done].
    apply Db_updateRequest_Some in E as [? ->]. intros [= <- _].
    split; [done|]. by exists Request.declined, (Some "Insufficient points"). }
  destruct approve.
  - destruct (getDoc (Db.users d) (Request.recipientId rq)) as [rc|] eqn:Hr; [|done].
    destruct (Db.updateUser _ _ d) as [d1|] eqn:E1; [|done].
    apply Db_updateUser_Some in E1 as [_ ->].
    destruct (Db.updateUser _ _ _) as [d2|] eqn:E2; [|done].
    apply Db_updateUser_Some in E2 as [_ ->].
    destruct (Db.updateRequest _ _ _) as [d3|] eqn:E; [|done].
    apply Db_updateRequest_Some in E as [? ->]. intros [= <- _].
    split; [done|]. by exists Request.approved, None.
  - destruct (Db.updateRequest _ _ _) as [d1|] eqn:E; [|done].
    apply Db_updateRequest_Some in E as [? ->]. intros [= <- _].
    split; [done|]. by exists Request.declined, None.
Qed.


(** X5.  A transfer request that was handled with a message (approved,
    declined, or declined for insufficient points) is no longer in the
    administrator's list of pending transfers, and every other request is
    listed exactly as before. *)
Theorem handled_request_leaves_pending_list p id rq approve now d d' m :
  handleTransferRequest p (id, rq) approve now d = (d', Message m) ->
  (forall r, ~ In (id, r) (Panels.transferRequests d')) /\
  (forall id' r, id' <> id ->
     In (id', r) (Panels.transferRequests d') <->
     In (id', r) (Panels.transferRequests d)).
Proof.
  intros Hrun.
  apply handleTransferRequest_Message in Hrun as (_ & st & reason & Hst & Hrq).
  cbn [fst] in Hrq. unfold Panels.transferRequests. rewrite Hrq. split.
  - intros r. rewrite In_sortDesc. unfold getDocs. rewrite filter_In.
    intros [Hin Hp]. unfold mergeDoc in Hin. apply in_map_iff in Hin
      as ([i x] & Heq & _). simpl in Heq. case_decide; simplify_eq.
    simpl in Hp. apply andb_prop in Hp as [_ Hp].
    apply bool_decide_eq_true in Hp. done.
  - intros id' r Hne. rewrite !In_sortDesc. unfold getDocs.
    rewrite !filter_In. unfold mergeDoc. rewrite in_map_iff. split.
    + intros [([i x] & Heq & Hin) Hp]. simpl in Heq.
      case_decide; simplify_eq. done.
    + intros [Hin Hp]. split; [|done]. exists (id', r). simpl.
      by rewrite decide_False.
Qed.

End TransferRequestFacts.


Lemma handled_request_leaves_pending_list_witness :
  map fst (Panels.transferRequests Sample.twoRequests) = ["q1"; "q2"] /\
  forall r,
    ~ In ("q1", r)
        (Panels.transferRequests
           (fst (Vip.handleTransferRequest false
                   ("q1", Sample.transferRq "a" "alice" "b" "bob" 50)
                   true 8000 Sample.twoRequests))).
Proof.
  split; [reflexivity|].
  eapply (handled_request_leaves_pending_list false "q1"
            (Sample.transferRq "a" "alice" "b" "bob" 50) true 8000
            Sample.twoRequests).
  reflexivity.
Defined.

(** ** Looking a recipient up *)

Lemma lower_ascii_idem c : Js.lower_ascii (Js.lower_ascii c) = Js.lower_ascii c.
Proof. destruct c as [[] [] [] [] [] [] [] []]; reflexivity. Qed.

Lemma toLowerCase_idem s : Js.toLowerCase (Js.toLowerCase s) = Js.toLowerCase s.
Proof.
  induction s as [|c s IH]; simpl; [done|]. by rewrite lower_ascii_idem, IH.
Qed.

Section RecipientLookup.
Import Vip.


(** X7.  The transfer form of the panel never moves points itself: the
    accounts and the transaction log stay as they are, and it reports
    success exactly when one request was added under the new id, which
    takes the confirmation and an amount above 0 within the points shown
    to the user. *)
Theorem panel_transfer_only_files_requests
    p user ident amount confirmed newId now d d' out :
  handleTransferPoints p user ident amount confirmed newId now d = (d', out) ->
  Db.users d' = Db.users d /\
  Db.transactions d' = Db.transactions d /\
  ((exists m uid u a rq,
      out = Message m /\ user = Some (uid, u) /\ amount = Some a /\
      confirmed = true /\ 0 < a <= User.points u /\
      Db.requests d' = Db.requests d ++ [(newId, rq)] /\
      Request.userId rq = uid /\ Request.amount rq = a /\
      Request.rstatus rq = Request.pending)
   \/ d' = d /\ forall m, out <> Message m).
Proof.
  unfold handleTransferPoints. intros Hrun.
  destruct user as [[uid u]|]; [|by simplify_eq; auto].
  destruct p; [by simplify_eq; auto|].
  destruct (negb (Js.nonempty ident)); [by simplify_eq; auto|].
  destruct amount as [a|]; [|by simplify_eq; auto].
  destruct (a <=? 0) eqn:Ha; [by simplify_eq; auto|].
  destruct (User.points u <? a) eqn:Hp; [by simplify_eq; auto|].
  destruct confirmed; simpl in Hrun; [|by simplify_eq; auto].
  apply Z.leb_gt in Ha. apply Z.ltb_ge in Hp.
  destruct (transferPoints uid ident a false newId now d) as [d1 o] eqn:Ht.
  destruct o as [m|m|].
  - apply transferPoints_refusal_changes_nothing_aux in Ht as [_ [? [=]]]; done.
  - apply transferPoints_refusal_changes_nothing_aux in Ht as [-> ?]; [|done].
    simplify_eq. split_and!; [done..|]. right. done.
  - apply filed_request_is_sound_aux in Ht
      as (rq & sender & Hr & Hu & Htx & _ & Hid & _ & Hst & Ham & _).
    simplify_eq. split_and!; [done..|]. left.
    eexists _, _, _, _, rq. split_and!; try done; lia.
Qed.

End RecipientLookup.


Lemma panel_transfer_only_files_requests_witness :
  Db.users (fst (Vip.handleTransferPoints false (Some ("a", Sample.alice)) "bob"
                   (Some 50) true "q9" 7000 (Sample.db [])))
  = Db.users (Sample.db []).
Proof.
  eapply (panel_transfer_only_files_requests false (Some ("a", Sample.alice)) "bob"
            (Some 50) true "q9" 7000 (Sample.db [])).
  reflexivity.
Defined.

(** ** Dice rounds: what a settlement leaves alone *)

Lemma commit_betWrites batch d d' :
  Forall betWrite batch ->
  commit d batch = Some d' ->
  Db.requests d' = Db.requests d /\
  Db.investments d' = Db.investments d /\
  Db.ultraManualBets d' = Db.ultraManualBets d /\
  Db.transactions d' = Db.transactions d /\
  Db.winners d' = Db.winners d /\
  Db.diceRounds d' = Db.diceRounds d.
Proof.
  intros Hall. revert d. induction Hall as [|w batch Hw _ IH]; intros d; simpl.
  - by intros [= <-].
  - destruct (applyWrite d w) as [d1|] eqn:E; [|done]. intros Hc.
    apply IH in Hc as (-> & -> & -> & -> & -> & ->).
    destruct w; try done; simpl in E.
    + by apply Db_updateUser_Some in E as [_ ->].
    + by apply Db_updateDiceBet_Some in E as [_ ->].
Qed.

Lemma resolveBets_betWrites numberColors now snap :
  Forall betWrite (flat_map (Dice.resolveBet numberColors now) snap).
Proof.
  apply Forall_forall. intros w Hin. apply list_elem_of_In in Hin.
  apply in_flat_map in Hin as (doc & _ & Hin).
  unfold Dice.resolveBet in Hin. destruct Hin as [<-|Hin]; [done|].
  destruct (_ && _); [|done]. case_decide; [|done].
  by destruct Hin as [<-|[]].
Qed.

Lemma head_In {A} (l : list A) x : head l = Some x -> In x l.
Proof. destruct l; [done|]. intros [= ->]. by left. Qed.

Section DiceFrame.
Import Dice.
Variables (numberColors : gmap Z DiceColor.t) (now : Z).

Lemma closeRoundAndResolve_shape round d :
  let d' := fst (closeRoundAndResolve round numberColors now d) in
  d' = d \/
  exists rid r d1,
    round = Some (rid, r) /\
    Db.updateDiceRound rid (DiceRound.close numberColors now) d = Some d1 /\
    (d' = d1 \/
     commit d1 (flat_map (resolveBet numberColors now) (betsOfRound d1 rid)) = Some d').
Proof.
  unfold closeRoundAndResolve, closeRoundAndResolve_steps.
  destruct round as [[rid r]|]; [|by left].
  destruct (hasWinner numberColors); simpl; [|by left].
  destruct (Db.updateDiceRound _ _ _) as [d1|] eqn:E1; [|by left].
  right. exists rid, r, d1. split_and!; [done..|].
  destruct (commit d1 _) as [d2|] eqn:E2; simpl; auto.
Qed.

(** X8.  Whatever its outcome, settling a round writes only to that
    round, to its bets and to the points of their bettors: no
    transaction is logged, no request, investment, ultra manual bet or
    winner record is touched, every bet placed in another round and every
    other round stays as it was. *)
Theorem settlement_leaves_the_rest round d :
  NoDup (docIds (Db.diceBets d)) ->
  let d' := fst (closeRoundAndResolve round numberColors now d) in
  Db.transactions d' = Db.transactions d /\
  Db.requests d' = Db.requests d /\
  Db.investments d' = Db.investments d /\
  Db.ultraManualBets d' = Db.ultraManualBets d /\
  Db.winners d' = Db.winners d /\
  (forall id bet,
     getDoc (Db.diceBets d) id = Some bet ->
     Some (DiceBet.roundId bet) <> fst <$> round ->
     getDoc (Db.diceBets d') id = Some bet) /\
  (forall id, Some id <> fst <$> round ->
     getDoc (Db.diceRounds d') id = getDoc (Db.diceRounds d) id).
Proof.
  intros Hnd d'.
  destruct (closeRoundAndResolve_shape round d)
    as [Hd|(rid & r & d1 & -> & E1 & Hd)]; fold d' in Hd.
  { rewrite Hd. done. }
  apply Db_updateDiceRound_Some in E1 as [_ Hd1].
  assert (Hrounds : forall id, Some id <> Some rid ->
            getDoc (Db.diceRounds d1) id = getDoc (Db.diceRounds d) id).
  { intros id Hne. subst d1. simpl. rewrite getDoc_mergeDoc.
    rewrite decide_False; [done|]. by intros ->. }
  destruct Hd as [Hd|Hc].
  - rewrite Hd. subst d1. simpl. split_and!; try done.
  - pose proof (commit_betWrites _ _ _ (resolveBets_betWrites _ _ _) Hc)
      as (-> & -> & -> & -> & -> & ->).
    assert (Hb : Db.diceBets d1 = Db.diceBets d) by by subst d1.
    rewrite <- Hb in Hnd.
    split_and!; try (by subst d1).
    intros id bet Hg Hne. simpl in Hne.
    rewrite (settled_bets_lookup numberColors now rid d1 d' id Hnd Hc).
    rewrite Hb, Hg. rewrite bool_decide_false; [done|].
    intros Heq. apply Hne. by rewrite Heq.
Qed.

(** X9.  After a settlement that went through, the round is stored closed
    with the colors and the closing time, no bet of the round is pending,
    a bet of the round is lost exactly when its number carries no color
    and then records payout 0 of no type, and the listeners no longer
    offer the round as the open one. *)
Theorem settled_round_is_closed rid r d d' msg :
  NoDup (docIds (Db.diceBets d)) ->
  closeRoundAndResolve (Some (rid, r)) numberColors now d = (d', Message msg) ->
  (exists stored,
     getDoc (Db.diceRounds d) rid = Some stored /\
     getDoc (Db.diceRounds d') rid = Some (DiceRound.close numberColors now stored)) /\
  (forall id bet,
     getDoc (Db.diceBets d') id = Some bet ->
     DiceBet.roundId bet = rid ->
     DiceBet.bstatus bet <> DiceBet.pending /\
     DiceBet.resolvedAt bet = Some now /\
     (DiceBet.bstatus bet = DiceBet.lost <->
      colorOf numberColors (DiceBet.chosenNumber bet) = DiceColor.none) /\
     (DiceBet.bstatus bet = DiceBet.lost ->
      DiceBet.payout bet = Some 0 /\ DiceBet.payoutType bet = None)) /\
  (forall r', Panels.round d' <> Some (rid, r')).
Proof.
  intros Hnd Hrun.
  apply closeRoundAndResolve_Message in Hrun
    as (rid' & r0 & d1 & [= <- <-] & _ & E1 & E2 & _).
  apply Db_updateDiceRound_Some in E1 as [[stored Hst] Hd1].
  pose proof (commit_betWrites _ _ _ (resolveBets_betWrites _ _ _) E2)
    as (_ & _ & _ & _ & _ & Hr).
  assert (Hb : Db.diceBets d1 = Db.diceBets d) by by subst d1.
  rewrite <- Hb in Hnd.
  split_and!.
  - exists stored. split; [done|]. rewrite Hr. subst d1. simpl.
    by rewrite getDoc_mergeDoc, decide_True, Hst.
  - intros id bet Hg Hrid.
    rewrite (settled_bets_lookup numberColors now rid d1 d' id Hnd E2) in Hg.
    destruct (getDoc (Db.diceBets d1) id) as [b0|]; [|done].
    destruct (bool_decide (DiceBet.roundId b0 = rid)) eqn:Hin.
    + injection Hg as <-. unfold betUpdate. simpl.
      destruct (colorOf numberColors (DiceBet.chosenNumber b0)); simpl;
        split_and!; try done; split; done.
    + injection Hg as ->. by apply bool_decide_eq_false in Hin.
  - intros r' Hh. unfold Panels.round in Hh. apply head_In in Hh.
    apply In_sortDesc in Hh. unfold getDocs in Hh.
    apply filter_In in Hh as [Hin Hp]. simpl in Hp.
    apply bool_decide_eq_true in Hp.
    rewrite Hr in Hin. subst d1. simpl in Hin. unfold mergeDoc in Hin.
    apply in_map_iff in Hin as ([i x] & Heq & _). simpl in Heq.
    case_decide; simplify_eq.
Qed.

End DiceFrame.

Lemma settlement_leaves_the_rest_witness :
  Db.transactions
    (fst (Dice.closeRoundAndResolve Sample.round Sample.redOn3 2000 Sample.start))
  = [].
Proof.
  destruct (settlement_leaves_the_rest Sample.redOn3 2000 Sample.round Sample.start)
    as [H _].
  - decide_by_compute.
  - rewrite H. reflexivity.
Defined.

Lemma settled_round_is_closed_witness :
  exists stored,
    getDoc (Db.diceRounds Sample.start) "r1" = Some stored /\
    getDoc (Db.diceRounds
              (fst (Dice.closeRoundAndResolve Sample.round Sample.redOn3 2000
                      Sample.start))) "r1"
    = Some (DiceRound.close Sample.redOn3 2000 stored).
Proof.
  eapply (settled_round_is_closed Sample.redOn3 2000 "r1" Sample.round1
            Sample.start _ [Txt "Round closed and bets resolved!"]).
  - decide_by_compute.
  - reflexivity.
Defined.

(** ** What an approval pays in total *)

Section ReferralTotals.
Import Referral.
Variables (userId : DocId) (now : Z).

Lemma balance_credit f level u :
  User.balance f (credit userId level u) = User.balance f u + Bonus.gain f level.
Proof.
  unfold credit, Bonus.gain, User.increment, arrayUnion.
  destruct (nth level bonusGive Field.points), f;
    destruct (bool_decide _); simpl; lia.
Qed.

Lemma total_chainWrites f chain level d d' :
  NoDup (docIds (Db.users d)) ->
  commit d (chainWrites userId now level chain) = Some d' ->
  Totals.total f (Db.users d') =
    Totals.total f (Db.users d) + Bonus.paid f level (length chain) /\
  docIds (Db.users d') = docIds (Db.users d).
Proof.
  revert level d. induction chain as [|doc rest IH]; intros level d Hnd.
  - intros [= <-]. simpl. split; [lia|done].
  - cbn [chainWrites levelWrites app commit applyWrite].
    destruct (Db.updateUser _ _ _) as [d1|] eqn:E1; [|done].
    apply Db_updateUser_Some in E1 as [[u Hu] ->]. intros Hc.
    apply IH in Hc as [-> ->]; simpl; [|by rewrite docIds_mergeDoc].
    rewrite docIds_mergeDoc. split; [|done].
    rewrite (total_mergeDoc f _ _ _ u Hnd Hu), balance_credit. lia.
Qed.

Lemma paid_bounds f n :
  (n <= 5)%nat ->
  0 <= Bonus.paid f 0 n <= match f with Field.points => 100 | Field.cash => 50 end.
Proof.
  intros Hn.
  destruct n as [|[|[|[|[|[|n]]]]]]; [destruct f; vm_compute; split; discriminate..|lia].
Qed.

Lemma credited_length users code :
  (length (untilRepeat ∅ (referralChain users 5 code)) <= 5)%nat.
Proof.
  destruct (untilRepeat_prefix ∅ (referralChain users 5 code)) as [rest Hr].
  pose proof (referralChain_length users 5 code) as Hlen.
  rewrite Hr, length_app in Hlen. lia.
Qed.

(** X10.  With one account per id, a referral walk never fails and adds
    to the accounts, in total, the schedule's amounts for the levels it
    reached: nothing or 100 points, and between 0 and 50 cash; it changes
    no balance when it reaches no referrer. *)
Theorem referral_walk_pays_the_schedule code d d' out :
  NoDup (docIds (Db.users d)) ->
  processReferralBonuses userId code now d = (d', out) ->
  out = Quiet /\
  exists n : nat,
    (n <= 5)%nat /\
    length (Db.transactions d') = (length (Db.transactions d) + n)%nat /\
    Totals.total Field.points (Db.users d') =
      Totals.total Field.points (Db.users d) + (if n is O then 0 else 100) /\
    Totals.total Field.cash (Db.users d') =
      Totals.total Field.cash (Db.users d) + nth n [0; 0; 5; 10; 20; 50] 0.
Proof.
  intros Hnd Hrun.
  destruct (processReferralBonuses_run userId now code d)
    as (d2 & Hrun2 & _ & _ & Ht).
  rewrite Hrun2 in Hrun. injection Hrun as <- <-. split; [done|].
  set (credited := untilRepeat ∅ (referralChain (Db.users d) 5 code)) in *.
  exists (length credited). pose proof (credited_length (Db.users d) code) as Hlen.
  fold credited in Hlen. split; [done|].
  split; [by rewrite Ht, length_app, length_imap|].
  assert (Hc : commit d (chainWrites userId now 0 credited) = Some d2 \/
               (d2 = d /\ credited = [])).
  { revert Hrun2. unfold processReferralBonuses. subst credited.
    destruct (notSet code) eqn:Hs.
    - intros [= <-]. right. split; [done|]. simpl. by rewrite Hs.
    - unfold referralBatch. rewrite referralLoop_chain.
      change (length bonusLevels) with 5%nat.
      destruct (commit d _) as [d3|]; [|done]. intros [= <-]. by left. }
  destruct Hc as [Hc|[-> ->]]; [|simpl; split; lia].
  split.
  - destruct (total_chainWrites Field.points _ _ _ _ Hnd Hc) as [-> _].
    f_equal. destruct (length credited) as [|[|[|[|[|[|n]]]]]]; try reflexivity. lia.
  - destruct (total_chainWrites Field.cash _ _ _ _ Hnd Hc) as [-> _].
    f_equal. destruct (length credited) as [|[|[|[|[|[|n]]]]]]; try reflexivity. lia.
Qed.

(** X11.  Approving an account that exists always goes through: the
    account ends approved, the ids of the accounts are the same, and, with
    one account per id, the approval adds in total nothing or 100 points
    and at most 50 cash.  Approving an id without an account is an error
    that changes nothing. *)
Theorem approval_goes_through d :
  NoDup (docIds (Db.users d)) ->
  match getDoc (Db.users d) userId with
  | None =>
      approveUser userId now d = (d, Error [Txt "Failed to approve user"])
  | Some u =>
      exists d' u',
        approveUser userId now d =
          (d', Message [Txt "User approved successfully"]) /\
        getDoc (Db.users d') userId = Some u' /\
        User.approved u' = true /\
        docIds (Db.users d') = docIds (Db.users d) /\
        (Totals.total Field.points (Db.users d') =
           Totals.total Field.points (Db.users d) \/
         Totals.total Field.points (Db.users d') =
           Totals.total Field.points (Db.users d) + 100) /\
        0 <= Totals.total Field.cash (Db.users d')
             - Totals.total Field.cash (Db.users d) <= 50
  end.
Proof.
  intros Hnd. destruct (getDoc (Db.users d) userId) as [u|] eqn:Hu.
  2: { unfold approveUser. by rewrite Hu. }
  destruct (approveUser_run userId now d u Hu) as (d' & Hrun & Hk & Ho & _).
  set (credited := untilRepeat ∅
         (referralChain (Db.users d) 5 (User.referralCodeFriend u))) in *.
  pose proof (credited_length (Db.users d) (User.referralCodeFriend u)) as Hlen.
  fold credited in Hlen.
  set (flagged := Db.set_users
         (mergeDoc userId (User.set_approved true) (Db.users d)) d).
  assert (Hc : commit flagged (chainWrites userId now 0 credited) = Some d').
  { revert Hrun. unfold approveUser. rewrite Hu.
    cbn [commit applyWrite]. rewrite (Db_updateUser_exists _ _ _ _ Hu).
    unfold referralBatch. rewrite referralLoop_chain.
    change (length bonusLevels) with 5%nat. fold credited. fold flagged.
    destruct (commit flagged _) as [d3|]; [|done]. by intros [= <-]. }
  assert (Hnd' : NoDup (docIds (Db.users flagged)))
    by (unfold flagged; simpl; by rewrite docIds_mergeDoc).
  assert (Hflag : forall f, Totals.total f (Db.users flagged) =
                            Totals.total f (Db.users d)).
  { intros f. unfold flagged. simpl.
    rewrite (total_mergeDoc f _ _ _ u Hnd Hu). destruct f; simpl; lia. }
  assert (Happ : exists u', getDoc (Db.users d') userId = Some u' /\
                            User.approved u' = true).
  { destruct (decide (userId ∈ docIds credited)) as [Hin|Hnin].
    - apply list_elem_of_In in Hin. unfold docIds in Hin.
      apply in_map_iff in Hin as (doc & Hid & Hin).
      apply list_elem_of_In, list_elem_of_lookup in Hin as [k Hlook].
      specialize (Hk k doc Hlook). rewrite Hid in Hk. rewrite Hk.
      rewrite getDoc_mergeDoc, decide_True, Hu by done. simpl.
      eexists. split; [done|]. unfold credit, arrayUnion, User.increment.
      destruct (nth k bonusGive Field.points); by destruct (bool_decide _).
    - rewrite Ho by (intros Hin; apply Hnin; by apply list_elem_of_In).
      rewrite getDoc_mergeDoc, decide_True, Hu by done. simpl. by eexists. }
  destruct Happ as (u' & Hu' & Ha).
  exists d', u'. split_and!; try done.
  - destruct (total_chainWrites Field.points _ _ _ _ Hnd' Hc) as [_ ->].
    unfold flagged. simpl. by rewrite docIds_mergeDoc.
  - destruct (total_chainWrites Field.points _ _ _ _ Hnd' Hc) as [-> _].
    rewrite Hflag.
    destruct (length credited) as [|[|[|[|[|[|n]]]]]]; [left|right..|lia];
      vm_compute Bonus.paid; lia.
  - destruct (total_chainWrites Field.cash _ _ _ _ Hnd' Hc) as [-> _].
    rewrite Hflag. pose proof (paid_bounds Field.cash _ Hlen). lia.
  - destruct (total_chainWrites Field.cash _ _ _ _ Hnd' Hc) as [-> _].
    rewrite Hflag. pose proof (paid_bounds Field.cash _ Hlen). lia.
Qed.

End ReferralTotals.

Lemma referral_walk_pays_the_schedule_witness :
  Totals.total Field.cash
    (Db.users (fst (Referral.processReferralBonuses "c" "FBT200" 3000 Sample.family)))
  = 5.
Proof.
  destruct (referral_walk_pays_the_schedule "c" 3000 "FBT200" Sample.family
              (fst (Referral.processReferralBonuses "c" "FBT200" 3000 Sample.family))
              Quiet) as (_ & n & _ & _ & _ & _).
  - decide_by_compute.
  - reflexivity.
  - reflexivity.
Defined.

Lemma approval_goes_through_witness :
  match getDoc (Db.users Sample.family) "c" with
  | None =>
      Referral.approveUser "c" 3000 Sample.family =
        (Sample.family, Error [Txt "Failed to approve user"])
  | Some u =>
      exists d' u',
        Referral.approveUser "c" 3000 Sample.family =
          (d', Message [Txt "User approved successfully"]) /\
        getDoc (Db.users d') "c" = Some u' /\
        User.approved u' = true /\
        docIds (Db.users d') = docIds (Db.users Sample.family) /\
        (Totals.total Field.points (Db.users d') =
           Totals.total Field.points (Db.users Sample.family) \/
         Totals.total Field.points (Db.users d') =
           Totals.total Field.points (Db.users Sample.family) + 100) /\
        0 <= Totals.total Field.cash (Db.users d')
             - Totals.total Field.cash (Db.users Sample.family) <= 50
  end.
Proof.
  apply (approval_goes_through "c" 3000 Sample.family).
  decide_by_compute.
Defined.

(** ** Placing a dice bet *)

Section DiceBetting.
Import Dice.

Lemma handleBet_cases user round num amount newId now d :
  (exists m, handleBet user round num amount newId now d = (d, Error m)) \/
  exists uid u rid r a,
    user = Some (uid, u) /\ round = Some (rid, r) /\ amount = Some a /\
    0 < a <= User.points u /\
    let placed :=
      Db.set_diceBets
        (addDoc (Db.diceBets d) newId
           (DiceBet.mk uid (User.username u) rid num a DiceBet.pending now
              None None None None)) d in
    match getDoc (Db.users d) uid with
    | Some stored =>
        handleBet user round num amount newId now d =
          (Db.set_users
             (mergeDoc uid (User.set_points (User.points u - a)) (Db.users d))
             placed,
           Message [Txt "Bet placed on "; Int num; Txt "!"])
    | None =>
        handleBet user round num amount newId now d =
          (placed, Error [Txt "Failed to place bet."])
    end.
Proof.
  unfold handleBet.
  destruct user as [[uid u]|]; [|left; by eexists].
  destruct round as [[rid r]|]; [|left; by eexists].
  destruct amount as [a|]; [|left; by eexists].
  destruct (a <=? 0) eqn:Ha; [left; by eexists|].
  destruct (User.points u <? a) eqn:Hp; [left; by eexists|].
  apply Z.leb_gt in Ha. apply Z.ltb_ge in Hp.
  right. exists uid, u, rid, r, a. split_and!; try done.
  cbv zeta. unfold Db.updateUser, updateDoc. simpl.
  by destruct (getDoc (Db.users d) uid).
Qed.


(** X13.  A dice bet that ends in an error never debits anyone.  Either
    nothing was written, or the bettor's account document is missing and
    the bet was nevertheless stored pending: the two writes are not
    atomic. *)
Theorem failed_bet_debits_nobody user round num amount newId now d d' m :
  handleBet user round num amount newId now d = (d', Error m) ->
  Db.users d' = Db.users d /\
  Db.transactions d' = Db.transactions d /\
  (d' = d \/
   exists uid u bet,
     user = Some (uid, u) /\
     getDoc (Db.users d) uid = None /\
     Db.diceBets d' = Db.diceBets d ++ [(newId, bet)] /\
     DiceBet.userId bet = uid /\
     DiceBet.bstatus bet = DiceBet.pending).
Proof.
  intros Hrun.
  destruct (handleBet_cases user round num amount newId now d)
    as [[m' Hm]|(uid & u & rid & r & a & -> & -> & -> & Ha & Hcase)].
  { rewrite Hm in Hrun. injection Hrun as <- _. auto. }
  cbv zeta in Hcase.
  destruct (getDoc (Db.users d) uid) as [stored|] eqn:Hs;
    rewrite Hcase in Hrun; [discriminate Hrun|].
  injection Hrun as <- _. simpl. split_and!; try done.
  right. by eexists uid, u, _.
Qed.

End DiceBetting.


Lemma failed_bet_debits_nobody_witness :
  Db.users (fst (Dice.handleBet (Some ("z", Sample.alice)) Sample.round
                   3 (Some 100) "b1" 1001 (Sample.db [])))
  = Db.users (Sample.db []).
Proof.
  eapply (failed_bet_debits_nobody (Some ("z", Sample.alice)) Sample.round 3
            (Some 100) "b1" 1001 (Sample.db []) _ [Txt "Failed to place bet."]).
  reflexivity.
Defined.

(** ** Users administration *)

Lemma getDoc_deleteDoc {A} (c : list (DocId * A)) id id' :
  getDoc (deleteDoc c id) id' = if decide (id' = id) then None else getDoc c id'.
Proof.
  induction c as [|[i a] c IH]; simpl; [by case_decide|].
  destruct (decide (i = id)) as [->|Hne].
  - rewrite bool_decide_true by done. simpl. rewrite IH.
    destruct (decide (id' = id)) as [->|]; [done|].
    by rewrite decide_False.
  - rewrite bool_decide_false by done. simpl. rewrite IH.
    destruct (decide (i = id')) as [->|]; [|done].
    by rewrite decide_False.
Qed.

Lemma balance_increment f g n u :
  User.balance f (User.increment g n u) =
  User.balance f u + if decide (f = g) then n else 0.
Proof. destruct f, g; simpl; lia. Qed.

Section UsersAdminFacts.
Import UsersAdmin.

(** X14.  The balance editor sets the chosen balance of an existing
    account to exactly the entered amount, whatever its sign, keeps the
    account's other balance and every other account, and logs the
    difference to the old balance as one transaction. *)
Theorem balance_editor_sets_amount userId type amount now d stored :
  getDoc (Db.users d) userId = Some stored ->
  exists d' u' tx,
    updateUserBalance userId type (Some (Some amount)) now d =
      (d', Message [Txt "User "; Txt (Field.name type);
                    Txt " updated successfully"]) /\
    getDoc (Db.users d') userId = Some u' /\
    User.balance type u' = amount /\
    (forall f, f <> type -> User.balance f u' = User.balance f stored) /\
    (forall id, id <> userId -> getDoc (Db.users d') id = getDoc (Db.users d) id) /\
    Db.transactions d' = Db.transactions d ++ [tx] /\
    Transaction.userId tx = userId /\
    Transaction.amount tx = Some (amount - User.balance type stored).
Proof.
  intros Hs. unfold updateUserBalance. rewrite Hs.
  rewrite (Db_updateUser_exists _ _ _ _ Hs).
  eexists _, _, _. split; [reflexivity|]. simpl.
  rewrite getDoc_mergeDoc, decide_True, Hs by done. simpl.
  split_and!; try done.
  - rewrite balance_increment, decide_True by done. lia.
  - intros f Hf. rewrite balance_increment, decide_False by done. lia.
  - intros id Hne. by rewrite getDoc_mergeDoc, decide_False.
Qed.

(** X15.  Deleting a user removes the account and nothing else: every
    other account, and the user's own requests, investments and bets,
    stay stored.  From then on nothing of that user can be handled: a
    transfer request, a loan or withdrawal request, the decline of an
    investment and the cancellation of an ultra manual bet of the deleted
    user all end in an error and change nothing. *)
Theorem deleted_user_leaves_orphans userId username now d d' out :
  deleteUser userId username true now d = (d', out) ->
  getDoc (Db.users d') userId = None /\
  (forall id, id <> userId -> getDoc (Db.users d') id = getDoc (Db.users d) id) /\
  Db.requests d' = Db.requests d /\
  Db.investments d' = Db.investments d /\
  Db.ultraManualBets d' = Db.ultraManualBets d /\
  Db.diceBets d' = Db.diceBets d /\
  (forall request approve t,
     Request.userId (snd request) = userId ->
     exists m, Vip.handleTransferRequest false request approve t d' = (d', Error m)) /\
  (forall request approve fee t,
     Request.userId (snd request) = userId ->
     exists m, processRequest request approve fee t d' = (d', Error m)) /\
  (forall investment t,
     Investment.userId (snd investment) = userId ->
     exists m, Investments.handleDecline investment true t d' = (d', Error m)) /\
  (forall bet t,
     UltraManualBet.userId (snd bet) = userId ->
     exists m, UltraManual.cancelBet bet t d' = (d', Error m)).
Proof.
  unfold deleteUser. simpl. intros [= <- _].
  assert (Hgone : getDoc (Db.users (Db.log
            (Transaction.mk userId username None "user_deleted"
               [Txt "User account deleted by admin"] now None None)
            (Db.set_users (deleteDoc (Db.users d) userId) d))) userId = None).
  { simpl. by rewrite getDoc_deleteDoc, decide_True. }
  set (d' := Db.log _ _) in *.
  split_and!; try done.
  - intros id Hne. subst d'. simpl. by rewrite getDoc_deleteDoc, decide_False.
  - intros [id rq] approve t Hid. simpl in Hid.
    unfold Vip.handleTransferRequest. cbn [fst snd]. rewrite Hid, Hgone.
    by eexists.
  - intros [id rq] approve fee t Hid. simpl in Hid.
    unfold processRequest. cbn [fst snd]. rewrite Hid, Hgone. by eexists.
  - intros [id inv] t Hid. simpl in Hid.
    unfold Investments.handleDecline. cbn [fst snd negb]. rewrite Hid, Hgone.
    by eexists.
  - intros [id bet] t Hid. simpl in Hid.
    unfold UltraManual.cancelBet. cbn [fst snd commit applyWrite].
    destruct (Db.updateUltraManualBet _ _ _) as [d1|] eqn:E; [|by eexists].
    assert (Hgone1 : getDoc (Db.users d1) userId = None).
    { unfold Db.updateUltraManualBet in E.
      destruct (updateDoc _ _ _); [|done]. by injection E as <-. }
    rewrite Hid. unfold Db.updateUser, updateDoc. rewrite Hgone1. simpl.
    by eexists.
Qed.

End UsersAdminFacts.

Lemma balance_editor_sets_amount_witness :
  exists d' u' tx,
    UsersAdmin.updateUserBalance "a" Field.cash (Some (Some 40)) 9000 (Sample.db []) =
      (d', Message [Txt "User "; Txt (Field.name Field.cash);
                    Txt " updated successfully"]) /\
    getDoc (Db.users d') "a" = Some u' /\
    User.balance Field.cash u' = 40 /\
    (forall f, f <> Field.cash -> User.balance f u' = User.balance f Sample.alice) /\
    (forall id, id <> "a" ->
       getDoc (Db.users d') id = getDoc (Db.users (Sample.db [])) id) /\
    Db.transactions d' = Db.transactions (Sample.db []) ++ [tx] /\
    Transaction.userId tx = "a" /\
    Transaction.amount tx = Some (40 - User.balance Field.cash Sample.alice).
Proof.
  apply (balance_editor_sets_amount "a" Field.cash 40 9000 (Sample.db [])
           Sample.alice).
  reflexivity.
Defined.

Lemma deleted_user_leaves_orphans_witness :
  getDoc (Db.users (fst (UsersAdmin.deleteUser "a" "alice" true 9000
                           Sample.twoRequests))) "a" = None /\
  Db.requests (fst (UsersAdmin.deleteUser "a" "alice" true 9000 Sample.twoRequests))
  = Db.requests Sample.twoRequests.
Proof.
  destruct (deleted_user_leaves_orphans "a" "alice" 9000 Sample.twoRequests
              (fst (UsersAdmin.deleteUser "a" "alice" true 9000 Sample.twoRequests))
              (snd (UsersAdmin.deleteUser "a" "alice" true 9000 Sample.twoRequests)))
    as (H1 & _ & H2 & _).
  - reflexivity.
  - split; [exact H1|exact H2].
Defined.

(** ** Pending lists and totals under batched writes *)

Lemma In_getDocs_mergeDoc_other {A} (c : list (DocId * A)) (p : A -> bool)
    id f id' a :
  id' <> id ->
  In (id', a) (getDocs (mergeDoc id f c) p) <-> In (id', a) (getDocs c p).
Proof.
  intros Hne. unfold getDocs. rewrite !filter_In. unfold mergeDoc.
  rewrite in_map_iff. split.
  - intros [([i x] & Heq & Hin) Hp]. simpl in Heq.
    case_decide; simplify_eq. done.
  - intros [Hin Hp]. split; [|done]. exists (id', a). simpl.
    by rewrite decide_False.
Qed.

Lemma not_In_getDocs_mergeDoc {A} (c : list (DocId * A)) (p : A -> bool)
    id f a :
  (forall x, p (f x) = false) ->
  ~ In (id, a) (getDocs (mergeDoc id f c) p).
Proof.
  intros Hf. unfold getDocs. rewrite filter_In. unfold mergeDoc.
  rewrite in_map_iff. intros [([i x] & Heq & _) Hp]. simpl in Heq.
  case_decide; simplify_eq. simpl in Hp. by rewrite Hf in Hp.
Qed.

Lemma total_increment f g n id d d' :
  NoDup (docIds (Db.users d)) ->
  Db.updateUser id (User.increment g n) d = Some d' ->
  Totals.total f (Db.users d') =
    Totals.total f (Db.users d) + (if decide (f = g) then n else 0) /\
  docIds (Db.users d') = docIds (Db.users d).
Proof.
  intros Hnd E. apply Db_updateUser_Some in E as [[u Hu] ->]. simpl.
  rewrite docIds_mergeDoc. split; [|done].
  rewrite (total_mergeDoc f _ _ _ u Hnd Hu), balance_increment. lia.
Qed.

Lemma Db_updateUltraManualBet_Some id f d d' :
  Db.updateUltraManualBet id f d = Some d' ->
  is_Some (getDoc (Db.ultraManualBets d) id) /\
  d' = Db.set_ultraManualBets (mergeDoc id f (Db.ultraManualBets d)) d.
Proof.
  unfold Db.updateUltraManualBet.
  destruct (updateDoc (Db.ultraManualBets d) id f) eqn:E; [|done].
  intros [= <-]. apply updateDoc_Some in E as [? ->]. done.
Qed.

Section RequestProcessing.
Import UsersAdmin.

(** X16.  Processing a listed loan or withdrawal request with success
    changes the totals by the request's amount where the type calls for
    it and not otherwise: an approved loan adds the amount to the points,
    a declined withdrawal returns the amount to the cash, an approved
    withdrawal and a declined loan move nothing.  The request leaves the
    pending list and the other requests stay listed as they were. *)
Theorem processed_request_moves_by_type request approve fee now d d' m :
  NoDup (docIds (Db.users d)) ->
  In request (Panels.requests d) ->
  processRequest request approve fee now d = (d', Message m) ->
  Totals.total Field.points (Db.users d') =
    Totals.total Field.points (Db.users d) +
    (if approve && bool_decide (Request.rtype (snd request) = Request.loan)
     then Request.amount (snd request) else 0) /\
  Totals.total Field.cash (Db.users d') =
    Totals.total Field.cash (Db.users d) +
    (if negb approve && bool_decide (Request.rtype (snd request) = Request.withdrawal)
     then Request.amount (snd request) else 0) /\
  (forall r, ~ In (fst request, r) (Panels.requests d')) /\
  (forall id r, id <> fst request ->
     In (id, r) (Panels.requests d') <-> In (id, r) (Panels.requests d)).
Proof.
  intros Hnd Hin Hrun. destruct request as [id rq]. cbn [fst snd].
  unfold Panels.requests in Hin. apply In_sortDesc in Hin.
  unfold getDocs in Hin. apply filter_In in Hin as [_ Hp]. simpl in Hp.
  apply andb_prop in Hp as [_ Hty].
  assert (Hlist : forall st fe d0,
            st <> Request.pending ->
            Db.requests d0 = mergeDoc id (Request.process st now None fe) (Db.requests d) ->
            (forall r, ~ In (id, r) (Panels.requests d0)) /\
            (forall id' r, id' <> id ->
               In (id', r) (Panels.requests d0) <-> In (id', r) (Panels.requests d))).
  { intros st fe d0 Hst Hd0. unfold Panels.requests. rewrite Hd0. split.
    - intros r. rewrite In_sortDesc. apply not_In_getDocs_mergeDoc.
      intros x. simpl. by destruct st.
    - intros id' r Hne. rewrite !In_sortDesc.
      by apply In_getDocs_mergeDoc_other. }
  revert Hrun. unfold processRequest. cbn [fst snd].
  destruct (getDoc (Db.users d) (Request.userId rq)) as [u|] eqn:Hu; [|done].
  destruct approve, (Request.rtype rq) eqn:Ht; try done;
    cbn [app commit applyWrite andb negb].
  - (* an approved withdrawal *)
    destruct (Db.updateRequest _ _ _) as [d1|] eqn:E1; [|done].
    apply Db_updateRequest_Some in E1 as [_ ->]. intros [= <- _].
    split_and!; [simpl; lia..| |]; by eapply (Hlist Request.approved (Some fee)).
  - (* an approved loan *)
    destruct (Db.updateUser _ _ _) as [d1|] eqn:E1; [|done].
    destruct (Db.updateRequest _ _ _) as [d2|] eqn:E2; [|done].
    apply Db_updateRequest_Some in E2 as [_ ->]. intros [= <- _].
    destruct (total_increment Field.points _ _ _ _ _ Hnd E1) as [Hp _].
    destruct (total_increment Field.cash _ _ _ _ _ Hnd E1) as [Hc _].
    split_and!; [simpl; rewrite ?Hp, ?Hc; simpl; lia..| |];
      apply Db_updateUser_Some in E1 as [_ ->];
      by eapply (Hlist Request.approved None).
  - (* a declined withdrawal *)
    destruct (Db.updateUser _ _ _) as [d1|] eqn:E1; [|done].
    destruct (Db.updateRequest _ _ _) as [d2|] eqn:E2; [|done].
    apply Db_updateRequest_Some in E2 as [_ ->]. intros [= <- _].
    destruct (total_increment Field.points _ _ _ _ _ Hnd E1) as [Hp _].
    destruct (total_increment Field.cash _ _ _ _ _ Hnd E1) as [Hc _].
    split_and!; [simpl; rewrite ?Hp, ?Hc; simpl; lia..| |];
      apply Db_updateUser_Some in E1 as [_ ->];
      by eapply (Hlist Request.declined None).
  - (* a declined loan *)
    destruct (Db.updateRequest _ _ _) as [d1|] eqn:E1; [|done].
    apply Db_updateRequest_Some in E1 as [_ ->]. intros [= <- _].
    split_and!; [simpl; lia..| |]; by eapply (Hlist Request.declined None).
Qed.

End RequestProcessing.

Lemma processed_request_moves_by_type_witness :
  Totals.total Field.points
    (Db.users (fst (UsersAdmin.processRequest ("l1", Sample2.loanRq) true
                      (Js.ofZ 0) 9000 Sample2.withLoan)))
  = 770.
Proof.
  destruct (processed_request_moves_by_type ("l1", Sample2.loanRq) true (Js.ofZ 0)
              9000 Sample2.withLoan
              (fst (UsersAdmin.processRequest ("l1", Sample2.loanRq) true
                      (Js.ofZ 0) 9000 Sample2.withLoan))
              [Txt "Request "; Txt "approved"; Txt " successfully"])
    as (H & _).
  - decide_by_compute.
  - left. reflexivity.
  - reflexivity.
  - rewrite H. reflexivity.
Defined.

(** ** The ultra manual list *)

Section UltraManualFacts.
Import UltraManual.

Lemma processBet_Message bet isWin winAmount now d d' m :
  processBet bet isWin winAmount now d = (d', Message m) ->
  let paid :=
    match winAmount with
    | Some w => if isWin then w else 0
    | None => 0
    end in
  let st := if isWin then UltraManualBet.won else UltraManualBet.lost in
  exists win,
    let d1 :=
      Db.set_ultraManualBets
        (mergeDoc (fst bet) (UltraManualBet.process st now win)
           (Db.ultraManualBets d)) d in
    paid = 0 /\ d' = d1 \/
    paid <> 0 /\
    exists u,
      getDoc (Db.users d) (UltraManualBet.userId (snd bet)) = Some u /\
      d' =
        Db.add_winner
          (Winner.mk (UltraManualBet.username (snd bet)) paid "Ultra Manual" now)
          (Db.log
             (Transaction.mk (UltraManualBet.userId (snd bet))
                (UltraManualBet.username (snd bet)) (Some paid) "ultra_manual_win"
                [Txt "Ultra Manual Game win: "; Int paid; Txt " points"]
                now None None)
             (Db.set_users
                (mergeDoc (UltraManualBet.userId (snd bet))
                   (User.increment Field.points paid) (Db.users d))
                d1)).
Proof.
  unfold processBet. destruct bet as [id b]. cbn [fst snd].
  destruct winAmount as [w|].
  - destruct isWin; cbn [andb].
    + destruct (w =? 0) eqn:Hw; cbn [negb commit applyWrite].
      * apply Z.eqb_eq in Hw as ->.
        destruct (Db.updateUltraManualBet _ _ _) as [d1|] eqn:E; [|done].
        apply Db_updateUltraManualBet_Some in E as [_ ->]. intros [= <- _].
        eexists. left. done.
      * apply Z.eqb_neq in Hw.
        destruct (Db.updateUltraManualBet _ _ _) as [d1|] eqn:E; [|done].
        apply Db_updateUltraManualBet_Some in E as [_ ->].
        destruct (Db.updateUser _ _ _) as [d2|] eqn:E2; [|done].
        apply Db_updateUser_Some in E2 as [[u Hu] ->].
        intros [= <- _]. eexists. right. split; [done|]. exists u. done.
    + cbn [commit applyWrite].
      destruct (Db.updateUltraManualBet _ _ _) as [d1|] eqn:E; [|done].
      apply Db_updateUltraManualBet_Some in E as [_ ->]. intros [= <- _].
      eexists. left. done.
  - cbn [commit applyWrite].
    destruct (Db.updateUltraManualBet _ _ _) as [d1|] eqn:E; [|done].
    apply Db_updateUltraManualBet_Some in E as [_ ->]. intros [= <- _].
    eexists. left. done.
Qed.

(** X17.  A processed ultra manual bet pays only a win with an amount
    other than 0: with one account per id the total of points grows by
    exactly that amount, one winner record is added for it, and the cash
    is untouched; a lost bet, or a win without an amount, moves nothing
    and records no winner.  Either way the bet leaves the pending list and
    every other bet stays listed as it was. *)
Theorem processed_bet_pays_only_wins bet isWin winAmount now d d' m :
  NoDup (docIds (Db.users d)) ->
  processBet bet isWin winAmount now d = (d', Message m) ->
  let paid :=
    match winAmount with
    | Some w => if isWin then w else 0
    | None => 0
    end in
  Totals.total Field.points (Db.users d') =
    Totals.total Field.points (Db.users d) + paid /\
  Totals.total Field.cash (Db.users d') = Totals.total Field.cash (Db.users d) /\
  Db.winners d' =
    Db.winners d ++
    (if decide (paid = 0) then []
     else [Winner.mk (UltraManualBet.username (snd bet)) paid "Ultra Manual" now]) /\
  (forall b, ~ In (fst bet, b) (Panels.bets d')) /\
  (forall id b, id <> fst bet ->
     In (id, b) (Panels.bets d') <-> In (id, b) (Panels.bets d)).
Proof.
  intros Hnd Hrun paid.
  apply processBet_Message in Hrun as (win & Hcase). fold paid in Hcase.
  assert (Hlist : forall d0,
            Db.ultraManualBets d0 =
              mergeDoc (fst bet)
                (UltraManualBet.process
                   (if isWin then UltraManualBet.won else UltraManualBet.lost)
                   now win) (Db.ultraManualBets d) ->
            (forall b, ~ In (fst bet, b) (Panels.bets d0)) /\
            (forall id b, id <> fst bet ->
               In (id, b) (Panels.bets d0) <-> In (id, b) (Panels.bets d))).
  { intros d0 Hd0. unfold Panels.bets. rewrite Hd0. split.
    - intros b. rewrite In_sortDesc. apply not_In_getDocs_mergeDoc.
      intros x. simpl. by destruct isWin.
    - intros id b Hne. rewrite !In_sortDesc.
      by apply In_getDocs_mergeDoc_other. }
  cbv zeta in Hcase. destruct Hcase as [[Hp ->]|[Hp (u & Hu & ->)]].
  - rewrite Hp. rewrite decide_True by done. simpl.
    split_and!; [lia|done|by rewrite app_nil_r|by apply Hlist..].
  - rewrite decide_False by done. simpl.
    rewrite !(total_mergeDoc _ _ _ _ u Hnd Hu), !balance_increment. simpl.
    split_and!; [lia|lia|done|by apply Hlist..].
Qed.

End UltraManualFacts.

Section UltraManualList.
Import UltraManual.

(** X18.  The decision buttons of the ultra manual list never move
    points.  An id that is not listed is an error; choosing a win only
    selects the listed bet for the amount dialog and writes nothing;
    choosing a loss marks the bet lost, with no account, transaction or
    winner record changed. *)
Theorem list_decision_moves_no_points bets betId isWin now d d' out sel :
  UltraManualAdmin.handleBet bets betId isWin now d = (d', out, sel) ->
  Db.users d' = Db.users d /\
  Db.transactions d' = Db.transactions d /\
  Db.winners d' = Db.winners d /\
  (UltraManualAdmin.findBet bets betId = None ->
   d' = d /\ out = Error [Txt "Bet not found"] /\ sel = None) /\
  (forall bet, UltraManualAdmin.findBet bets betId = Some bet ->
     In bet bets /\ fst bet = betId /\
     if isWin then d' = d /\ out = Quiet /\ sel = Some bet
     else sel = None /\
          (d' = d /\ (exists e, out = Error e) \/
           (exists e, out = Message e) /\
           Db.ultraManualBets d' =
             mergeDoc betId (UltraManualBet.process UltraManualBet.lost now None)
               (Db.ultraManualBets d))).
Proof.
  unfold UltraManualAdmin.handleBet, UltraManualAdmin.findBet.
  destruct (find _ bets) as [bet|] eqn:Hf.
  - apply find_some in Hf as [Hin Hid]. apply bool_decide_eq_true in Hid.
    destruct isWin.
    + intros [= <- <- <-]. split_and!; try done.
      intros bet' [= <-]. done.
    + destruct (processBet bet false None now d) as [d1 o] eqn:Hp.
      intros [= <- <- <-].
      assert (Hshape : d1 = d /\ (exists e, o = Error e) \/
                (exists e, o = Message e) /\
                d1 = Db.set_ultraManualBets
                       (mergeDoc betId
                          (UltraManualBet.process UltraManualBet.lost now None)
                          (Db.ultraManualBets d)) d).
      { revert Hp. unfold processBet. cbn [commit applyWrite]. rewrite Hid.
        destruct (Db.updateUltraManualBet _ _ _) as [d2|] eqn:E.
        - apply Db_updateUltraManualBet_Some in E as [_ ->].
          intros [= <- <-]. right. split; [by eexists|done].
        - intros [= <- <-]. left. split; [done|by eexists]. }
      destruct Hshape as [[-> He]|[Hm ->]]; simpl.
      * split_and!; try done. intros bet' [= <-]. split_and!; try done. by left.
      * split_and!; try done. intros bet' [= <-]. split_and!; try done. by right.
  - intros [= <- <- <-]. split_and!; try done.
Qed.

(** X19.  A win confirmed in the amount dialog always pays: the amount
    is above 0, and with one account per id the total of points grows by
    exactly that amount, with one transaction and one winner record for
    it; an amount that is missing or not above 0 is refused and nothing
    is written. *)
Theorem confirmed_win_pays_amount selectedBet winAmount now d d' out :
  NoDup (docIds (Db.users d)) ->
  handleWinSubmit selectedBet winAmount now d = (d', out) ->
  (exists bet w e,
      selectedBet = Some bet /\ winAmount = Some w /\ 0 < w /\
      out = Message e /\
      Totals.total Field.points (Db.users d') =
        Totals.total Field.points (Db.users d) + w /\
      Totals.total Field.cash (Db.users d') = Totals.total Field.cash (Db.users d) /\
      length (Db.transactions d') = S (length (Db.transactions d)) /\
      Db.winners d' =
        Db.winners d ++
        [Winner.mk (UltraManualBet.username (snd bet)) w "Ultra Manual" now])
  \/ d' = d /\ forall e, out <> Message e.
Proof.
  intros Hnd. unfold handleWinSubmit.
  destruct selectedBet as [bet|]; [|intros [= <- <-]; by right].
  destruct winAmount as [w|]; [|intros [= <- <-]; by right].
  destruct (w <=? 0) eqn:Hw; [intros [= <- <-]; by right|].
  apply Z.leb_gt in Hw. intros Hrun.
  destruct out as [e|e|].
  - left. exists bet, w, e.
    apply processBet_Message in Hrun as (win & Hcase). cbv zeta in Hcase.
    destruct Hcase as [[Hp _]|[_ (u & Hu & ->)]]; [lia|].
    simpl. rewrite !(total_mergeDoc _ _ _ _ u Hnd Hu), !balance_increment.
    simpl. rewrite length_app. simpl. split_and!; try done; lia.
  - right. split; [|done]. revert Hrun. unfold processBet.
    destruct (commit d _); by intros [= <-].
  - right. split; [|done]. revert Hrun. unfold processBet.
    destruct (commit d _); by intros [= <-].
Qed.

End UltraManualList.

Lemma processed_bet_pays_only_wins_witness :
  Totals.total Field.points
    (Db.users (fst (UltraManual.processBet ("u1", Sample2.ultraBet) true (Some 90)
                      9000 Sample2.withUltraBet)))
  = 790.
Proof.
  destruct (processed_bet_pays_only_wins ("u1", Sample2.ultraBet) true (Some 90)
              9000 Sample2.withUltraBet
              (fst (UltraManual.processBet ("u1", Sample2.ultraBet) true (Some 90)
                      9000 Sample2.withUltraBet))
              [Txt "Bet "; Txt "approved"; Txt " successfully"])
    as (H & _).
  - decide_by_compute.
  - reflexivity.
  - rewrite H. reflexivity.
Defined.

Lemma list_decision_moves_no_points_witness :
  Db.users (fst (fst (UltraManualAdmin.handleBet (Panels.bets Sample2.withUltraBet)
                        "u1" false 9000 Sample2.withUltraBet)))
  = Db.users Sample2.withUltraBet.
Proof.
  eapply (list_decision_moves_no_points (Panels.bets Sample2.withUltraBet)
            "u1" false 9000 Sample2.withUltraBet _
            (Message [Txt "Bet "; Txt "declined"; Txt " successfully"]) None).
  reflexivity.
Defined.

Lemma confirmed_win_pays_amount_witness :
  (exists bet w e,
      Some ("u1", Sample2.ultraBet) = Some bet /\ Some 90 = Some w /\ 0 < w /\
      snd (UltraManual.handleWinSubmit (Some ("u1", Sample2.ultraBet)) (Some 90)
             9000 Sample2.withUltraBet) = Message e /\
      Totals.total Field.points
        (Db.users (fst (UltraManual.handleWinSubmit (Some ("u1", Sample2.ultraBet))
                          (Some 90) 9000 Sample2.withUltraBet))) =
        Totals.total Field.points (Db.users Sample2.withUltraBet) + w /\
      Totals.total Field.cash
        (Db.users (fst (UltraManual.handleWinSubmit (Some ("u1", Sample2.ultraBet))
                          (Some 90) 9000 Sample2.withUltraBet))) =
        Totals.total Field.cash (Db.users Sample2.withUltraBet) /\
      length (Db.transactions
                (fst (UltraManual.handleWinSubmit (Some ("u1", Sample2.ultraBet))
                        (Some 90) 9000 Sample2.withUltraBet))) =
        S (length (Db.transactions Sample2.withUltraBet)) /\
      Db.winners (fst (UltraManual.handleWinSubmit (Some ("u1", Sample2.ultraBet))
                         (Some 90) 9000 Sample2.withUltraBet)) =
        Db.winners Sample2.withUltraBet ++
        [Winner.mk (UltraManualBet.username (snd bet)) w "Ultra Manual" 9000])
  \/ fst (UltraManual.handleWinSubmit (Some ("u1", Sample2.ultraBet)) (Some 90)
            9000 Sample2.withUltraBet) = Sample2.withUltraBet /\
     forall e, snd (UltraManual.handleWinSubmit (Some ("u1", Sample2.ultraBet))
                      (Some 90) 9000 Sample2.withUltraBet) <> Message e.
Proof.
  apply (confirmed_win_pays_amount (Some ("u1", Sample2.ultraBet)) (Some 90) 9000
           Sample2.withUltraBet).
  - decide_by_compute.
  - reflexivity.
Defined.

(** ** Approval and the return shown *)

Section ApprovalFacts.
Import Investments.

Lemma accepted_rate_truthy rate :
  Js.isNaN rate || Js.leb rate (Js.ofZ 0) = false ->
  Js.positive rate = true /\ InvestmentsAdmin.falsy rate = false.
Proof.
  destruct rate as [s|s| |s m e]; simpl; try done.
  - by destruct s.
  - by destruct s.
Qed.


End ApprovalFacts.


(** ** The countdown *)

Section CountdownFacts.
Import Countdown.

Lemma countdown_parts releaseTime currentTime :
  match countdown releaseTime currentTime with
  | Ready => releaseTime <= currentTime
  | Left days hours minutes seconds =>
      currentTime < releaseTime /\
      0 <= hours < 24 /\ 0 <= minutes < 60 /\ 0 <= seconds < 60 /\
      (forall n, days = Some n -> 0 < n) /\
      (days = None <-> releaseTime - currentTime < 1000 * 60 * 60 * 24) /\
      shown (Left days hours minutes seconds) <= releaseTime - currentTime
        < shown (Left days hours minutes seconds) + 1000
  end.
Proof.
  unfold countdown. set (t := releaseTime - currentTime).
  destruct (t <=? 0) eqn:Ht; [apply Z.leb_le in Ht; lia|].
  apply Z.leb_gt in Ht.
  assert (Hd : t = (1000 * 60 * 60 * 24) * (t / (1000 * 60 * 60 * 24))
               + t mod (1000 * 60 * 60 * 24)) by (apply Z.div_mod; lia).
  assert (Hh : t mod (1000 * 60 * 60 * 24) =
               (1000 * 60 * 60) * (t mod (1000 * 60 * 60 * 24) / (1000 * 60 * 60))
               + (t mod (1000 * 60 * 60 * 24)) mod (1000 * 60 * 60))
    by (apply Z.div_mod; lia).
  assert (Hhm : (t mod (1000 * 60 * 60 * 24)) mod (1000 * 60 * 60)
                = t mod (1000 * 60 * 60)).
  { apply Z.mod_mod_divide. exists 24. lia. }
  assert (Hm : t mod (1000 * 60 * 60) =
               (1000 * 60) * (t mod (1000 * 60 * 60) / (1000 * 60))
               + (t mod (1000 * 60 * 60)) mod (1000 * 60))
    by (apply Z.div_mod; lia).
  assert (Hms : (t mod (1000 * 60 * 60)) mod (1000 * 60) = t mod (1000 * 60)).
  { apply Z.mod_mod_divide. exists 60. lia. }
  assert (Hs : t mod (1000 * 60) =
               1000 * (t mod (1000 * 60) / 1000) + (t mod (1000 * 60)) mod 1000)
    by (apply Z.div_mod; lia).
  pose proof (Z.mod_pos_bound t (1000 * 60 * 60 * 24) ltac:(lia)) as B1.
  pose proof (Z.mod_pos_bound t (1000 * 60 * 60) ltac:(lia)) as B2.
  pose proof (Z.mod_pos_bound t (1000 * 60) ltac:(lia)) as B3.
  pose proof (Z.mod_pos_bound (t mod (1000 * 60)) 1000 ltac:(lia)) as B4.
  pose proof (Z.div_pos t (1000 * 60 * 60 * 24) ltac:(lia) ltac:(lia)) as D0.
  set (days := t / (1000 * 60 * 60 * 24)) in *.
  set (hours := t mod (1000 * 60 * 60 * 24) / (1000 * 60 * 60)) in *.
  set (minutes := t mod (1000 * 60 * 60) / (1000 * 60)) in *.
  set (seconds := t mod (1000 * 60) / 1000) in *.
  rewrite Hhm in Hh. rewrite Hms in Hm.
  destruct (0 <? days) eqn:Hdays;
    [apply Z.ltb_lt in Hdays|apply Z.ltb_ge in Hdays]; simpl.
  - split_and!; try lia.
    + by intros n [= <-].
    + split; [done|lia].
  - split_and!; try lia.
    + done.
    + split; [lia|done].
Qed.

(** X21.  Every entry of the countdown table belongs to an approved
    investment of the list with a release date.  It reads 'Ready for
    payout!' exactly when the release time has come; otherwise hours are
    below 24, minutes and seconds below 60, the days are shown when at
    least one full day is left, and the time shown is the time left
    rounded down to the second. *)
Theorem countdown_is_time_left investments now id c :
  updateCountdowns investments now !! id = Some c ->
  exists inv releaseTime,
    In (id, inv) investments /\
    Investment.istatus inv = Investment.approved /\
    Investment.releaseDate inv = Some releaseTime /\
    c = countdown releaseTime now /\
    (c = Ready <-> releaseTime <= now) /\
    match c with
    | Ready => True
    | Left days hours minutes seconds =>
        0 <= hours < 24 /\ 0 <= minutes < 60 /\ 0 <= seconds < 60 /\
        (forall n, days = Some n -> 0 < n) /\
        (days = None <-> releaseTime - now < 1000 * 60 * 60 * 24) /\
        shown c <= releaseTime - now < shown c + 1000
    end.
Proof.
  unfold updateCountdowns.
  assert (Hgen : forall acc : gmap DocId t,
    foldl
      (fun newCountdowns investment =>
         match Investment.istatus (snd investment),
               Investment.releaseDate (snd investment) with
         | Investment.approved, Some releaseTime =>
             <[fst investment := countdown releaseTime now]> newCountdowns
         | _, _ => newCountdowns
         end) acc investments !! id = Some c ->
    acc !! id = Some c \/
    exists inv releaseTime,
      In (id, inv) investments /\
      Investment.istatus inv = Investment.approved /\
      Investment.releaseDate inv = Some releaseTime /\
      c = countdown releaseTime now).
  { induction investments as [|[i inv] rest IH]; intros acc; simpl; [by left|].
    intros Hl. apply IH in Hl as [Hl|(inv' & r & Hin & ?)].
    - destruct (Investment.istatus inv) eqn:Hst; try by left.
      destruct (Investment.releaseDate inv) as [r|] eqn:Hr; [|by left].
      destruct (decide (i = id)) as [->|Hne].
      + rewrite lookup_insert_eq in Hl. injection Hl as <-.
        right. exists inv, r. split_and!; try done. by left.
      + rewrite lookup_insert_ne in Hl by done. by left.
    - right. exists inv', r. split; [by right|done]. }
  intros Hl. apply Hgen in Hl as [Hl|(inv & r & Hin & Hst & Hr & ->)].
  { by rewrite lookup_empty in Hl. }
  exists inv, r. split_and!; try done.
  - pose proof (countdown_parts r now) as Hp.
    destruct (countdown r now); [done|]. split; [done|lia].
  - pose proof (countdown_parts r now) as Hp.
    destruct (countdown r now) eqn:Hc; [done|].
    destruct Hp as (_ & ? & ? & ? & ? & ? & ?). done.
Qed.

End CountdownFacts.

Lemma countdown_is_time_left_witness :
  exists inv releaseTime,
    In ("i1", inv) [("i1", Sample.invested)] /\
    Investment.istatus inv = Investment.approved /\
    Investment.releaseDate inv = Some releaseTime /\
    Countdown.Left None 0 0 7 = Countdown.countdown releaseTime 1500 /\
    (Countdown.Left None 0 0 7 = Countdown.Ready <-> releaseTime <= 1500) /\
    (0 <= 0 < 24 /\ 0 <= 0 < 60 /\ 0 <= 7 < 60 /\
     (forall n, @None Z = Some n -> 0 < n) /\
     (@None Z = None <-> releaseTime - 1500 < 1000 * 60 * 60 * 24) /\
     Countdown.shown (Countdown.Left None 0 0 7) <= releaseTime - 1500
       < Countdown.shown (Countdown.Left None 0 0 7) + 1000).
Proof.
  apply (countdown_is_time_left [("i1", Sample.invested)] 1500 "i1"
           (Countdown.Left None 0 0 7)).
  reflexivity.
Defined.

(** ** VIP slots *)

Section VipSlots.
Import VipAdmin.

Lemma maxOf_five_levels u level : 1 <= level <= 5 -> is_Some (maxOf u level).
Proof.
  intros Hl. unfold maxOf.
  assert (Hd : is_Some (defaultMaxReferrals !! level)).
  { assert (level = 1 \/ level = 2 \/ level = 3 \/ level = 4 \/ level = 5)
      as [->|[->|[->|[->| ->]]]] by lia; by eexists. }
  destruct (VipData.maxReferrals u !! level) as [n|]; [|done].
  by destruct (n =? 0).
Qed.

Lemma splice1_last {A} (l : list A) x : splice1 (Z.of_nat (length l)) (l ++ [x]) = l.
Proof.
  unfold splice1. rewrite length_app. simpl.
  destruct (Z.of_nat (length l) <? 0) eqn:Hneg; [apply Z.ltb_lt in Hneg; lia|].
  rewrite Z.min_l by lia. rewrite Nat2Z.id.
  rewrite take_app_length. rewrite drop_ge by (rewrite length_app; simpl; lia).
  by rewrite app_nil_r.
Qed.

Lemma splice1_minus_one {A} (l : list A) x : splice1 (-1) (l ++ [x]) = l.
Proof.
  unfold splice1. rewrite length_app. simpl.
  replace (Z.max (Z.of_nat (length l + 1) + -1) 0) with (Z.of_nat (length l)) by lia.
  rewrite Nat2Z.id.
  rewrite take_app_length. rewrite drop_ge by (rewrite length_app; simpl; lia).
  by rewrite app_nil_r.
Qed.

Lemma findUser_vipUsers c id stored :
  NoDup (docIds c) ->
  getDoc c id = Some stored ->
  0 < VipData.vipLevel stored ->
  findUser (vipUsers c) id = Some (id, view stored).
Proof.
  intros Hnd Hs Hlvl. unfold findUser.
  destruct (find _ (vipUsers c)) as [[i u]|] eqn:Hf.
  - apply find_some in Hf as [Hin Hid]. apply bool_decide_eq_true in Hid.
    simpl in Hid. subst i. unfold vipUsers in Hin. apply In_sortDesc in Hin.
    apply in_map_iff in Hin as ([i s] & [= -> <-] & Hin).
    apply filter_In in Hin as [Hin _].
    apply (In_getDoc _ _ _ Hnd) in Hin. rewrite Hs in Hin. by injection Hin as <-.
  - exfalso.
    assert (Hin : In (id, view stored) (vipUsers c)).
    { unfold vipUsers. apply In_sortDesc. apply in_map_iff.
      exists (id, stored). split; [done|]. apply filter_In. split.
      - by apply getDoc_In.
      - simpl. by apply Z.ltb_lt. }
    pose proof (find_none _ _ Hf _ Hin) as Hno. simpl in Hno.
    by rewrite bool_decide_true in Hno.
Qed.

Lemma handleAddSlot_Message selectedUser selectedVipLevel newSlotName c c' m :
  handleAddSlot selectedUser selectedVipLevel newSlotName c = (c', Message m) ->
  exists id u level stored,
    selectedUser = Some (id, u) /\ selectedVipLevel = Some level /\
    getDoc c id = Some stored /\
    Js.trim newSlotName <> "" /\
    (forall cap, maxOf u level = Some cap ->
       Z.of_nat (length (default [] (VipData.referrals u !! level))) < cap) /\
    c' = mergeDoc id
           (VipData.set_slots level
              (default [] (VipData.referrals u !! level) ++ [Js.trim newSlotName]))
           c.
Proof.
  unfold handleAddSlot.
  destruct selectedUser as [[id u]|]; [|done].
  destruct selectedVipLevel as [level|]; [|done].
  destruct (Js.nonempty (Js.trim newSlotName)) eqn:Hname; [|done]. simpl.
  destruct (maxOf u level) as [cap|] eqn:Hmax.
  - destruct (cap <=? _) eqn:Hfull; [done|]. apply Z.leb_gt in Hfull.
    unfold updateDoc. destruct (getDoc c id) as [stored|] eqn:Hs; [|done].
    intros [= <- _]. exists id, u, level, stored. split_and!; try done.
    + intros Heq. rewrite Heq in Hname. done.
    + intros cap' Heq. rewrite Hmax in Heq. injection Heq as <-. lia.
  - unfold updateDoc. destruct (getDoc c id) as [stored|] eqn:Hs; [|done].
    intros [= <- _]. exists id, u, level, stored. split_and!; try done.
    + intros Heq. rewrite Heq in Hname. done.
    + intros cap' Heq. rewrite Hmax in Heq. done.
Qed.


(** X23.  Adding a slot and then deleting the last slot of that level
    from the refreshed list, by its index or by index -1, leaves the level
    with the slots the administrator started from. *)
Theorem add_then_delete_restores id u level newSlotName c c' m stored slotIndex :
  NoDup (docIds c) ->
  getDoc c id = Some stored ->
  0 < VipData.vipLevel stored ->
  handleAddSlot (Some (id, u)) (Some level) newSlotName c = (c', Message m) ->
  slotIndex = Z.of_nat (length (default [] (VipData.referrals u !! level)))
  \/ slotIndex = -1 ->
  exists c'' restored,
    handleDeleteSlot (vipUsers c') id level slotIndex true c' =
      (c'', Message [Txt "Slot deleted successfully"]) /\
    getDoc c'' id = Some restored /\
    VipData.referrals restored !! level =
      Some (default [] (VipData.referrals u !! level)) /\
    (forall other, other <> level ->
       VipData.referrals restored !! other = VipData.referrals stored !! other) /\
    (forall id', id' <> id -> getDoc c'' id' = getDoc c id').
Proof.
  intros Hnd Hs Hlvl Hrun Hidx.
  apply handleAddSlot_Message in Hrun
    as (id0 & u0 & level0 & stored0 & [= <- <-] & [= <-] & Hs0 & _ & _ & ->).
  set (current := default [] (VipData.referrals u !! level)) in *.
  set (added := VipData.set_slots level (current ++ [Js.trim newSlotName])).
  assert (Hs' : getDoc (mergeDoc id added c) id = Some (added stored))
    by by rewrite getDoc_mergeDoc, decide_True, Hs.
  unfold handleDeleteSlot. cbn [negb].
  rewrite (findUser_vipUsers _ id (added stored)); [|by rewrite docIds_mergeDoc|done|done].
  cbn [snd]. unfold updateDoc. rewrite Hs'.
  assert (Hview : VipData.referrals (view (added stored)) !! level
                  = Some (current ++ [Js.trim newSlotName])).
  { simpl. apply lookup_union_Some_l. by rewrite lookup_insert_eq. }
  rewrite Hview. simpl.
  assert (Hsp : splice1 slotIndex (current ++ [Js.trim newSlotName]) = current).
  { destruct Hidx as [-> | ->]; [apply splice1_last|apply splice1_minus_one]. }
  rewrite Hsp. eexists _, _. split; [reflexivity|].
  rewrite getDoc_mergeDoc, decide_True, Hs' by done. simpl.
  split_and!; try done.
  - simpl. by rewrite lookup_insert_eq.
  - intros other Hne. unfold added. simpl. by rewrite !lookup_insert_ne.
  - intros id' Hne. by rewrite !getDoc_mergeDoc, !decide_False.
Qed.

(** X24.  A reset that goes through stores level 0 with every level's
    slots empty, so the user is no longer among the listed VIP users, and
    deleting a slot of that user from the refreshed list does nothing. *)
Theorem reset_user_leaves_vip_list userId c c' m :
  handleResetVIP userId true c = (c', Message m) ->
  (exists stored,
     getDoc c' userId = Some stored /\
     VipData.vipLevel stored = 0 /\
     forall level, 1 <= level <= 5 -> VipData.referrals stored !! level = Some []) /\
  (forall u, ~ In (userId, u) (vipUsers c')) /\
  (forall level slotIndex,
     handleDeleteSlot (vipUsers c') userId level slotIndex true c' = (c', Quiet)) /\
  (forall id, id <> userId -> getDoc c' id = getDoc c id).
Proof.
  unfold handleResetVIP. cbn [negb]. unfold updateDoc.
  destruct (getDoc c userId) as [stored|] eqn:Hs; [|done]. intros [= <- _].
  assert (Hnot : forall u,
            ~ In (userId, u)
                (vipUsers (mergeDoc userId
                   (fun u => VipData.mk (VipData.username u) 0 defaultReferrals
                               defaultMaxReferrals defaultRewards) c))).
  { intros u Hin. unfold vipUsers in Hin. apply In_sortDesc in Hin.
    apply in_map_iff in Hin as ([i s] & [= -> <-] & Hin).
    by apply not_In_getDocs_mergeDoc in Hin. }
  split_and!.
  - eexists. rewrite getDoc_mergeDoc, decide_True, Hs by done.
    split; [done|]. split; [done|]. intros level Hl. simpl.
    assert (level = 1 \/ level = 2 \/ level = 3 \/ level = 4 \/ level = 5)
      as [->|[->|[->|[->| ->]]]] by lia; done.
  - done.
  - intros level slotIndex. unfold handleDeleteSlot. cbn [negb].
    destruct (findUser _ userId) as [[i u]|] eqn:Hf; [|done].
    apply find_some in Hf as [Hin Hid]. apply bool_decide_eq_true in Hid.
    simpl in Hid. subst i. by apply Hnot in Hin.
  - intros id Hne. by rewrite getDoc_mergeDoc, decide_False.
Qed.

End VipSlots.


Lemma add_then_delete_restores_witness :
  exists c'' restored,
    VipAdmin.handleDeleteSlot
      (VipAdmin.vipUsers
         (fst (VipAdmin.handleAddSlot (Some ("a", VipAdmin.view VipAdmin.sampleVip))
                 (Some 1) " z " [("a", VipAdmin.sampleVip)])))
      "a" 1 (-1) true
      (fst (VipAdmin.handleAddSlot (Some ("a", VipAdmin.view VipAdmin.sampleVip))
              (Some 1) " z " [("a", VipAdmin.sampleVip)])) =
      (c'', Message [Txt "Slot deleted successfully"]) /\
    getDoc c'' "a" = Some restored /\
    VipData.referrals restored !! 1 =
      Some (default [] (VipData.referrals (VipAdmin.view VipAdmin.sampleVip) !! 1)) /\
    (forall other, other <> 1 ->
       VipData.referrals restored !! other =
       VipData.referrals VipAdmin.sampleVip !! other) /\
    (forall id', id' <> "a" ->
       getDoc c'' id' = getDoc [("a", VipAdmin.sampleVip)] id').
Proof.
  apply (add_then_delete_restores "a" (VipAdmin.view VipAdmin.sampleVip) 1 " z "
           [("a", VipAdmin.sampleVip)] _ [Txt "Slot added successfully"]
           VipAdmin.sampleVip (-1)).
  - decide_by_compute.
  - reflexivity.
  - reflexivity.
  - reflexivity.
  - right. reflexivity.
Defined.

Lemma reset_user_leaves_vip_list_witness :
  (exists stored,
     getDoc (fst (VipAdmin.handleResetVIP "a" true [("a", VipAdmin.sampleVip)])) "a"
       = Some stored /\
     VipData.vipLevel stored = 0 /\
     forall level, 1 <= level <= 5 -> VipData.referrals stored !! level = Some []) /\
  (forall u,
     ~ In ("a", u)
         (VipAdmin.vipUsers
            (fst (VipAdmin.handleResetVIP "a" true [("a", VipAdmin.sampleVip)])))) /\
  (forall level slotIndex,
     VipAdmin.handleDeleteSlot
       (VipAdmin.vipUsers
          (fst (VipAdmin.handleResetVIP "a" true [("a", VipAdmin.sampleVip)])))
       "a" level slotIndex true
       (fst (VipAdmin.handleResetVIP "a" true [("a", VipAdmin.sampleVip)]))
     = (fst (VipAdmin.handleResetVIP "a" true [("a", VipAdmin.sampleVip)]), Quiet)) /\
  (forall id, id <> "a" ->
     getDoc (fst (VipAdmin.handleResetVIP "a" true [("a", VipAdmin.sampleVip)])) id
     = getDoc [("a", VipAdmin.sampleVip)] id).
Proof.
  apply (reset_user_leaves_vip_list "a" [("a", VipAdmin.sampleVip)] _
           [Txt "VIP data reset successfully"]).
  reflexivity.
Defined.

(** ** The service worker and the connectivity checks *)

Section Connectivity.
Import ServiceWorker.

(** X25.  The worker answers every request for /api/ping itself with
    pong, status 200, without asking the network.  So on a page the worker
    controls, the periodic check of the application never turns the app
    offline, the offline screen's own check always takes the screen down,
    and a manual retry that is not throttled always reloads, whether the
    network is reachable or not; without the worker a failed ping turns
    the app offline. *)
Theorem worker_always_answers_ping network cache :
  (forall m, onFetch network cache (mkRequest "/api/ping" m) = (Made, pong)) /\
  (forall isOffline,
     App.checkServerConnection (fetch true network cache ping) isOffline
     = isOffline) /\
  (forall s,
     OfflineScreen.isOffline
       (OfflineScreen.checkConnection (fetch true network cache ping) s) = false) /\
  (forall now s,
     2000 <= now - OfflineScreen.lastRetryTime s ->
     OfflineScreen.handleManualRetry (fetch true network cache ping) now s
     = (OfflineScreen.mk false 0 now, true)) /\
  (forall isOffline,
     network ping = None ->
     App.checkServerConnection (fetch false network cache ping) isOffline = true).
Proof.
  split_and!.
  - done.
  - done.
  - intros [[] n t]; done.
  - intros now s Hnow. unfold OfflineScreen.handleManualRetry.
    by rewrite (proj2 (Z.ltb_ge _ _) Hnow).
  - intros isOffline Hdown. unfold fetch. by rewrite Hdown.
Qed.


End Connectivity.

Section Retry.
Import OfflineScreen.

(** X27.  A manual retry within two seconds of the last one changes
    nothing and sends nothing; otherwise it records the time and either
    restores the screen (count back to 0, page reloaded) or counts one
    more failed attempt.  Hence of two clicks less than two seconds apart
    the second one has no effect. *)
Theorem manual_retry_is_throttled response response2 now now2 s :
  2000 <= now - lastRetryTime s ->
  now <= now2 < now + 2000 ->
  let after := fst (handleManualRetry response now s) in
  lastRetryTime after = now /\
  (retryCount after = 0 /\ isOffline after = false /\
   snd (handleManualRetry response now s) = true
   \/ retryCount after = retryCount s + 1 /\ isOffline after = isOffline s /\
      snd (handleManualRetry response now s) = false) /\
  handleManualRetry response2 now2 after = (after, false).
Proof.
  intros Hfirst Hsecond after.
  assert (Hlast : lastRetryTime after = now).
  { unfold after, handleManualRetry. rewrite (proj2 (Z.ltb_ge _ _) Hfirst).
    destruct response as [r|]; [destruct (ServiceWorker.ok r)|]; done. }
  split_and!.
  - done.
  - unfold after, handleManualRetry. rewrite (proj2 (Z.ltb_ge _ _) Hfirst).
    destruct response as [r|]; [destruct (ServiceWorker.ok r)|]; simpl; auto.
  - unfold handleManualRetry at 1. rewrite Hlast.
    by rewrite (proj2 (Z.ltb_lt _ _)) by lia.
Qed.

End Retry.

Section Shell.
Import App.

Lemma render_panel locationPathname isAdmin panel :
  locationPathname <> "/dice-link" ->
  render locationPathname (Some isAdmin) (Some panel) =
  match panel with
  | home => [UserPanel]
  | user => [HomePanel]
  | game => [GamePanel]
  | admin => if isAdmin then [AdminPanel] else []
  end.
Proof.
  intros Hpath. apply String.eqb_neq in Hpath. unfold render. rewrite Hpath.
  by destruct panel, isAdmin.
Qed.

Lemma handleHash_admin locationHash isAdmin :
  handleHash locationHash isAdmin = admin <->
  isAdmin = true /\ slice1 locationHash = "admin".
Proof.
  unfold handleHash.
  destruct (String.eqb (slice1 locationHash) "home") eqn:Hh.
  { apply String.eqb_eq in Hh. rewrite Hh. split; [done|]. by intros [_ ?]. }
  destruct (String.eqb (slice1 locationHash) "user") eqn:Hu.
  { apply String.eqb_eq in Hu. rewrite Hu. split; [done|]. by intros [_ ?]. }
  destruct (String.eqb (slice1 locationHash) "game") eqn:Hg.
  { apply String.eqb_eq in Hg. rewrite Hg. split; [done|]. by intros [_ ?]. }
  destruct (String.eqb (slice1 locationHash) "admin") eqn:Ha.
  - apply String.eqb_eq in Ha. destruct isAdmin; simpl; [done|].
    split; [done|]. by intros [? _].
  - apply String.eqb_neq in Ha. simpl. split; [done|]. by intros [_ ?].
Qed.

Lemma handleHash_home locationHash isAdmin :
  slice1 locationHash <> "user" -> slice1 locationHash <> "game" ->
  ~ (isAdmin = true /\ slice1 locationHash = "admin") ->
  handleHash locationHash isAdmin = home.
Proof.
  intros Hu Hg Ha. unfold handleHash.
  destruct (String.eqb (slice1 locationHash) "home"); [done|].
  apply String.eqb_neq in Hu, Hg. rewrite Hu, Hg.
  destruct (String.eqb (slice1 locationHash) "admin") eqn:Hadm; [|done].
  apply String.eqb_eq in Hadm. destruct isAdmin; [|done].
  exfalso. by apply Ha.
Qed.

(** X28.  Whatever the hash, a signed-in user is shown exactly one panel
    after [handleHash], and the administration panel only when the user is
    an administrator and the hash is #admin; an unknown hash, and #admin
    for anyone else, lead to the panel of the hash #home.  The path
    /dice-link renders the dice link whether or not anyone is signed
    in. *)
Theorem admin_panel_needs_admin locationPathname locationHash isAdmin :
  locationPathname <> "/dice-link" ->
  let panel := handleHash locationHash isAdmin in
  render "/dice-link" None None = [DiceGameLink] /\
  length (render locationPathname (Some isAdmin) (Some panel)) = 1%nat /\
  (In AdminPanel (render locationPathname (Some isAdmin) (Some panel)) <->
   isAdmin = true /\ locationHash <> "" /\ slice1 locationHash = "admin") /\
  (slice1 locationHash <> "user" -> slice1 locationHash <> "game" ->
   ~ (isAdmin = true /\ slice1 locationHash = "admin") ->
   render locationPathname (Some isAdmin) (Some panel) = [UserPanel]).
Proof.
  intros Hpath panel. split; [done|].
  rewrite (render_panel _ _ _ Hpath).
  pose proof (handleHash_admin locationHash isAdmin) as Hadm. fold panel in Hadm.
  split_and!.
  - destruct panel; try done. destruct Hadm as [Hadm _].
    by destruct Hadm as [-> _].
  - split.
    + intros Hin.
      assert (Hp : panel = admin).
      { destruct panel; try done; by destruct Hin as [|[]]. }
      apply Hadm in Hp as [-> Hs]. split_and!; try done.
      intros Hempty. by rewrite Hempty in Hs.
    + intros (Ha & _ & Hs). destruct Hadm as [_ Hadm].
      rewrite Hadm by done. rewrite Ha. by left.
  - intros Hu Hg Hno. unfold panel. by rewrite handleHash_home.
Qed.

End Shell.


Lemma manual_retry_is_throttled_witness :
  OfflineScreen.handleManualRetry None 6000
    (fst (OfflineScreen.handleManualRetry None 5000 (OfflineScreen.mk true 0 0)))
  = (fst (OfflineScreen.handleManualRetry None 5000 (OfflineScreen.mk true 0 0)),
     false).
Proof.
  eapply (manual_retry_is_throttled None None 5000 6000 (OfflineScreen.mk true 0 0)).
  - simpl. lia.
  - lia.
Defined.

Lemma admin_panel_needs_admin_witness :
  App.render "/dice-link" None None = [App.DiceGameLink] /\
  length (App.render "/" (Some false) (Some (App.handleHash "#admin" false))) = 1%nat /\
  (In App.AdminPanel
      (App.render "/" (Some false) (Some (App.handleHash "#admin" false))) <->
   false = true /\ "#admin" <> "" /\ App.slice1 "#admin" = "admin") /\
  (App.slice1 "#admin" <> "user" -> App.slice1 "#admin" <> "game" ->
   ~ (false = true /\ App.slice1 "#admin" = "admin") ->
   App.render "/" (Some false) (Some (App.handleHash "#admin" false))
   = [App.UserPanel]).
Proof.
  apply (admin_panel_needs_admin "/" "#admin" false).
  discriminate.
Defined.

(** ** A new dice round *)

Section NewRound.
Import Dice.

(** X29.  Creating a round stores one more round, open, with no color on
    any number and no bet in it, and touches nothing else; the colors the
    administrator's form is reset to cannot settle it: until a color is
    set, closing the new round is refused and changes nothing. *)
Theorem new_round_needs_a_color newId now d d' out :
  Panels.createRound newId now d = (d', out) ->
  ~ In newId (docIds (Db.diceRounds d)) ->
  (forall bet, In bet (Db.diceBets d) -> DiceBet.roundId (snd bet) <> newId) ->
  exists r,
    Db.diceRounds d' = Db.diceRounds d ++ [(newId, r)] /\
    getDoc (Db.diceRounds d') newId = Some r /\
    DiceRound.rstatus r = DiceRound.open /\
    (forall n, colorOf (DiceRound.numberColors r) n = DiceColor.none) /\
    hasWinner (DiceRound.numberColors r) = false /\
    betsOfRound d' newId = [] /\
    Db.users d' = Db.users d /\ Db.diceBets d' = Db.diceBets d /\
    Db.transactions d' = Db.transactions d /\
    forall t,
      closeRoundAndResolve (Some (newId, r)) (DiceRound.numberColors r) t d' =
        (d', Error [Txt "Set at least one color for a number."]).
Proof.
  unfold Panels.createRound. intros [= <- _] Hfresh Hbets.
  eexists. split; [reflexivity|]. simpl.
  split_and!; try done.
  - unfold addDoc. induction (Db.diceRounds d) as [|[i x] c IH]; simpl.
    + by rewrite decide_True.
    + rewrite decide_False; [apply IH|].
      * intros Hin. apply Hfresh. by right.
      * intros ->. apply Hfresh. by left.
  - intros n. unfold colorOf.
    destruct (decide (n = 1)) as [->|]; [done|].
    destruct (decide (n = 2)) as [->|]; [done|].
    destruct (decide (n = 3)) as [->|]; [done|].
    destruct (decide (n = 4)) as [->|]; [done|].
    destruct (decide (n = 5)) as [->|]; [done|].
    destruct (decide (n = 6)) as [->|]; [done|].
    simpl. by rewrite !lookup_insert_ne, lookup_empty by done.
  - unfold betsOfRound, getDocs. simpl.
    induction (Db.diceBets d) as [|bet c IH]; simpl; [done|].
    rewrite bool_decide_false by (apply Hbets; by left).
    apply IH. intros b Hin. apply Hbets. by right.
Qed.

End NewRound.

Lemma new_round_needs_a_color_witness :
  exists r,
    Db.diceRounds (fst (Panels.createRound "r2" 5000 Sample.start)) =
      Db.diceRounds Sample.start ++ [("r2", r)] /\
    getDoc (Db.diceRounds (fst (Panels.createRound "r2" 5000 Sample.start))) "r2"
      = Some r /\
    DiceRound.rstatus r = DiceRound.open /\
    (forall n, Dice.colorOf (DiceRound.numberColors r) n = DiceColor.none) /\
    Dice.hasWinner (DiceRound.numberColors r) = false /\
    Dice.betsOfRound (fst (Panels.createRound "r2" 5000 Sample.start)) "r2" = [] /\
    Db.users (fst (Panels.createRound "r2" 5000 Sample.start)) = Db.users Sample.start /\
    Db.diceBets (fst (Panels.createRound "r2" 5000 Sample.start))
      = Db.diceBets Sample.start /\
    Db.transactions (fst (Panels.createRound "r2" 5000 Sample.start))
      = Db.transactions Sample.start /\
    forall t,
      Dice.closeRoundAndResolve (Some ("r2", r)) (DiceRound.numberColors r) t
        (fst (Panels.createRound "r2" 5000 Sample.start)) =
        (fst (Panels.createRound "r2" 5000 Sample.start),
         Error [Txt "Set at least one color for a number."]).
Proof.
  apply (new_round_needs_a_color "r2" 5000 Sample.start _
           (Message [Txt "New round created!"])).
  - reflexivity.
  - simpl. intros [H|[]]. discriminate H.
  - intros bet [<-|[<-|[]]]; discriminate.
Defined.

(** ** Expanding a user in the VIP list *)

(** X30.  Clicking a user in the VIP list flips whether that user is
    expanded and leaves the other users as they are; a second click
    brings back the same set of expanded users, and a list without
    repetitions stays without repetitions. *)
Theorem toggle_expanded_flips userId prev :
  NoDup prev ->
  let next := VipAdmin.toggleUserExpanded userId prev in
  NoDup next /\
  (userId ∈ next <-> userId ∉ prev) /\
  (forall id, id <> userId -> id ∈ next <-> id ∈ prev) /\
  (forall id, id ∈ VipAdmin.toggleUserExpanded userId next <-> id ∈ prev).
Proof.
  intros Hnd next.
  assert (Hfilter : forall l id,
            id ∈ List.filter (fun i => negb (bool_decide (i = userId))) l
            <-> id ∈ l /\ id <> userId).
  { intros l id. rewrite !list_elem_of_In, filter_In.
    rewrite negb_true_iff, bool_decide_eq_false. done. }
  assert (Hflip : forall l,
            (userId ∈ VipAdmin.toggleUserExpanded userId l <-> userId ∉ l) /\
            (forall id, id <> userId ->
               id ∈ VipAdmin.toggleUserExpanded userId l <-> id ∈ l)).
  { intros l. unfold VipAdmin.toggleUserExpanded. case_bool_decide as Hin.
    - split.
      + rewrite Hfilter. tauto.
      + intros id Hne. rewrite Hfilter. tauto.
    - split.
      + rewrite elem_of_app, list_elem_of_singleton. tauto.
      + intros id Hne. rewrite elem_of_app, list_elem_of_singleton. tauto. }
  split_and!.
  - unfold next, VipAdmin.toggleUserExpanded. case_bool_decide as Hin.
    + clear Hin. induction Hnd as [|x l Hx Hl IH]; simpl; [constructor|].
      destruct (negb (bool_decide (x = userId))); [|done].
      apply NoDup_cons. split; [|done]. rewrite Hfilter. tauto.
    + apply NoDup_app. split_and!; [done| |apply NoDup_singleton].
      intros x Hx ->%list_elem_of_singleton. done.
  - apply Hflip.
  - apply Hflip.
  - intros id. destruct (decide (id = userId)) as [->|Hne].
    + pose proof (proj1 (Hflip next)) as H1.
      pose proof (proj1 (Hflip prev)) as H2. fold next in H2.
      destruct (decide (userId ∈ prev)); tauto.
    + rewrite (proj2 (Hflip next)) by done. by apply Hflip.
Qed.

Lemma toggle_expanded_flips_witness :
  NoDup (VipAdmin.toggleUserExpanded "a" ["a"; "b"]) /\
  ("a" ∈ VipAdmin.toggleUserExpanded "a" ["a"; "b"] <-> "a" ∉ ["a"; "b"]) /\
  (forall id, id <> "a" ->
     id ∈ VipAdmin.toggleUserExpanded "a" ["a"; "b"] <-> id ∈ ["a"; "b"]) /\
  (forall id,
     id ∈ VipAdmin.toggleUserExpanded "a"
            (VipAdmin.toggleUserExpanded "a" ["a"; "b"])
     <-> id ∈ ["a"; "b"]).
Proof.
  apply (toggle_expanded_flips "a" ["a"; "b"]).
  decide_by_compute.
Defined.
